(** * Rygar arcade board: the CPU bus callback, the palette cache and the
      vertical-blank interrupt timing of [src/rygar.c], embedded in Rocq.

    Conventions of the embedding:
    - C integers are values of [Z]; [uint8_t]/[uint16_t] truncations are
      written out with [mod]; arithmetic on the two [int] counters is checked
      (signed overflow is undefined in C and is an error here);
    - C arrays are lists read with [!!] and written with [<[ _ := _ ]>]; an
      index outside the array is undefined in C and is an error ([None]);
    - the machine is the global [rygar] of the source, passed explicitly. *)

From Stdlib Require Import ZArith Lia Bool.
From stdpp Require Import base option list gmap.
From coqutil Require Import Z.bitblast.

Open Scope Z_scope.

(** ** Constants of [rygar.c] (lines 19-92) *)

Definition BETWEEN (n a b : Z) : bool := (a <=? n) && (n <=? b).

Definition CHAR_RAM_SIZE : Z := 0x800.
Definition CHAR_RAM_START : Z := 0xd000.
Definition CHAR_RAM_END : Z := CHAR_RAM_START + CHAR_RAM_SIZE - 1.

Definition FG_RAM_SIZE : Z := 0x400.
Definition FG_RAM_START : Z := 0xd800.
Definition FG_RAM_END : Z := FG_RAM_START + FG_RAM_SIZE - 1.

Definition BG_RAM_SIZE : Z := 0x400.
Definition BG_RAM_START : Z := 0xdc00.
Definition BG_RAM_END : Z := BG_RAM_START + BG_RAM_SIZE - 1.

Definition SPRITE_RAM_SIZE : Z := 0x800.
Definition SPRITE_RAM_START : Z := 0xe000.

Definition PALETTE_RAM_SIZE : Z := 0x800.
Definition PALETTE_RAM_START : Z := 0xe800.
Definition PALETTE_RAM_END : Z := PALETTE_RAM_START + PALETTE_RAM_SIZE - 1.

Definition WORK_RAM_SIZE : Z := 0x1000.
Definition WORK_RAM_START : Z := 0xc000.

Definition RAM_SIZE : Z := 0x3000.
Definition RAM_START : Z := 0xc000.
Definition RAM_END : Z := RAM_START + RAM_SIZE - 1.

Definition BANK_SIZE : Z := 0x8000.
Definition BANK_WINDOW_SIZE : Z := 0x800.
Definition BANK_WINDOW_START : Z := 0xf000.
Definition BANK_WINDOW_END : Z := BANK_WINDOW_START + BANK_WINDOW_SIZE - 1.

(* inputs *)
Definition JOYSTICK1 : Z := 0xf800.
Definition BUTTONS1 : Z := 0xf801.
Definition JOYSTICK2 : Z := 0xf802.
Definition BUTTONS2 : Z := 0xf803.
Definition SYS1 : Z := 0xf804.
Definition SYS2 : Z := 0xf805.
Definition DIP_SW1_L : Z := 0xf806.
Definition DIP_SW1_H : Z := 0xf807.
Definition DIP_SW2_L : Z := 0xf808.
Definition DIP_SW2_H : Z := 0xf809.

(* outputs *)
Definition FG_SCROLL_START : Z := 0xf800.
Definition FG_SCROLL_END : Z := 0xf802.
Definition BG_SCROLL_START : Z := 0xf803.
Definition BG_SCROLL_END : Z := 0xf805.
Definition BANK_SWITCH : Z := 0xf808.

Definition SCROLL_OFFSET : Z := 48.

(* C integer division of non-negative constants: [/] truncates, as [÷]. *)
Definition CPU_FREQ : Z := 4000000.
Definition VSYNC_PERIOD_4MHZ : Z := 4000000 ÷ 60.
Definition VBLANK_DURATION_4MHZ : Z := ((4000000 ÷ 60) ÷ 525) * (525 - 483).

Definition PALETTE_ENTRIES : Z := 1024.

(** ** Checked [int] arithmetic

    [vsync_count], [vblank_count] and [num_ticks] are C [int]s (32 bits on
    the targets of the emulator). *)

Definition INT_MIN : Z := - 2 ^ 31.
Definition INT_MAX : Z := 2 ^ 31 - 1.

Definition int_checked (z : Z) : option Z :=
  if (INT_MIN <=? z) && (z <=? INT_MAX) then Some z else None.

Definition int_sub (a b : Z) : option Z := int_checked (a - b).
Definition int_add (a b : Z) : option Z := int_checked (a + b).

(** ** The Z80 pin word

    [chips/z80.h] of the CPU core is not part of the sources at hand, so its
    pin masks and accessor macros are parameters of the development: a pin
    word is a 64-bit value carrying a 16-bit address, an 8-bit data byte and
    the control flags; the callback only uses the six masks and the three
    accessors below.  [chips_pins] further down is the layout that header
    uses and serves for the concrete evaluations. *)

Class Z80Pins := {
  Z80_M1 : Z;
  Z80_MREQ : Z;
  Z80_IORQ : Z;
  Z80_RD : Z;
  Z80_WR : Z;
  Z80_INT : Z;
  Z80_GET_ADDR : Z -> Z;
  Z80_GET_DATA : Z -> Z;
  Z80_SET_DATA : Z -> Z -> Z
}.

(** The C test [pins & MASK] used as a condition. *)
Definition pin (pins mask : Z) : bool := negb (Z.land pins mask =? 0).

(** What the callback relies on: the address is 16 bits wide and the data
    byte 8 bits wide, [Z80_SET_DATA] puts a byte on the data lines and leaves
    the INT line alone, and asserting INT disturbs neither the address, the
    data nor the other control flags. *)
Record Z80PinsContract (P : Z80Pins) : Prop := {
  addr_16bit : forall p, 0 <= Z80_GET_ADDR p < 0x10000;
  data_8bit : forall p, 0 <= Z80_GET_DATA p < 0x100;
  get_set_data : forall p d, Z80_GET_DATA (Z80_SET_DATA p d) = d mod 0x100;
  set_data_int : forall p d, pin (Z80_SET_DATA p d) Z80_INT = pin p Z80_INT;
  int_asserted : forall p, pin (Z.lor p Z80_INT) Z80_INT = true;
  int_addr : forall p, Z80_GET_ADDR (Z.lor p Z80_INT) = Z80_GET_ADDR p;
  int_data : forall p, Z80_GET_DATA (Z.lor p Z80_INT) = Z80_GET_DATA p;
  int_m1 : forall p, pin (Z.lor p Z80_INT) Z80_M1 = pin p Z80_M1;
  int_mreq : forall p, pin (Z.lor p Z80_INT) Z80_MREQ = pin p Z80_MREQ;
  int_iorq : forall p, pin (Z.lor p Z80_INT) Z80_IORQ = pin p Z80_IORQ;
  int_rd : forall p, pin (Z.lor p Z80_INT) Z80_RD = pin p Z80_RD;
  int_wr : forall p, pin (Z.lor p Z80_INT) Z80_WR = pin p Z80_WR
}.

(** A pin layout to evaluate on, the one of the chips Z80 core: address on
    bits 0-15, data on bits 16-23, then M1, MREQ, IORQ, RD, WR on bits 24-28
    and INT on bit 30.  [chips_pins_contract] shows that it meets the
    contract. *)
#[export] Instance chips_pins : Z80Pins := {|
  Z80_M1 := Z.shiftl 1 24;
  Z80_MREQ := Z.shiftl 1 25;
  Z80_IORQ := Z.shiftl 1 26;
  Z80_RD := Z.shiftl 1 27;
  Z80_WR := Z.shiftl 1 28;
  Z80_INT := Z.shiftl 1 30;
  Z80_GET_ADDR := fun p => Z.land p 0xFFFF;
  Z80_GET_DATA := fun p => Z.shiftr (Z.land p 0xFF0000) 16;
  Z80_SET_DATA := fun p d =>
    Z.lor (Z.land p (Z.lnot 0xFF0000)) (Z.land (Z.shiftl d 16) 0xFF0000)
|}.

(** A bus word of that layout with the given control flags, address and
    data byte. *)
Definition chips_bus (ctrl addr data : Z) : Z :=
  Z.lor ctrl (Z.lor (Z.shiftl data 16) addr).

(** ** Tilemaps *)

(** Modelled from the spec: [tilemap_t] of [tilemap.h] is not under src/.
    A tilemap has [cols * rows] cells, a set of dirty cells and a horizontal
    scroll (spec 4.4). *)
Record tilemap_t := {
  cols : Z;
  rows : Z;
  dirty : gset Z;
  scroll_x : Z
}.

(** Modelled from the spec: [tilemap_mark_tile_dirty] of [tilemap.h] is not
    under src/; it sets bit [idx mod (cols*rows)] of the dirty set. *)
Definition tilemap_mark_tile_dirty (t : tilemap_t) (index : Z) : tilemap_t :=
  {| cols := cols t; rows := rows t;
     dirty := {[ index mod (cols t * rows t) ]} ∪ dirty t;
     scroll_x := scroll_x t |}.

(** Modelled from the spec: [tilemap_set_scroll_x] of [tilemap.h] is not
    under src/; it stores [v] as a 16-bit wrap value. *)
Definition tilemap_set_scroll_x (t : tilemap_t) (v : Z) : tilemap_t :=
  {| cols := cols t; rows := rows t; dirty := dirty t;
     scroll_x := v mod 0x10000 |}.

(** Modelled from the spec: [tilemap_init] is not under src/; the descriptor
    gives the grid size (lines 316-357).  Neither the spec nor the sources
    say what scroll and which dirty cells it leaves; zero and none stand in
    for them, and no theorem depends on the choice: what is evaluated on
    [power_on] is stated relative to these initial values. *)
Definition tilemap_init (c r : Z) : tilemap_t :=
  {| cols := c; rows := r; dirty := ∅; scroll_x := 0 |}.

(** ** Machine state (lines 94-145)

    [mainboard_t] and [rygar_t] with the fields the bus callback reads or
    writes; the clock, the CPU core, the decoded tile ROMs and the frame
    bitmap, which it never touches, are left out. *)

Record mainboard_t := {
  (* read-only pages of [mem]: dump_5 at 0x0000, dump_cpu_5m at 0x8000 *)
  rom : list Z;
  (* ram *)
  work_ram : list Z;
  char_ram : list Z;
  fg_ram : list Z;
  bg_ram : list Z;
  sprite_ram : list Z;
  palette_ram : list Z;
  (* bank switched rom *)
  banked_rom : list Z;
  current_bank : Z;
  (* input registers *)
  joystick : Z;
  buttons : Z;
  sys : Z;
  (* tilemap scroll offset registers *)
  fg_scroll : list Z;
  bg_scroll : list Z
}.

Record rygar_t := {
  main : mainboard_t;
  (* tilemaps *)
  char_tilemap : tilemap_t;
  fg_tilemap : tilemap_t;
  bg_tilemap : tilemap_t;
  (* 32-bit RGBA color palette cache *)
  palette : list Z;
  (* counters *)
  vsync_count : Z;
  vblank_count : Z
}.

(** Field updates. *)
Definition set_work_ram (l : list Z) (m : mainboard_t) : mainboard_t :=
  {| rom := rom m; work_ram := l; char_ram := char_ram m; fg_ram := fg_ram m;
     bg_ram := bg_ram m; sprite_ram := sprite_ram m;
     palette_ram := palette_ram m; banked_rom := banked_rom m;
     current_bank := current_bank m; joystick := joystick m;
     buttons := buttons m; sys := sys m; fg_scroll := fg_scroll m;
     bg_scroll := bg_scroll m |}.

Definition set_char_ram (l : list Z) (m : mainboard_t) : mainboard_t :=
  {| rom := rom m; work_ram := work_ram m; char_ram := l; fg_ram := fg_ram m;
     bg_ram := bg_ram m; sprite_ram := sprite_ram m;
     palette_ram := palette_ram m; banked_rom := banked_rom m;
     current_bank := current_bank m; joystick := joystick m;
     buttons := buttons m; sys := sys m; fg_scroll := fg_scroll m;
     bg_scroll := bg_scroll m |}.

Definition set_fg_ram (l : list Z) (m : mainboard_t) : mainboard_t :=
  {| rom := rom m; work_ram := work_ram m; char_ram := char_ram m; fg_ram := l;
     bg_ram := bg_ram m; sprite_ram := sprite_ram m;
     palette_ram := palette_ram m; banked_rom := banked_rom m;
     current_bank := current_bank m; joystick := joystick m;
     buttons := buttons m; sys := sys m; fg_scroll := fg_scroll m;
     bg_scroll := bg_scroll m |}.

Definition set_bg_ram (l : list Z) (m : mainboard_t) : mainboard_t :=
  {| rom := rom m; work_ram := work_ram m; char_ram := char_ram m;
     fg_ram := fg_ram m; bg_ram := l; sprite_ram := sprite_ram m;
     palette_ram := palette_ram m; banked_rom := banked_rom m;
     current_bank := current_bank m; joystick := joystick m;
     buttons := buttons m; sys := sys m; fg_scroll := fg_scroll m;
     bg_scroll := bg_scroll m |}.

Definition set_sprite_ram (l : list Z) (m : mainboard_t) : mainboard_t :=
  {| rom := rom m; work_ram := work_ram m; char_ram := char_ram m;
     fg_ram := fg_ram m; bg_ram := bg_ram m; sprite_ram := l;
     palette_ram := palette_ram m; banked_rom := banked_rom m;
     current_bank := current_bank m; joystick := joystick m;
     buttons := buttons m; sys := sys m; fg_scroll := fg_scroll m;
     bg_scroll := bg_scroll m |}.

Definition set_palette_ram (l : list Z) (m : mainboard_t) : mainboard_t :=
  {| rom := rom m; work_ram := work_ram m; char_ram := char_ram m;
     fg_ram := fg_ram m; bg_ram := bg_ram m; sprite_ram := sprite_ram m;
     palette_ram := l; banked_rom := banked_rom m;
     current_bank := current_bank m; joystick := joystick m;
     buttons := buttons m; sys := sys m; fg_scroll := fg_scroll m;
     bg_scroll := bg_scroll m |}.

Definition set_current_bank (b : Z) (m : mainboard_t) : mainboard_t :=
  {| rom := rom m; work_ram := work_ram m; char_ram := char_ram m;
     fg_ram := fg_ram m; bg_ram := bg_ram m; sprite_ram := sprite_ram m;
     palette_ram := palette_ram m; banked_rom := banked_rom m;
     current_bank := b; joystick := joystick m;
     buttons := buttons m; sys := sys m; fg_scroll := fg_scroll m;
     bg_scroll := bg_scroll m |}.

Definition set_fg_scroll (l : list Z) (m : mainboard_t) : mainboard_t :=
  {| rom := rom m; work_ram := work_ram m; char_ram := char_ram m;
     fg_ram := fg_ram m; bg_ram := bg_ram m; sprite_ram := sprite_ram m;
     palette_ram := palette_ram m; banked_rom := banked_rom m;
     current_bank := current_bank m; joystick := joystick m;
     buttons := buttons m; sys := sys m; fg_scroll := l;
     bg_scroll := bg_scroll m |}.

Definition set_bg_scroll (l : list Z) (m : mainboard_t) : mainboard_t :=
  {| rom := rom m; work_ram := work_ram m; char_ram := char_ram m;
     fg_ram := fg_ram m; bg_ram := bg_ram m; sprite_ram := sprite_ram m;
     palette_ram := palette_ram m; banked_rom := banked_rom m;
     current_bank := current_bank m; joystick := joystick m;
     buttons := buttons m; sys := sys m; fg_scroll := fg_scroll m;
     bg_scroll := l |}.

Definition set_main (m : mainboard_t) (s : rygar_t) : rygar_t :=
  {| main := m; char_tilemap := char_tilemap s; fg_tilemap := fg_tilemap s;
     bg_tilemap := bg_tilemap s; palette := palette s;
     vsync_count := vsync_count s; vblank_count := vblank_count s |}.

Definition set_char_tilemap (t : tilemap_t) (s : rygar_t) : rygar_t :=
  {| main := main s; char_tilemap := t; fg_tilemap := fg_tilemap s;
     bg_tilemap := bg_tilemap s; palette := palette s;
     vsync_count := vsync_count s; vblank_count := vblank_count s |}.

Definition set_fg_tilemap (t : tilemap_t) (s : rygar_t) : rygar_t :=
  {| main := main s; char_tilemap := char_tilemap s; fg_tilemap := t;
     bg_tilemap := bg_tilemap s; palette := palette s;
     vsync_count := vsync_count s; vblank_count := vblank_count s |}.

Definition set_bg_tilemap (t : tilemap_t) (s : rygar_t) : rygar_t :=
  {| main := main s; char_tilemap := char_tilemap s;
     fg_tilemap := fg_tilemap s; bg_tilemap := t; palette := palette s;
     vsync_count := vsync_count s; vblank_count := vblank_count s |}.

Definition set_palette (l : list Z) (s : rygar_t) : rygar_t :=
  {| main := main s; char_tilemap := char_tilemap s;
     fg_tilemap := fg_tilemap s; bg_tilemap := bg_tilemap s; palette := l;
     vsync_count := vsync_count s; vblank_count := vblank_count s |}.

Definition set_counters (v b : Z) (s : rygar_t) : rygar_t :=
  {| main := main s; char_tilemap := char_tilemap s;
     fg_tilemap := fg_tilemap s; bg_tilemap := bg_tilemap s;
     palette := palette s; vsync_count := v; vblank_count := b |}.

(** ** C array accesses *)

Definition array_get (a : list Z) (i : Z) : option Z :=
  if 0 <=? i then a !! Z.to_nat i else None.

Definition array_set (a : list Z) (i v : Z) : option (list Z) :=
  if (0 <=? i) && (i <? Z.of_nat (length a))
  then Some (<[Z.to_nat i := v]> a) else None.

(** ** Mapped memory *)

(** Modelled from the spec: [chips/mem.h] is not under src/.  [rygar_init]
    (lines 382-389) maps the two program ROMs at 0x0000-0xBFFF and the six
    RAM arrays at 0xC000-0xEFFF; a read returns the last byte written to the
    underlying RAM, writes to ROM are ignored (spec 3, invariant 4). *)
Definition mem_wr (m : mainboard_t) (addr data : Z) : mainboard_t :=
  if BETWEEN addr WORK_RAM_START (WORK_RAM_START + WORK_RAM_SIZE - 1) then
    set_work_ram (<[Z.to_nat (addr - WORK_RAM_START) := data]> (work_ram m)) m
  else if BETWEEN addr CHAR_RAM_START CHAR_RAM_END then
    set_char_ram (<[Z.to_nat (addr - CHAR_RAM_START) := data]> (char_ram m)) m
  else if BETWEEN addr FG_RAM_START FG_RAM_END then
    set_fg_ram (<[Z.to_nat (addr - FG_RAM_START) := data]> (fg_ram m)) m
  else if BETWEEN addr BG_RAM_START BG_RAM_END then
    set_bg_ram (<[Z.to_nat (addr - BG_RAM_START) := data]> (bg_ram m)) m
  else if BETWEEN addr SPRITE_RAM_START (SPRITE_RAM_START + SPRITE_RAM_SIZE - 1) then
    set_sprite_ram
      (<[Z.to_nat (addr - SPRITE_RAM_START) := data]> (sprite_ram m)) m
  else if BETWEEN addr PALETTE_RAM_START PALETTE_RAM_END then
    set_palette_ram
      (<[Z.to_nat (addr - PALETTE_RAM_START) := data]> (palette_ram m)) m
  else m.

Definition mem_rd (m : mainboard_t) (addr : Z) : Z :=
  if BETWEEN addr WORK_RAM_START (WORK_RAM_START + WORK_RAM_SIZE - 1) then
    work_ram m !!! Z.to_nat (addr - WORK_RAM_START)
  else if BETWEEN addr CHAR_RAM_START CHAR_RAM_END then
    char_ram m !!! Z.to_nat (addr - CHAR_RAM_START)
  else if BETWEEN addr FG_RAM_START FG_RAM_END then
    fg_ram m !!! Z.to_nat (addr - FG_RAM_START)
  else if BETWEEN addr BG_RAM_START BG_RAM_END then
    bg_ram m !!! Z.to_nat (addr - BG_RAM_START)
  else if BETWEEN addr SPRITE_RAM_START (SPRITE_RAM_START + SPRITE_RAM_SIZE - 1) then
    sprite_ram m !!! Z.to_nat (addr - SPRITE_RAM_START)
  else if BETWEEN addr PALETTE_RAM_START PALETTE_RAM_END then
    palette_ram m !!! Z.to_nat (addr - PALETTE_RAM_START)
  else rom m !!! Z.to_nat addr.

(** ** [rygar_update_palette] (lines 156-172) *)

(** Lines 160-169: the new cache entry from the old one [c]. *)
Definition palette_color (addr data c : Z) : Z :=
  if negb (Z.land addr 1 =? 0) then
    (* odd addresses are the RRRRGGGG part *)
    let r := Z.lor (Z.land data 0xf0) (Z.land (Z.shiftr data 4) 0x0f) in
    let g := Z.lor (Z.land data 0x0f) (Z.land (Z.shiftl data 4) 0xf0) in
    Z.lor (Z.lor (Z.lor 0xff000000 (Z.land c 0x00ff0000)) (Z.shiftl g 8)) r
  else
    (* even addresses are the xxxxBBBB part *)
    let b := Z.lor (Z.land data 0x0f) (Z.land (Z.shiftl data 4) 0xf0) in
    Z.lor (Z.lor 0xff000000 (Z.land c 0x0000ffff)) (Z.shiftl b 16).

Definition rygar_update_palette (addr data : Z) (s : rygar_t) : option rygar_t :=
  let pal_index := Z.shiftr addr 1 in
  c ← array_get (palette s) pal_index;
  pal ← array_set (palette s) pal_index (palette_color addr data c);
  Some (set_palette pal s).

(** The four bytes of a 32-bit cache entry: red is the low byte, then green,
    blue, and alpha in the upper 8 bits. *)
Definition red (c : Z) : Z := Z.land c 0xff.
Definition green (c : Z) : Z := Z.land (Z.shiftr c 8) 0xff.
Definition blue (c : Z) : Z := Z.land (Z.shiftr c 16) 0xff.
Definition alpha (c : Z) : Z := Z.land (Z.shiftr c 24) 0xff.

(** Nibble replication as the spec writes it (4.2). *)
Definition replicate_low_nibble (d : Z) : Z :=
  Z.lor (Z.land d 0x0F) (Z.land (Z.shiftl d 4) 0xF0).
Definition replicate_high_nibble (d : Z) : Z :=
  Z.lor (Z.land d 0xF0) (Z.land (Z.shiftr d 4) 0x0F).

(** ** [rygar_tick_main] (lines 177-245) *)

Section Tick.
Context {P : Z80Pins}.

(** Lines 178-190: the vsync and vblank counters and the INT pin. *)
Definition tick_counters (num_ticks pins : Z) (s : rygar_t) : option (rygar_t * Z) :=
  v ← int_sub (vsync_count s) num_ticks;
  vb ← (if v <=? 0
        then v' ← int_add v VSYNC_PERIOD_4MHZ; Some (v', VBLANK_DURATION_4MHZ)
        else Some (v, vblank_count s));
  bp ← (if 0 <? vb.2
        then b' ← int_sub vb.2 num_ticks;
             Some (b', Z.lor pins Z80_INT) (* activate INT pin during VBLANK *)
        else Some (0, pins));
  Some (set_counters vb.1 bp.1 s, bp.2).

(** Lines 192-244: the address decoder. *)
Definition tick_bus (pins : Z) (s : rygar_t) : option (rygar_t * Z) :=
  let addr := Z80_GET_ADDR pins in
  if pin pins Z80_MREQ then
    if pin pins Z80_WR then
      let data := Z80_GET_DATA pins in
      if BETWEEN addr RAM_START RAM_END then
        let s := set_main (mem_wr (main s) addr data) s in
        if BETWEEN addr CHAR_RAM_START CHAR_RAM_END then
          Some (set_char_tilemap
                  (tilemap_mark_tile_dirty (char_tilemap s)
                     (Z.land (addr - CHAR_RAM_START) 0x3ff)) s, pins)
        else if BETWEEN addr FG_RAM_START FG_RAM_END then
          Some (set_fg_tilemap
                  (tilemap_mark_tile_dirty (fg_tilemap s)
                     (Z.land (addr - FG_RAM_START) 0x1ff)) s, pins)
        else if BETWEEN addr BG_RAM_START BG_RAM_END then
          Some (set_bg_tilemap
                  (tilemap_mark_tile_dirty (bg_tilemap s)
                     (Z.land (addr - BG_RAM_START) 0x1ff)) s, pins)
        else if BETWEEN addr PALETTE_RAM_START PALETTE_RAM_END then
          s' ← rygar_update_palette (addr - PALETTE_RAM_START) data s;
          Some (s', pins)
        else Some (s, pins)
      else if BETWEEN addr FG_SCROLL_START FG_SCROLL_END then
        let offset := (addr - FG_SCROLL_START) mod 0x100 in
        sc ← array_set (fg_scroll (main s)) offset data;
        s1 ← array_get sc 1;
        s0 ← array_get sc 0;
        Some (set_fg_tilemap
                (tilemap_set_scroll_x (fg_tilemap s)
                   (Z.lor (Z.shiftl s1 8) s0 + SCROLL_OFFSET))
                (set_main (set_fg_scroll sc (main s)) s), pins)
      else if BETWEEN addr BG_SCROLL_START BG_SCROLL_END then
        let offset := (addr - BG_SCROLL_START) mod 0x100 in
        sc ← array_set (bg_scroll (main s)) offset data;
        s1 ← array_get sc 1;
        s0 ← array_get sc 0;
        Some (set_bg_tilemap
                (tilemap_set_scroll_x (bg_tilemap s)
                   (Z.lor (Z.shiftl s1 8) s0 + SCROLL_OFFSET))
                (set_main (set_bg_scroll sc (main s)) s), pins)
      else if addr =? BANK_SWITCH then
        (* bank addressed by DO3-DO6 in schematic *)
        Some (set_main (set_current_bank (Z.shiftr data 3) (main s)) s, pins)
      else Some (s, pins)
    else if pin pins Z80_RD then
      if addr <=? RAM_END then
        Some (s, Z80_SET_DATA pins (mem_rd (main s) addr))
      else if BETWEEN addr BANK_WINDOW_START BANK_WINDOW_END then
        let banked_addr :=
          (addr - BANK_WINDOW_START
           + current_bank (main s) * BANK_WINDOW_SIZE) mod 0x10000 in
        d ← array_get (banked_rom (main s)) banked_addr;
        Some (s, Z80_SET_DATA pins d)
      else if addr =? JOYSTICK1 then
        Some (s, Z80_SET_DATA pins (joystick (main s)))
      else if addr =? BUTTONS1 then
        Some (s, Z80_SET_DATA pins (buttons (main s)))
      else if addr =? SYS1 then
        Some (s, Z80_SET_DATA pins (sys (main s)))
      else if addr =? DIP_SW2_H then
        Some (s, Z80_SET_DATA pins 0x8)
      else
        Some (s, Z80_SET_DATA pins 0)
    else Some (s, pins)
  else if pin pins Z80_IORQ && pin pins Z80_M1 then
    (* clear interrupt *)
    Some (s, Z.land pins (Z.lnot Z80_INT))
  else Some (s, pins).

Definition rygar_tick_main (num_ticks pins : Z) (s : rygar_t) : option (rygar_t * Z) :=
  sp ← tick_counters num_ticks pins s;
  tick_bus sp.2 sp.1.

(** The callback driven over a sequence of bus words, [num_ticks] ticks per
    call; the result is the list of returned bus words and the final state. *)
Fixpoint run_ticks (num_ticks : Z) (ps : list Z) (s : rygar_t) : option (list Z * rygar_t) :=
  match ps with
  | [] => Some ([], s)
  | p :: ps' =>
      sp ← rygar_tick_main num_ticks p s;
      r ← run_ticks num_ticks ps' sp.1;
      Some (sp.2 :: r.1, r.2)
  end.

(** Number of returned bus words with the INT pin asserted. *)
Definition int_count (outs : list Z) : nat :=
  length (filter (fun p => pin p Z80_INT = true) outs).

End Tick.

(** ** [rygar_init] (lines 371-395)

    The ROM dumps of [rygar-roms.h] are arguments.  Lines 382-383 map 0x8000
    bytes of [dump_5] at 0x0000 and 0x4000 bytes of [dump_cpu_5m] at 0x8000:
    each dump is cut to the size of its mapping, and one shorter than its
    mapping, which C would read past its end, is filled up with zeros, the
    byte [mem_rd] gives outside its lists. *)
Definition zeros (n : Z) : list Z := replicate (Z.to_nat n) 0.

Definition rygar_init (dump_5 dump_cpu_5m dump_cpu_5j : list Z) : rygar_t :=
  {| main :=
       {| rom := resize (Z.to_nat 0x8000) 0 dump_5
                 ++ resize (Z.to_nat 0x4000) 0 dump_cpu_5m;
          work_ram := zeros WORK_RAM_SIZE;
          char_ram := zeros CHAR_RAM_SIZE;
          fg_ram := zeros FG_RAM_SIZE;
          bg_ram := zeros BG_RAM_SIZE;
          sprite_ram := zeros SPRITE_RAM_SIZE;
          palette_ram := zeros PALETTE_RAM_SIZE;
          banked_rom := take (Z.to_nat BANK_SIZE) dump_cpu_5j;
          current_bank := 0;
          joystick := 0; buttons := 0; sys := 0;
          fg_scroll := zeros 3; bg_scroll := zeros 3 |};
     char_tilemap := tilemap_init 32 32;
     fg_tilemap := tilemap_init 32 16;
     bg_tilemap := tilemap_init 32 16;
     palette := zeros PALETTE_ENTRIES;
     vsync_count := VSYNC_PERIOD_4MHZ;
     vblank_count := 0 |}.

(** ** Well-formed machine states

    The array sizes fixed by the C types, the byte range of the [uint8_t]
    registers, the tilemap grids set up by [rygar_decode_tiles], and the range
    in which the two counters live once the machine runs. *)

Definition is_byte (z : Z) : bool := (0 <=? z) && (z <? 0x100).

Definition arrays_ok (s : rygar_t) : bool :=
  (Z.of_nat (length (palette s)) =? PALETTE_ENTRIES)
  && (Z.of_nat (length (banked_rom (main s))) =? BANK_SIZE)
  && forallb is_byte (banked_rom (main s))
  && (Z.of_nat (length (fg_scroll (main s))) =? 3)
  && forallb is_byte (fg_scroll (main s))
  && (Z.of_nat (length (bg_scroll (main s))) =? 3)
  && forallb is_byte (bg_scroll (main s))
  && is_byte (current_bank (main s))
  && is_byte (joystick (main s))
  && is_byte (buttons (main s))
  && is_byte (sys (main s)).

Definition tilemaps_ok (s : rygar_t) : bool :=
  (cols (char_tilemap s) * rows (char_tilemap s) =? 0x400)
  && (cols (fg_tilemap s) * rows (fg_tilemap s) =? 0x200)
  && (cols (bg_tilemap s) * rows (bg_tilemap s) =? 0x200).

Definition counters_ok (s : rygar_t) : bool :=
  (1 <=? vsync_count s) && (vsync_count s <=? VSYNC_PERIOD_4MHZ)
  && (- VSYNC_PERIOD_4MHZ <=? vblank_count s)
  && (vblank_count s <=? VBLANK_DURATION_4MHZ).

Definition well_formed (s : rygar_t) : bool :=
  arrays_ok s && tilemaps_ok s && counters_ok s.

(** Tick counts the CPU core hands to the callback. *)
Definition ticks_ok (num_ticks : Z) : bool :=
  (0 <=? num_ticks) && (num_ticks <=? VSYNC_PERIOD_4MHZ).

(** The counters after one call, and whether the call asserts INT. *)
Definition vsync_reloads (num_ticks : Z) (s : rygar_t) : bool :=
  vsync_count s - num_ticks <=? 0.

Definition vsync_next (num_ticks : Z) (s : rygar_t) : Z :=
  if vsync_reloads num_ticks s
  then vsync_count s - num_ticks + VSYNC_PERIOD_4MHZ
  else vsync_count s - num_ticks.

Definition in_vblank (num_ticks : Z) (s : rygar_t) : bool :=
  0 <? (if vsync_reloads num_ticks s then VBLANK_DURATION_4MHZ
        else vblank_count s).

Definition vblank_next (num_ticks : Z) (s : rygar_t) : Z :=
  if in_vblank num_ticks s
  then (if vsync_reloads num_ticks s then VBLANK_DURATION_4MHZ
        else vblank_count s) - num_ticks
  else 0.

(** The state from the first vsync reload onwards: [vblank_count] is what is
    left of the pulse started at the last reload. *)
Definition after_reload (s : rygar_t) : bool :=
  (1 <=? vsync_count s) && (vsync_count s <=? VSYNC_PERIOD_4MHZ)
  && (vblank_count s
      =? Z.max 0 (VBLANK_DURATION_4MHZ - 1
                  - (VSYNC_PERIOD_4MHZ - vsync_count s))).

(** An interrupt-acknowledge cycle as the decoder sees it. *)
Definition is_ack `{Z80Pins} (pins : Z) : bool :=
  negb (pin pins Z80_MREQ) && pin pins Z80_IORQ && pin pins Z80_M1.

(** The bus word after lines 185-190. *)
Definition drive_int `{Z80Pins} (num_ticks pins : Z) (s : rygar_t) : Z :=
  if in_vblank num_ticks s then Z.lor pins Z80_INT else pins.

(** The machine after the counters phase of one call. *)
Definition ticked (n : Z) (s : rygar_t) : rygar_t :=
  set_counters (vsync_next n s) (vblank_next n s) s.

(** The scroll-X of a layer as lines 213 and 217 compute it from the latch
    bytes before handing it to [tilemap_set_scroll_x]. *)
Definition effective_scroll_x (scroll : list Z) : option Z :=
  s1 ← array_get scroll 1;
  s0 ← array_get scroll 0;
  Some (Z.lor (Z.shiftl s1 8) s0 + SCROLL_OFFSET).

(** A read of the bank window whose index lies beyond [banked_rom]. *)
Definition reads_past_rom `{Z80Pins} (p : Z) (s : rygar_t) : bool :=
  pin p Z80_MREQ && negb (pin p Z80_WR) && pin p Z80_RD
  && BETWEEN (Z80_GET_ADDR p) BANK_WINDOW_START BANK_WINDOW_END
  && (BANK_SIZE <=? (Z80_GET_ADDR p - BANK_WINDOW_START
                     + current_bank (main s) * BANK_WINDOW_SIZE) mod 0x10000).

(** A write to the bank-switch register with data bit 7 set. *)
Definition sets_bank_bit7 `{Z80Pins} (p : Z) : bool :=
  pin p Z80_MREQ && pin p Z80_WR && (Z80_GET_ADDR p =? BANK_SWITCH)
  && (0x80 <=? Z80_GET_DATA p).

(** A bus word that neither carries INT already nor acknowledges it. *)
Definition quiet `{Z80Pins} (p : Z) : bool :=
  negb (pin p Z80_INT) && negb (is_ack p).

(** ** Concrete machines for the evaluations *)

(** A banked ROM whose byte at [i] tells the bank and the offset apart. *)
Fixpoint rom_bytes (n : nat) (i : Z) : list Z :=
  match n with
  | O => []
  | S n' => (i + i / 0x800) mod 0x100 :: rom_bytes n' (i + 1)
  end.

Definition sample_rom : list Z := rom_bytes (Z.to_nat BANK_SIZE) 0.

(** The machine right after [rygar_init], with blank program ROMs. *)
Definition power_on : rygar_t :=
  rygar_init (zeros 0x8000) (zeros 0x4000) sample_rom.

(** The machine right after its first vsync reload. *)
Definition reloaded : rygar_t :=
  set_counters VSYNC_PERIOD_4MHZ (VBLANK_DURATION_4MHZ - 1) power_on.

(** The machine [reloaded] once the CPU has written 0x10 and 0x02 to the
    first two scroll latches of both layers. *)
Definition scrolled : rygar_t :=
  set_bg_tilemap (tilemap_set_scroll_x (bg_tilemap reloaded) 0x240)
    (set_fg_tilemap (tilemap_set_scroll_x (fg_tilemap reloaded) 0x240)
       (set_main
          (set_bg_scroll [0x10; 0x02; 0]
             (set_fg_scroll [0x10; 0x02; 0] (main reloaded)))
          reloaded)).

(** Bus words of the chips layout: memory write, memory read, interrupt
    acknowledge, and a run of idle ticks (no control pin set). *)
Definition write_cycle (addr data : Z) : Z :=
  chips_bus (Z.lor Z80_MREQ Z80_WR) addr data.
Definition read_cycle (addr : Z) : Z :=
  chips_bus (Z.lor Z80_MREQ Z80_RD) addr 0.
Definition ack_cycle : Z := Z.lor Z80_IORQ Z80_M1.
Definition idle (n : Z) : list Z := replicate (Z.to_nat n) 0.

(** ** Tile callbacks (lines 247-281)

    [tile_t] of [tile.h] is not under src/; the callbacks assign its fields
    [code] and [color] and nothing else. *)

Record tile_t := {
  code : Z;
  color : Z
}.

Definition char_tile_info (s : rygar_t) (index : Z) : option tile_t :=
  lo ← array_get (char_ram (main s)) index;
  hi ← array_get (char_ram (main s)) (index + 0x400);
  (* the tile code is a 10-bit value, represented by the low byte and the
     two LSBs of the high byte; the four MSBs of the high byte represent the
     color value *)
  Some {| code := Z.lor (Z.shiftl (Z.land hi 0x03) 8) lo;
          color := Z.shiftr hi 4 |}.

Definition fg_tile_info (s : rygar_t) (index : Z) : option tile_t :=
  lo ← array_get (fg_ram (main s)) index;
  hi ← array_get (fg_ram (main s)) (index + 0x200);
  Some {| code := Z.lor (Z.shiftl (Z.land hi 0x07) 8) lo;
          color := Z.shiftr hi 4 |}.

Definition bg_tile_info (s : rygar_t) (index : Z) : option tile_t :=
  lo ← array_get (bg_ram (main s)) index;
  hi ← array_get (bg_ram (main s)) (index + 0x200);
  Some {| code := Z.lor (Z.shiftl (Z.land hi 0x07) 8) lo;
          color := Z.shiftr hi 4 |}.

(** ** Keyboard input (lines 461-492)

    [sapp_event] of [sokol_app.h] is not under src/; of its event types and
    key codes the handler tells apart the ones below, every other value
    falling into a [default] case. *)

Inductive sapp_event_type :=
  | SAPP_EVENTTYPE_KEY_DOWN
  | SAPP_EVENTTYPE_KEY_UP
  | SAPP_EVENTTYPE_OTHER.

Inductive sapp_keycode :=
  | SAPP_KEYCODE_LEFT
  | SAPP_KEYCODE_RIGHT
  | SAPP_KEYCODE_DOWN
  | SAPP_KEYCODE_UP
  | SAPP_KEYCODE_Z
  | SAPP_KEYCODE_X
  | SAPP_KEYCODE_1
  | SAPP_KEYCODE_OTHER.

Record sapp_event := {
  type : sapp_event_type;
  key_code : sapp_keycode
}.

Definition set_joystick (j : Z) (m : mainboard_t) : mainboard_t :=
  {| rom := rom m; work_ram := work_ram m; char_ram := char_ram m;
     fg_ram := fg_ram m; bg_ram := bg_ram m; sprite_ram := sprite_ram m;
     palette_ram := palette_ram m; banked_rom := banked_rom m;
     current_bank := current_bank m; joystick := j;
     buttons := buttons m; sys := sys m; fg_scroll := fg_scroll m;
     bg_scroll := bg_scroll m |}.

Definition set_buttons (b : Z) (m : mainboard_t) : mainboard_t :=
  {| rom := rom m; work_ram := work_ram m; char_ram := char_ram m;
     fg_ram := fg_ram m; bg_ram := bg_ram m; sprite_ram := sprite_ram m;
     palette_ram := palette_ram m; banked_rom := banked_rom m;
     current_bank := current_bank m; joystick := joystick m;
     buttons := b; sys := sys m; fg_scroll := fg_scroll m;
     bg_scroll := bg_scroll m |}.

Definition set_sys (y : Z) (m : mainboard_t) : mainboard_t :=
  {| rom := rom m; work_ram := work_ram m; char_ram := char_ram m;
     fg_ram := fg_ram m; bg_ram := bg_ram m; sprite_ram := sprite_ram m;
     palette_ram := palette_ram m; banked_rom := banked_rom m;
     current_bank := current_bank m; joystick := joystick m;
     buttons := buttons m; sys := y; fg_scroll := fg_scroll m;
     bg_scroll := bg_scroll m |}.

(** [reg |= (1 << bit)] and [reg &= ~(1 << bit)] on a [uint8_t]. *)
Definition bit_set (reg bit : Z) : Z := Z.lor reg (Z.shiftl 1 bit) mod 0x100.
Definition bit_clear (reg bit : Z) : Z :=
  Z.land reg (Z.lnot (Z.shiftl 1 bit)) mod 0x100.

Definition app_input (event : sapp_event) (s : rygar_t) : rygar_t :=
  let m := main s in
  match type event with
  | SAPP_EVENTTYPE_KEY_DOWN =>
      match key_code event with
      | SAPP_KEYCODE_LEFT => set_main (set_joystick (bit_set (joystick m) 0) m) s
      | SAPP_KEYCODE_RIGHT => set_main (set_joystick (bit_set (joystick m) 1) m) s
      | SAPP_KEYCODE_DOWN => set_main (set_joystick (bit_set (joystick m) 2) m) s
      | SAPP_KEYCODE_UP => set_main (set_joystick (bit_set (joystick m) 3) m) s
      | SAPP_KEYCODE_Z => set_main (set_buttons (bit_set (buttons m) 0) m) s (* attack *)
      | SAPP_KEYCODE_X => set_main (set_buttons (bit_set (buttons m) 1) m) s (* jump *)
      | SAPP_KEYCODE_1 => set_main (set_sys (bit_set (sys m) 2) m) s (* player 1 coin *)
      | SAPP_KEYCODE_OTHER => set_main (set_sys (bit_set (sys m) 1) m) s (* player 1 start *)
      end
  | SAPP_EVENTTYPE_KEY_UP =>
      match key_code event with
      | SAPP_KEYCODE_LEFT => set_main (set_joystick (bit_clear (joystick m) 0) m) s
      | SAPP_KEYCODE_RIGHT => set_main (set_joystick (bit_clear (joystick m) 1) m) s
      | SAPP_KEYCODE_DOWN => set_main (set_joystick (bit_clear (joystick m) 2) m) s
      | SAPP_KEYCODE_UP => set_main (set_joystick (bit_clear (joystick m) 3) m) s
      | SAPP_KEYCODE_Z => set_main (set_buttons (bit_clear (buttons m) 0) m) s
      | SAPP_KEYCODE_X => set_main (set_buttons (bit_clear (buttons m) 1) m) s
      | SAPP_KEYCODE_1 => set_main (set_sys (bit_clear (sys m) 2) m) s
      | SAPP_KEYCODE_OTHER => set_main (set_sys (bit_clear (sys m) 1) m) s
      end
  | SAPP_EVENTTYPE_OTHER => s
  end.

(** The register and the bit a key drives. *)
Inductive input_reg := JOYSTICK | BUTTONS | SYS.

Definition key_reg (k : sapp_keycode) : input_reg :=
  match k with
  | SAPP_KEYCODE_LEFT | SAPP_KEYCODE_RIGHT | SAPP_KEYCODE_DOWN
  | SAPP_KEYCODE_UP => JOYSTICK
  | SAPP_KEYCODE_Z | SAPP_KEYCODE_X => BUTTONS
  | SAPP_KEYCODE_1 | SAPP_KEYCODE_OTHER => SYS
  end.

Definition key_bit (k : sapp_keycode) : Z :=
  match k with
  | SAPP_KEYCODE_LEFT => 0
  | SAPP_KEYCODE_RIGHT => 1
  | SAPP_KEYCODE_DOWN => 2
  | SAPP_KEYCODE_UP => 3
  | SAPP_KEYCODE_Z => 0
  | SAPP_KEYCODE_X => 1
  | SAPP_KEYCODE_1 => 2
  | SAPP_KEYCODE_OTHER => 1
  end.

Definition same_reg (r r' : input_reg) : bool :=
  match r, r' with
  | JOYSTICK, JOYSTICK | BUTTONS, BUTTONS | SYS, SYS => true
  | _, _ => false
  end.

Definition input_of (r : input_reg) (s : rygar_t) : Z :=
  match r with
  | JOYSTICK => joystick (main s)
  | BUTTONS => buttons (main s)
  | SYS => sys (main s)
  end.

Definition key_down (k : sapp_keycode) : sapp_event :=
  {| type := SAPP_EVENTTYPE_KEY_DOWN; key_code := k |}.
Definition key_up (k : sapp_keycode) : sapp_event :=
  {| type := SAPP_EVENTTYPE_KEY_UP; key_code := k |}.

(** ** The frame copy of [rygar_draw] (lines 423-429)

    [bitmap_t] of [bitmap.h] is not under src/, and neither are the layer
    drawing routines called before; the bitmap they leave behind, its pixel
    data and its width, is an argument.  The loop reads [SCREEN_WIDTH *
    SCREEN_HEIGHT] pixels from the 17th line on and looks each one up in the
    palette cache. *)

Definition BUFFER_WIDTH : Z := 256.
Definition BUFFER_HEIGHT : Z := 256.
Definition SCREEN_WIDTH : Z := 256.
Definition SCREEN_HEIGHT : Z := 224.

Fixpoint copy_pixels (pal data : list Z) (n : nat) {struct n} :
    option (list Z) :=
  match n with
  | O => Some []
  | S n' =>
      match data with
      | [] => None
      | px :: rest =>
          c ← array_get pal px;
          out ← copy_pixels pal rest n';
          Some (c :: out)
      end
  end.

Definition rygar_draw_copy (s : rygar_t) (bitmap_data : list Z)
    (bitmap_width : Z) : option (list Z) :=
  if (0 <=? bitmap_width)
     && (16 * bitmap_width <=? Z.of_nat (length bitmap_data))
  then copy_pixels (palette s)
         (drop (Z.to_nat (16 * bitmap_width)) bitmap_data)
         (Z.to_nat (SCREEN_WIDTH * SCREEN_HEIGHT))
  else None.

(** ** Calls with their own tick counts *)

(** The callback driven over a sequence of calls, each with its tick count
    and its bus word. *)
Section Calls.
Context {P : Z80Pins}.

Fixpoint run_calls (cs : list (Z * Z)) (s : rygar_t) : option (list Z * rygar_t) :=
  match cs with
  | [] => Some ([], s)
  | c :: cs' =>
      sp ← rygar_tick_main c.1 c.2 s;
      r ← run_calls cs' sp.1;
      Some (sp.2 :: r.1, r.2)
  end.

End Calls.

(** Total ticks of a sequence of calls. *)
Definition total_ticks (cs : list (Z * Z)) : Z :=
  foldr (fun c acc => c.1 + acc) 0 cs.

(** ** More of the machine's shape *)

(** The six RAM arrays have the sizes of their C types and hold bytes. *)
Definition ram_ok (a : list Z) (size : Z) : bool :=
  (Z.of_nat (length a) =? size) && forallb is_byte a.

Definition rams_ok (s : rygar_t) : bool :=
  ram_ok (work_ram (main s)) WORK_RAM_SIZE
  && ram_ok (char_ram (main s)) CHAR_RAM_SIZE
  && ram_ok (fg_ram (main s)) FG_RAM_SIZE
  && ram_ok (bg_ram (main s)) BG_RAM_SIZE
  && ram_ok (sprite_ram (main s)) SPRITE_RAM_SIZE
  && ram_ok (palette_ram (main s)) PALETTE_RAM_SIZE.

(** The integers [i], [i+1], ..., [i+n-1]. *)
Fixpoint count_from (n : nat) (i : Z) : list Z :=
  match n with
  | O => []
  | S n' => i :: count_from n' (i + 1)
  end.

(** Entry [i] of the palette cache shows the colour of the big-endian word
    [xxxxBBBB RRRRGGGG] held by bytes [2i] and [2i+1] of the palette RAM. *)
Definition entry_coherent (s : rygar_t) (i : Z) : bool :=
  match array_get (palette_ram (main s)) (2 * i),
        array_get (palette_ram (main s)) (2 * i + 1),
        array_get (palette s) i with
  | Some hi, Some lo, Some c =>
      (red c =? replicate_high_nibble lo)
      && (green c =? replicate_low_nibble lo)
      && (blue c =? replicate_low_nibble hi)
  | _, _, _ => false
  end.

Definition palette_coherent (s : rygar_t) : bool :=
  forallb (entry_coherent s) (count_from (Z.to_nat PALETTE_ENTRIES) 0).

(** ** Keys as the CPU sees them *)

(** A key is held down when its bit of its input register is set. *)
Definition pressed (k : sapp_keycode) (s : rygar_t) : bool :=
  Z.testbit (input_of (key_reg k) s) (key_bit k).

(** The address at which a read cycle returns an input register
    (lines 227-232). *)
Definition input_addr (r : input_reg) : Z :=
  match r with
  | JOYSTICK => JOYSTICK1
  | BUTTONS => BUTTONS1
  | SYS => SYS1
  end.

(** Pixel values that index the palette cache. *)
Definition is_pen (px : Z) : bool := (0 <=? px) && (px <? PALETTE_ENTRIES).

(** ** Pin words *)
Lemma pin_cleared (p m : Z) : pin (Z.land p (Z.lnot m)) m = false.
Proof.
  unfold pin.
  rewrite <- Z.land_assoc, (Z.land_comm (Z.lnot m) m), Z.land_lnot_diag.
  now rewrite Z.land_0_r.
Qed.

Lemma pin_lor_disjoint (p i m : Z) :
  Z.land i m = 0 -> pin (Z.lor p i) m = pin p m.
Proof.
  intros Hd. unfold pin.
  now rewrite Z.land_lor_distr_l, Hd, Z.lor_0_r.
Qed.

Lemma pin_lor_self (p i : Z) : i <> 0 -> pin (Z.lor p i) i = true.
Proof.
  intros Hi. unfold pin.
  rewrite Z.land_lor_distr_l, Z.land_diag.
  destruct (Z.eqb_spec (Z.lor (Z.land p i) i) 0) as [E|]; [|reflexivity].
  apply Z.lor_eq_0_iff in E. tauto.
Qed.

Lemma land_low16 (p : Z) : Z.land p 0xFFFF = p mod 0x10000.
Proof. exact (Z.land_ones p 16 ltac:(lia)). Qed.

Lemma land_low8 (p : Z) : Z.land p 0xFF = p mod 0x100.
Proof. exact (Z.land_ones p 8 ltac:(lia)). Qed.

Lemma chips_pins_contract : Z80PinsContract chips_pins.
Proof.
  split; cbn [Z80_M1 Z80_MREQ Z80_IORQ Z80_RD Z80_WR Z80_INT Z80_GET_ADDR
                Z80_GET_DATA Z80_SET_DATA chips_pins]; intros.
  - rewrite land_low16. apply Z.mod_pos_bound. lia.
  - rewrite Z.shiftr_land. change (Z.shiftr 0xFF0000 16) with 0xFF.
    rewrite land_low8. apply Z.mod_pos_bound. lia.
  - rewrite Z.land_lor_distr_l, <- !Z.land_assoc.
    change (Z.land (Z.lnot 0xFF0000) 0xFF0000) with 0.
    rewrite Z.land_0_r, Z.lor_0_l, Z.land_diag, Z.shiftr_land.
    rewrite Z.shiftr_shiftl_l by lia.
    change (Z.shiftr 0xFF0000 16) with 0xFF. cbn [Z.sub Z.shiftl Z.opp].
    rewrite Z.sub_diag, Z.shiftl_0_r. apply land_low8.
  - unfold pin. rewrite Z.land_lor_distr_l, <- !Z.land_assoc.
    change (Z.land 0xFF0000 (Z.shiftl 1 30)) with 0.
    change (Z.land (Z.lnot 0xFF0000) (Z.shiftl 1 30)) with (Z.shiftl 1 30).
    now rewrite Z.land_0_r, Z.lor_0_r.
  - apply pin_lor_self. discriminate.
  - now rewrite Z.land_lor_distr_l, Z.lor_0_r.
  - rewrite !Z.shiftr_land, Z.shiftr_lor.
    change (Z.shiftr (Z.shiftl 1 30) 16) with (Z.shiftl 1 14).
    change (Z.shiftr 0xFF0000 16) with 0xFF.
    now rewrite Z.land_lor_distr_l, Z.lor_0_r.
  - now apply pin_lor_disjoint.
  - now apply pin_lor_disjoint.
  - now apply pin_lor_disjoint.
  - now apply pin_lor_disjoint.
  - now apply pin_lor_disjoint.
Qed.

(** ** The counters phase *)

Create HintDb consts discriminated.
#[export] Hint Unfold CHAR_RAM_SIZE CHAR_RAM_START CHAR_RAM_END FG_RAM_SIZE
  FG_RAM_START FG_RAM_END BG_RAM_SIZE BG_RAM_START BG_RAM_END SPRITE_RAM_SIZE
  SPRITE_RAM_START PALETTE_RAM_SIZE PALETTE_RAM_START PALETTE_RAM_END
  WORK_RAM_SIZE WORK_RAM_START RAM_SIZE RAM_START RAM_END BANK_SIZE
  BANK_WINDOW_SIZE BANK_WINDOW_START BANK_WINDOW_END JOYSTICK1 BUTTONS1 SYS1
  DIP_SW1_H DIP_SW2_H FG_SCROLL_START FG_SCROLL_END BG_SCROLL_START
  BG_SCROLL_END BANK_SWITCH SCROLL_OFFSET PALETTE_ENTRIES INT_MIN INT_MAX : consts.

Lemma VSYNC_PERIOD_value : VSYNC_PERIOD_4MHZ = 66666.
Proof. reflexivity. Qed.

Lemma VBLANK_DURATION_value : VBLANK_DURATION_4MHZ = 5292.
Proof. reflexivity. Qed.

Ltac consts :=
  autounfold with consts in *;
  rewrite ?VSYNC_PERIOD_value, ?VBLANK_DURATION_value in *.

(** Turn the boolean tests of the hypotheses into arithmetic facts. *)
Ltac bools :=
  repeat match goal with
  | H : BETWEEN _ _ _ = true |- _ => unfold BETWEEN in H
  | H : _ && _ = true |- _ => apply andb_true_iff in H; destruct H
  | H : (_ <=? _) = true |- _ => apply Z.leb_le in H
  | H : (_ <? _) = true |- _ => apply Z.ltb_lt in H
  | H : (_ =? _) = true |- _ => apply Z.eqb_eq in H
  | H : (_ <=? _) = false |- _ => apply Z.leb_gt in H
  | H : (_ <? _) = false |- _ => apply Z.ltb_ge in H
  | H : (_ =? _) = false |- _ => apply Z.eqb_neq in H
  | H : negb _ = true |- _ => apply negb_true_iff in H
  | H : negb _ = false |- _ => apply negb_false_iff in H
  end.

Lemma int_checked_ok (z : Z) :
  INT_MIN <= z <= INT_MAX -> int_checked z = Some z.
Proof.
  intros [Hl Hu]. unfold int_checked.
  apply Z.leb_le in Hl. apply Z.leb_le in Hu. now rewrite Hl, Hu.
Qed.

Lemma BETWEEN_true (n a b : Z) : a <= n <= b -> BETWEEN n a b = true.
Proof.
  intros [H1 H2]. unfold BETWEEN. apply andb_true_iff.
  split; now apply Z.leb_le.
Qed.

Lemma BETWEEN_false (n a b : Z) : n < a \/ b < n -> BETWEEN n a b = false.
Proof.
  intros H. unfold BETWEEN. apply andb_false_iff.
  destruct H; [left | right]; now apply Z.leb_gt.
Qed.

(** Decide every range and equality test of the goal from the context. *)
Ltac tests :=
  repeat match goal with
  | |- context [BETWEEN ?n ?a ?b] =>
      first [ rewrite (BETWEEN_true n a b) by (consts; lia)
            | rewrite (BETWEEN_false n a b) by (consts; lia) ]
  | |- context [?a =? ?b] =>
      first [ rewrite (proj2 (Z.eqb_eq a b)) by (consts; lia)
            | rewrite (proj2 (Z.eqb_neq a b)) by (consts; lia) ]
  | |- context [?a <=? ?b] =>
      first [ rewrite (proj2 (Z.leb_le a b)) by (consts; lia)
            | rewrite (proj2 (Z.leb_gt a b)) by (consts; lia) ]
  | |- context [?a <? ?b] =>
      first [ rewrite (proj2 (Z.ltb_lt a b)) by (consts; lia)
            | rewrite (proj2 (Z.ltb_ge a b)) by (consts; lia) ]
  end.

Section TickFacts.
Context {P : Z80Pins} (HP : Z80PinsContract P).

Lemma tick_counters_ok (n p : Z) (s : rygar_t) :
  counters_ok s = true -> ticks_ok n = true ->
  tick_counters n p s
  = Some (set_counters (vsync_next n s) (vblank_next n s) s, drive_int n p s).
Proof.
  intros Hc Hn. unfold counters_ok, ticks_ok in *. bools.
  unfold tick_counters, int_sub, int_add, drive_int, vblank_next, in_vblank,
    vsync_next, vsync_reloads.
  rewrite VSYNC_PERIOD_value, VBLANK_DURATION_value in *.
  rewrite int_checked_ok by (consts; lia). cbn [mbind option_bind].
  destruct (Z.leb_spec (vsync_count s - n) 0).
  - rewrite int_checked_ok by (consts; lia). cbn [mbind option_bind fst snd].
    change (0 <? 5292) with true. cbn iota.
    rewrite int_checked_ok by (consts; lia). reflexivity.
  - cbn [mbind option_bind fst snd].
    destruct (Z.ltb_spec 0 (vblank_count s)); [|reflexivity].
    rewrite int_checked_ok by (consts; lia). reflexivity.
Qed.

Lemma drive_int_addr n p s : Z80_GET_ADDR (drive_int n p s) = Z80_GET_ADDR p.
Proof. unfold drive_int. destruct in_vblank; [apply HP | reflexivity]. Qed.

Lemma drive_int_data n p s : Z80_GET_DATA (drive_int n p s) = Z80_GET_DATA p.
Proof. unfold drive_int. destruct in_vblank; [apply HP | reflexivity]. Qed.

Lemma drive_int_mreq n p s : pin (drive_int n p s) Z80_MREQ = pin p Z80_MREQ.
Proof. unfold drive_int. destruct in_vblank; [apply HP | reflexivity]. Qed.

Lemma drive_int_wr n p s : pin (drive_int n p s) Z80_WR = pin p Z80_WR.
Proof. unfold drive_int. destruct in_vblank; [apply HP | reflexivity]. Qed.

Lemma drive_int_rd n p s : pin (drive_int n p s) Z80_RD = pin p Z80_RD.
Proof. unfold drive_int. destruct in_vblank; [apply HP | reflexivity]. Qed.

Lemma drive_int_iorq n p s : pin (drive_int n p s) Z80_IORQ = pin p Z80_IORQ.
Proof. unfold drive_int. destruct in_vblank; [apply HP | reflexivity]. Qed.

Lemma drive_int_m1 n p s : pin (drive_int n p s) Z80_M1 = pin p Z80_M1.
Proof. unfold drive_int. destruct in_vblank; [apply HP | reflexivity]. Qed.

Lemma drive_int_int n p s :
  pin (drive_int n p s) Z80_INT = in_vblank n s || pin p Z80_INT.
Proof. unfold drive_int. destruct in_vblank; [apply HP | reflexivity]. Qed.

Lemma rygar_tick_main_phases (n p : Z) (s : rygar_t) :
  counters_ok s = true -> ticks_ok n = true ->
  rygar_tick_main n p s
  = tick_bus (drive_int n p s)
      (set_counters (vsync_next n s) (vblank_next n s) s).
Proof.
  intros Hc Hn. unfold rygar_tick_main.
  now rewrite tick_counters_ok.
Qed.

End TickFacts.

(** ** The palette cache *)

Ltac masks :=
  change 0xff000000 with (Z.shiftl (Z.ones 8) 24) in *;
  change 0x00ff0000 with (Z.shiftl (Z.ones 8) 16) in *;
  change 0x0000ffff with (Z.ones 16) in *;
  change 0xff with (Z.ones 8) in *;
  change 0xf0 with (Z.shiftl (Z.ones 4) 4) in *;
  change 0x0f with (Z.ones 4) in *.

Lemma palette_color_alpha (a d c : Z) : alpha (palette_color a d c) = 0xff.
Proof.
  unfold alpha, palette_color. destruct (negb _); cbv zeta; masks; Z.bitblast.
Qed.

Lemma palette_color_odd (a d c : Z) :
  Z.land a 1 <> 0 ->
  red (palette_color a d c) = replicate_high_nibble d
  /\ green (palette_color a d c) = replicate_low_nibble d
  /\ blue (palette_color a d c) = blue c.
Proof.
  intros H.
  unfold red, green, blue, replicate_high_nibble, replicate_low_nibble,
    palette_color.
  apply Z.eqb_neq in H. rewrite H. cbn [negb]. cbv zeta. masks.
  repeat split; Z.bitblast.
Qed.

Lemma palette_color_even (a d c : Z) :
  Z.land a 1 = 0 ->
  red (palette_color a d c) = red c
  /\ green (palette_color a d c) = green c
  /\ blue (palette_color a d c) = replicate_low_nibble d.
Proof.
  intros H.
  unfold red, green, blue, replicate_low_nibble, palette_color.
  apply Z.eqb_eq in H. rewrite H. cbn [negb]. cbv zeta. masks.
  repeat split; Z.bitblast.
Qed.

Lemma array_get_in_range (a : list Z) (i : Z) :
  0 <= i < Z.of_nat (length a) -> exists x, array_get a i = Some x.
Proof.
  intros Hi. unfold array_get.
  rewrite (proj2 (Z.leb_le 0 i)) by lia.
  apply lookup_lt_is_Some_2. lia.
Qed.

Lemma array_set_in_range (a : list Z) (i v : Z) :
  0 <= i < Z.of_nat (length a) ->
  array_set a i v = Some (<[Z.to_nat i := v]> a).
Proof.
  intros Hi. unfold array_set.
  rewrite (proj2 (Z.leb_le 0 i)), (proj2 (Z.ltb_lt i _)) by lia. reflexivity.
Qed.

Lemma array_get_insert_eq (a : list Z) (i v : Z) :
  0 <= i < Z.of_nat (length a) ->
  array_get (<[Z.to_nat i := v]> a) i = Some v.
Proof.
  intros Hi. unfold array_get.
  rewrite (proj2 (Z.leb_le 0 i)) by lia.
  apply list_lookup_insert_eq. lia.
Qed.

Lemma array_get_insert_ne (a : list Z) (i j v : Z) :
  0 <= i -> j <> i ->
  array_get (<[Z.to_nat i := v]> a) j = array_get a j.
Proof.
  intros Hi Hne. unfold array_get.
  destruct (Z.leb_spec 0 j); [|reflexivity].
  apply list_lookup_insert_ne. lia.
Qed.

Lemma palette_index_range (off : Z) :
  0 <= off < PALETTE_RAM_SIZE -> 0 <= Z.shiftr off 1 < PALETTE_ENTRIES.
Proof.
  intros H. consts. rewrite Z.shiftr_div_pow2 by lia.
  change (2 ^ 1) with 2. split.
  - apply Z.div_pos; lia.
  - apply Z.div_lt_upper_bound; lia.
Qed.

Lemma rygar_update_palette_ok (off d : Z) (s : rygar_t) :
  Z.of_nat (length (palette s)) = PALETTE_ENTRIES ->
  0 <= off < PALETTE_RAM_SIZE ->
  exists c,
    array_get (palette s) (Z.shiftr off 1) = Some c
    /\ rygar_update_palette off d s
       = Some (set_palette
                 (<[Z.to_nat (Z.shiftr off 1) := palette_color off d c]>
                    (palette s)) s).
Proof.
  intros Hlen Hoff. pose proof (palette_index_range off Hoff) as Hi.
  destruct (array_get_in_range (palette s) (Z.shiftr off 1)) as [c Hc];
    [lia|].
  exists c. split; [exact Hc|].
  unfold rygar_update_palette. cbv zeta. rewrite Hc. cbn [mbind option_bind].
  rewrite array_set_in_range by lia. reflexivity.
Qed.

(** ** Well-formedness is preserved by the callback *)
Lemma forallb_insert (f : Z -> bool) (l : list Z) (i : nat) (x : Z) :
  forallb f l = true -> f x = true -> forallb f (<[i:=x]> l) = true.
Proof.
  revert i. induction l as [|y l IH]; intros i Hl Hx; [exact Hl|].
  cbn [forallb] in Hl. apply andb_true_iff in Hl. destruct Hl as [Hy Hl].
  destruct i as [|i]; cbn [list_insert forallb]; apply andb_true_iff; auto.
Qed.

Lemma is_byte_iff (z : Z) : is_byte z = true <-> 0 <= z < 0x100.
Proof.
  unfold is_byte. rewrite andb_true_iff, Z.leb_le, Z.ltb_lt. tauto.
Qed.

Lemma shiftr3_byte (d : Z) : 0 <= d < 0x100 -> 0 <= Z.shiftr d 3 < 0x20.
Proof.
  intros H. rewrite Z.shiftr_div_pow2 by lia. change (2 ^ 3) with 8.
  split; [apply Z.div_pos; lia | apply Z.div_lt_upper_bound; lia].
Qed.

Lemma arrays_ok_mem_wr (s : rygar_t) (a d : Z) :
  arrays_ok (set_main (mem_wr (main s) a d) s) = arrays_ok s.
Proof. unfold arrays_ok, mem_wr. repeat case_match; reflexivity. Qed.

Lemma array_set_Some (a : list Z) (i v : Z) (a' : list Z) :
  array_set a i v = Some a' ->
  0 <= i < Z.of_nat (length a) /\ a' = <[Z.to_nat i := v]> a.
Proof.
  unfold array_set. intros H. case_match; [|discriminate].
  bools. split; [lia | congruence].
Qed.

Ltac split_hyps :=
  repeat match goal with
  | H : _ && _ = true |- _ => apply andb_true_iff in H; destruct H
  end.

Ltac rewrite_hyps :=
  repeat match goal with
  | H : ?b = true |- context [?b] => rewrite H
  end.

Section Frame.
Context {P : Z80Pins} (HP : Z80PinsContract P).

Lemma arrays_ok_scroll_fg (s : rygar_t) (i : nat) (d : Z) :
  arrays_ok s = true -> is_byte d = true ->
  arrays_ok (set_main (set_fg_scroll (<[i:=d]> (fg_scroll (main s))) (main s)) s) = true.
Proof.
  unfold arrays_ok. cbn [main set_main set_fg_scroll palette banked_rom
    fg_scroll bg_scroll current_bank joystick buttons sys].
  intros H Hd. split_hyps. rewrite length_insert.
  rewrite forallb_insert by assumption. rewrite_hyps. reflexivity.
Qed.

Lemma arrays_ok_scroll_bg (s : rygar_t) (i : nat) (d : Z) :
  arrays_ok s = true -> is_byte d = true ->
  arrays_ok (set_main (set_bg_scroll (<[i:=d]> (bg_scroll (main s))) (main s)) s) = true.
Proof.
  unfold arrays_ok. cbn [main set_main set_bg_scroll palette banked_rom
    fg_scroll bg_scroll current_bank joystick buttons sys].
  intros H Hd. split_hyps. rewrite length_insert.
  rewrite forallb_insert by assumption. rewrite_hyps. reflexivity.
Qed.

Lemma arrays_ok_bank (s : rygar_t) (b : Z) :
  arrays_ok s = true -> is_byte b = true ->
  arrays_ok (set_main (set_current_bank b (main s)) s) = true.
Proof.
  unfold arrays_ok. cbn [main set_main set_current_bank palette banked_rom
    fg_scroll bg_scroll current_bank joystick buttons sys].
  intros H Hd. split_hyps. rewrite_hyps. reflexivity.
Qed.

Lemma arrays_ok_palette (s : rygar_t) (i : nat) (c : Z) :
  arrays_ok s = true ->
  arrays_ok (set_palette (<[i:=c]> (palette s)) s) = true.
Proof.
  unfold arrays_ok. cbn [main set_palette palette]. rewrite length_insert. auto.
Qed.

Lemma data_is_byte (p : Z) : is_byte (Z80_GET_DATA p) = true.
Proof. apply is_byte_iff. apply HP. Qed.

Lemma rygar_update_palette_Some (a d : Z) (s s' : rygar_t) :
  rygar_update_palette a d s = Some s' ->
  exists i c, s' = set_palette (<[i:=c]> (palette s)) s.
Proof.
  unfold rygar_update_palette. intros H. simplify_option_eq.
  match goal with
  | H : array_set _ _ _ = Some _ |- _ =>
      apply array_set_Some in H; destruct H as [_ ->]
  end.
  eauto.
Qed.

Lemma tick_bus_frame (p : Z) (s s' : rygar_t) (p' : Z) :
  arrays_ok s = true -> tilemaps_ok s = true ->
  tick_bus p s = Some (s', p') ->
  arrays_ok s' = true /\ tilemaps_ok s' = true
  /\ vsync_count s' = vsync_count s /\ vblank_count s' = vblank_count s.
Proof.
  intros Ha Ht H. unfold tick_bus in H.
  pose proof (arrays_ok_mem_wr s (Z80_GET_ADDR p) (Z80_GET_DATA p)) as Hm.
  rewrite Ha in Hm.
  repeat case_match; simplify_option_eq;
    repeat match goal with
    | H : rygar_update_palette _ _ _ = Some _ |- _ =>
        apply rygar_update_palette_Some in H; destruct H as (? & ? & ->)
    | H : array_set _ _ _ = Some _ |- _ =>
        apply array_set_Some in H; destruct H as [_ ->]
    end;
    (split; [|split; [|split]]); try reflexivity; try assumption.
  - now apply arrays_ok_palette.
  - apply (arrays_ok_scroll_fg s); [assumption | apply data_is_byte].
  - apply (arrays_ok_scroll_bg s); [assumption | apply data_is_byte].
  - apply arrays_ok_bank; [assumption|].
    apply is_byte_iff. pose proof (shiftr3_byte (Z80_GET_DATA p')) as Hb.
    pose proof (data_8bit P HP p'). lia.
Qed.

Lemma counters_next_ok (n : Z) (s : rygar_t) :
  counters_ok s = true -> ticks_ok n = true ->
  counters_ok (set_counters (vsync_next n s) (vblank_next n s) s) = true.
Proof.
  unfold counters_ok, ticks_ok. cbn [vsync_count vblank_count set_counters].
  unfold vblank_next, in_vblank, vsync_next, vsync_reloads.
  rewrite VSYNC_PERIOD_value, VBLANK_DURATION_value. intros Hc Hn. bools.
  destruct (Z.leb_spec (vsync_count s - n) 0).
  - change (0 <? 5292) with true. cbn iota.
    repeat (apply andb_true_iff; split); apply Z.leb_le; lia.
  - destruct (Z.ltb_spec 0 (vblank_count s));
      repeat (apply andb_true_iff; split); apply Z.leb_le; lia.
Qed.

Lemma rygar_tick_main_wf (n p : Z) (s s' : rygar_t) (p' : Z) :
  well_formed s = true -> ticks_ok n = true ->
  rygar_tick_main n p s = Some (s', p') ->
  well_formed s' = true.
Proof.
  intros Hwf Hn H. unfold well_formed in Hwf. split_hyps.
  rewrite rygar_tick_main_phases in H by assumption.
  apply tick_bus_frame in H; [|assumption..].
  destruct H as (Ha & Ht & Hv & Hb).
  pose proof (counters_next_ok n s) as Hc.
  unfold well_formed. rewrite Ha, Ht. cbn [andb].
  unfold counters_ok in *. rewrite Hv, Hb. auto.
Qed.
End Frame.

(** ** Decoding one bus cycle *)
Lemma well_formed_counters s : well_formed s = true -> counters_ok s = true.
Proof. unfold well_formed. intros H. split_hyps. assumption. Qed.

Lemma well_formed_palette s :
  well_formed s = true -> Z.of_nat (length (palette s)) = PALETTE_ENTRIES.
Proof. unfold well_formed, arrays_ok. intros H. bools. assumption. Qed.

Lemma well_formed_tilemaps s :
  well_formed s = true ->
  cols (char_tilemap s) * rows (char_tilemap s) = 0x400
  /\ cols (fg_tilemap s) * rows (fg_tilemap s) = 0x200
  /\ cols (bg_tilemap s) * rows (bg_tilemap s) = 0x200.
Proof. unfold well_formed, tilemaps_ok. intros H. bools. auto. Qed.

Lemma well_formed_scrolls s :
  well_formed s = true ->
  Z.of_nat (length (fg_scroll (main s))) = 3
  /\ Z.of_nat (length (bg_scroll (main s))) = 3.
Proof. unfold well_formed, arrays_ok. intros H. bools. auto. Qed.

Lemma well_formed_bank_rom s :
  well_formed s = true ->
  Z.of_nat (length (banked_rom (main s))) = BANK_SIZE
  /\ forallb is_byte (banked_rom (main s)) = true
  /\ 0 <= current_bank (main s) < 0x100.
Proof.
  unfold well_formed, arrays_ok. intros H. split_hyps.
  repeat split; try (now apply Z.eqb_eq); try assumption;
    now apply is_byte_iff.
Qed.

Lemma well_formed_inputs s :
  well_formed s = true ->
  0 <= joystick (main s) < 0x100 /\ 0 <= buttons (main s) < 0x100
  /\ 0 <= sys (main s) < 0x100.
Proof.
  unfold well_formed, arrays_ok. intros H. split_hyps.
  repeat split; now apply is_byte_iff.
Qed.

Lemma land_mod_idem (x : Z) (k : Z) :
  0 <= k -> Z.land x (Z.ones k) mod 2 ^ k = Z.land x (Z.ones k).
Proof.
  intros Hk. rewrite Z.land_ones by assumption.
  apply Z.mod_mod. apply Z.pow_nonzero; lia.
Qed.

Lemma forallb_lookup (f : Z -> bool) (l : list Z) (i : nat) (x : Z) :
  forallb f l = true -> l !! i = Some x -> f x = true.
Proof.
  revert i. induction l as [|y l IH]; intros i Hl Hi; [discriminate|].
  cbn [forallb] in Hl. apply andb_true_iff in Hl. destruct Hl as [Hy Hl].
  destruct i as [|i]; cbn in Hi; [congruence | eauto].
Qed.

Lemma tilemap_set_scroll_x_same (t : tilemap_t) (v : Z) :
  scroll_x t = v mod 0x10000 -> tilemap_set_scroll_x t v = t.
Proof. destruct t. cbn. intros ->. reflexivity. Qed.

Lemma land_0x78_shift (d : Z) : 0 <= Z.shiftr (Z.land d 0x78) 3 < 16.
Proof.
  rewrite Z.shiftr_land. change (Z.shiftr 0x78 3) with (Z.ones 4).
  rewrite Z.land_ones by lia. apply Z.mod_pos_bound. lia.
Qed.

Ltac enter_bus HP :=
  rewrite rygar_tick_main_phases by auto using well_formed_counters;
  unfold tick_bus;
  rewrite ?(drive_int_addr HP), ?(drive_int_data HP), ?(drive_int_mreq HP),
    ?(drive_int_wr HP), ?(drive_int_rd HP), ?(drive_int_iorq HP),
    ?(drive_int_m1 HP).

Section Decode.
Context {P : Z80Pins} (HP : Z80PinsContract P).

Lemma fg_scroll_write (n p : Z) (s : rygar_t) :
  well_formed s = true -> ticks_ok n = true ->
  pin p Z80_MREQ = true -> pin p Z80_WR = true ->
  FG_SCROLL_START <= Z80_GET_ADDR p <= FG_SCROLL_END ->
  let sc := <[Z.to_nat (Z80_GET_ADDR p - FG_SCROLL_START) := Z80_GET_DATA p]>
              (fg_scroll (main s)) in
  exists s0 s1,
    array_get sc 0 = Some s0 /\ array_get sc 1 = Some s1
    /\ rygar_tick_main n p s
       = Some (set_fg_tilemap
                 (tilemap_set_scroll_x (fg_tilemap s)
                    (Z.lor (Z.shiftl s1 8) s0 + SCROLL_OFFSET))
                 (set_main (set_fg_scroll sc (main s)) (ticked n s)),
               drive_int n p s).
Proof.
  intros Hwf Hn Hm Hw Ha sc.
  destruct (well_formed_scrolls s Hwf) as [Hl _].
  assert (Hlen : Z.of_nat (length sc) = 3)
    by (subst sc; now rewrite length_insert).
  destruct (array_get_in_range sc 0) as [s0 H0]; [lia|].
  destruct (array_get_in_range sc 1) as [s1 H1]; [lia|].
  exists s0, s1. split; [exact H0|]. split; [exact H1|].
  enter_bus HP. rewrite Hm, Hw. cbv zeta. tests.
  cbn [main set_counters fg_tilemap].
  rewrite (Z.mod_small (Z80_GET_ADDR p - FG_SCROLL_START)) by (consts; lia).
  rewrite array_set_in_range by (consts; lia).
  cbn [mbind option_bind]. fold sc. rewrite H1, H0. reflexivity.
Qed.

Lemma bg_scroll_write (n p : Z) (s : rygar_t) :
  well_formed s = true -> ticks_ok n = true ->
  pin p Z80_MREQ = true -> pin p Z80_WR = true ->
  BG_SCROLL_START <= Z80_GET_ADDR p <= BG_SCROLL_END ->
  let sc := <[Z.to_nat (Z80_GET_ADDR p - BG_SCROLL_START) := Z80_GET_DATA p]>
              (bg_scroll (main s)) in
  exists s0 s1,
    array_get sc 0 = Some s0 /\ array_get sc 1 = Some s1
    /\ rygar_tick_main n p s
       = Some (set_bg_tilemap
                 (tilemap_set_scroll_x (bg_tilemap s)
                    (Z.lor (Z.shiftl s1 8) s0 + SCROLL_OFFSET))
                 (set_main (set_bg_scroll sc (main s)) (ticked n s)),
               drive_int n p s).
Proof.
  intros Hwf Hn Hm Hw Ha sc.
  destruct (well_formed_scrolls s Hwf) as [_ Hl].
  assert (Hlen : Z.of_nat (length sc) = 3)
    by (subst sc; now rewrite length_insert).
  destruct (array_get_in_range sc 0) as [s0 H0]; [lia|].
  destruct (array_get_in_range sc 1) as [s1 H1]; [lia|].
  exists s0, s1. split; [exact H0|]. split; [exact H1|].
  enter_bus HP. rewrite Hm, Hw. cbv zeta. tests.
  cbn [main set_counters bg_tilemap].
  rewrite (Z.mod_small (Z80_GET_ADDR p - BG_SCROLL_START)) by (consts; lia).
  rewrite array_set_in_range by (consts; lia).
  cbn [mbind option_bind]. fold sc. rewrite H1, H0. reflexivity.
Qed.

Lemma tick_bus_int (p : Z) (s s' : rygar_t) (p' : Z) :
  tick_bus p s = Some (s', p') ->
  pin p' Z80_INT = if is_ack p then false else pin p Z80_INT.
Proof.
  unfold tick_bus, is_ack. intros H.
  repeat case_match; simplify_option_eq;
    rewrite ?(set_data_int P HP), ?pin_cleared; try reflexivity;
    cbn in *; congruence.
Qed.

Lemma is_ack_drive_int n p s : is_ack (drive_int n p s) = is_ack p.
Proof.
  unfold is_ack.
  now rewrite (drive_int_mreq HP), (drive_int_iorq HP), (drive_int_m1 HP).
Qed.

Lemma rygar_tick_main_int (n p : Z) (s s' : rygar_t) (p' : Z) :
  well_formed s = true -> ticks_ok n = true ->
  rygar_tick_main n p s = Some (s', p') ->
  pin p' Z80_INT
  = if is_ack p then false else in_vblank n s || pin p Z80_INT.
Proof.
  intros Hwf Hn H.
  rewrite rygar_tick_main_phases in H by auto using well_formed_counters.
  apply tick_bus_int in H.
  now rewrite is_ack_drive_int, (drive_int_int HP) in H.
Qed.

Lemma rygar_tick_main_counters (n p : Z) (s s' : rygar_t) (p' : Z) :
  well_formed s = true -> ticks_ok n = true ->
  rygar_tick_main n p s = Some (s', p') ->
  vsync_count s' = vsync_next n s /\ vblank_count s' = vblank_next n s.
Proof.
  intros Hwf Hn H. unfold well_formed in Hwf. split_hyps.
  rewrite rygar_tick_main_phases in H by assumption.
  apply tick_bus_frame in H; [|assumption..].
  destruct H as (_ & _ & Hv & Hb). auto.
Qed.

Lemma rygar_tick_main_no_mreq (n p : Z) (s : rygar_t) :
  well_formed s = true -> ticks_ok n = true ->
  pin p Z80_MREQ = false ->
  rygar_tick_main n p s
  = Some (ticked n s,
          if is_ack p then Z.land (drive_int n p s) (Z.lnot Z80_INT)
          else drive_int n p s).
Proof.
  intros Hwf Hn Hm. enter_bus HP. unfold is_ack. rewrite Hm. cbn [negb andb].
  destruct (pin p Z80_IORQ && pin p Z80_M1); reflexivity.
Qed.

Lemma rygar_tick_main_defined (n p : Z) (s : rygar_t) :
  well_formed s = true -> ticks_ok n = true ->
  reads_past_rom p s = false ->
  exists s' p', rygar_tick_main n p s = Some (s', p').
Proof.
  intros Hwf Hn Hsafe.
  destruct (well_formed_bank_rom s Hwf) as (Hlen & _ & Hbank).
  destruct (well_formed_scrolls s Hwf) as (Hlf & Hlb).
  pose proof (well_formed_palette s Hwf) as Hpal.
  pose proof (addr_16bit P HP p) as Ha16.
  enter_bus HP. unfold reads_past_rom in Hsafe.
  set (a := Z80_GET_ADDR p) in *. set (d := Z80_GET_DATA p) in *.
  cbv zeta. cbn [main set_counters fg_tilemap bg_tilemap].
  repeat case_match; eauto.
  - set (s2 := set_main _ _).
    destruct (rygar_update_palette_ok (a - PALETTE_RAM_START) d s2)
      as (c & _ & ->); [exact Hpal | bools; consts; lia |].
    cbn [mbind option_bind]. eauto.
  - bools. rewrite Z.mod_small by (consts; lia).
    rewrite array_set_in_range by (consts; lia). cbn [mbind option_bind].
    set (sc := <[_ := _]> _).
    assert (Hsc : Z.of_nat (length sc) = 3)
      by (subst sc; now rewrite length_insert).
    destruct (array_get_in_range sc 1) as [s1 ->]; [lia|].
    destruct (array_get_in_range sc 0) as [s0 ->]; [lia|].
    cbn [mbind option_bind]. eauto.
  - bools. rewrite Z.mod_small by (consts; lia).
    rewrite array_set_in_range by (consts; lia). cbn [mbind option_bind].
    set (sc := <[_ := _]> _).
    assert (Hsc : Z.of_nat (length sc) = 3)
      by (subst sc; now rewrite length_insert).
    destruct (array_get_in_range sc 1) as [s1 ->]; [lia|].
    destruct (array_get_in_range sc 0) as [s0 ->]; [lia|].
    cbn [mbind option_bind]. eauto.
  - cbn [andb negb] in Hsafe. apply Z.leb_gt in Hsafe.
    destruct (array_get_in_range (banked_rom (main s))
                ((a - BANK_WINDOW_START
                  + current_bank (main s) * BANK_WINDOW_SIZE) mod 0x10000))
      as [x ->].
    { split; [apply Z.mod_pos_bound; lia | lia]. }
    cbn [mbind option_bind]. eauto.
Qed.

End Decode.

(** ** The vblank pulse over a run of single ticks *)

Section Timing.
Context {P : Z80Pins} (HP : Z80PinsContract P).

Lemma int_count_cons (p : Z) (l : list Z) :
  Z.of_nat (int_count (p :: l))
  = (if pin p Z80_INT then 1 else 0) + Z.of_nat (int_count l).
Proof.
  unfold int_count. rewrite filter_cons.
  destruct (pin p Z80_INT); case_decide; try congruence; cbn [length]; lia.
Qed.

Lemma int_count_app (l1 l2 : list Z) :
  Z.of_nat (int_count (l1 ++ l2))
  = Z.of_nat (int_count l1) + Z.of_nat (int_count l2).
Proof. unfold int_count. rewrite filter_app, length_app. lia. Qed.

Lemma run_ticks_app (n : Z) (ps1 ps2 : list Z) (s : rygar_t) :
  run_ticks n (ps1 ++ ps2) s
  = r1 ← run_ticks n ps1 s;
    r2 ← run_ticks n ps2 r1.2;
    Some (r1.1 ++ r2.1, r2.2).
Proof.
  revert s. induction ps1 as [|p ps1 IH]; intros s.
  - cbn [app run_ticks mbind option_bind fst snd].
    destruct (run_ticks n ps2 s) as [[o t]|]; reflexivity.
  - cbn [app run_ticks].
    destruct (rygar_tick_main n p s) as [[s1 p1]|]; [|reflexivity].
    cbn [mbind option_bind fst snd]. rewrite IH.
    destruct (run_ticks n ps1 s1) as [[o1 t1]|]; [|reflexivity].
    cbn [mbind option_bind fst snd].
    destruct (run_ticks n ps2 t1) as [[o2 t2]|]; reflexivity.
Qed.

Lemma ticks_ok_1 : ticks_ok 1 = true.
Proof. reflexivity. Qed.

(** One tick from the first reload onwards. *)
Lemma after_reload_step (p : Z) (s s' : rygar_t) (p' : Z) :
  well_formed s = true -> after_reload s = true -> quiet p = true ->
  rygar_tick_main 1 p s = Some (s', p') ->
  well_formed s' = true /\ after_reload s' = true
  /\ vsync_count s'
     = (if vsync_count s =? 1 then VSYNC_PERIOD_4MHZ else vsync_count s - 1)
  /\ pin p' Z80_INT = (VSYNC_PERIOD_4MHZ - VBLANK_DURATION_4MHZ <? vsync_count s').
Proof.
  intros Hwf Har Hq Ht.
  pose proof (rygar_tick_main_wf HP 1 p s _ _ Hwf ticks_ok_1 Ht) as Hwf'.
  pose proof (rygar_tick_main_int HP 1 p s _ _ Hwf ticks_ok_1 Ht) as Hint.
  destruct (rygar_tick_main_counters HP 1 p s _ _ Hwf ticks_ok_1 Ht)
    as [Hv Hb].
  unfold quiet in Hq. bools. rewrite H0, H in Hint. rewrite orb_false_r in Hint.
  unfold after_reload in *. rewrite Hint, Hv, Hb.
  unfold vblank_next, in_vblank, vsync_next, vsync_reloads.
  rewrite VSYNC_PERIOD_value, VBLANK_DURATION_value in *. bools.
  split; [exact Hwf'|].
  destruct (Z.eqb_spec (vsync_count s) 1) as [E|E].
  - rewrite E. cbn. auto.
  - rewrite (proj2 (Z.leb_gt (vsync_count s - 1) 0)) by lia.
    destruct (Z.ltb_spec 0 (vblank_count s)).
    + repeat split.
      * repeat (apply andb_true_iff; split);
          [apply Z.leb_le | apply Z.leb_le | apply Z.eqb_eq]; lia.
      * symmetry. apply Z.ltb_lt. lia.
    + repeat split.
      * repeat (apply andb_true_iff; split);
          [apply Z.leb_le | apply Z.leb_le | apply Z.eqb_eq]; lia.
      * symmetry. apply Z.ltb_ge. lia.
Qed.

(** A run that stays within one frame. *)
Lemma after_reload_run (ps : list Z) :
  forall (s : rygar_t) (outs : list Z) (s' : rygar_t),
  well_formed s = true -> after_reload s = true ->
  forallb quiet ps = true ->
  Z.of_nat (length ps) <= vsync_count s - 1 ->
  run_ticks 1 ps s = Some (outs, s') ->
  well_formed s' = true /\ after_reload s' = true
  /\ vsync_count s' = vsync_count s - Z.of_nat (length ps)
  /\ Z.of_nat (int_count outs)
     = Z.max 0 (Z.min (Z.of_nat (length ps))
                  (vsync_count s
                   - (VSYNC_PERIOD_4MHZ - VBLANK_DURATION_4MHZ + 1))).
Proof.
  induction ps as [|p ps IH]; intros s outs s' Hwf Har Hq Hlen Hrun.
  - cbn in Hrun. injection Hrun as <- <-. cbn [length].
    repeat split; try assumption; try lia.
    unfold int_count. rewrite filter_nil. cbn [length]. lia.
  - cbn [run_ticks] in Hrun. cbn [forallb] in Hq.
    apply andb_true_iff in Hq. destruct Hq as [Hqp Hq].
    destruct (rygar_tick_main 1 p s) as [[s1 p1]|] eqn:Ht; [|discriminate].
    cbn [mbind option_bind fst snd] in Hrun.
    destruct (run_ticks 1 ps s1) as [[o1 t1]|] eqn:Hr; [|discriminate].
    cbn [mbind option_bind fst snd] in Hrun. injection Hrun as <- <-.
    destruct (after_reload_step p s s1 p1 Hwf Har Hqp Ht)
      as (Hwf1 & Har1 & Hv1 & Hi1).
    cbn [length] in Hlen |- *.
    rewrite (proj2 (Z.eqb_neq (vsync_count s) 1)) in Hv1 by lia.
    destruct (IH s1 o1 t1 Hwf1 Har1 Hq ltac:(lia) Hr)
      as (Hwf2 & Har2 & Hv2 & Hc2).
    repeat split; try assumption; try lia.
    rewrite int_count_cons, Hi1, Hc2, Hv1.
    rewrite VSYNC_PERIOD_value, VBLANK_DURATION_value.
    destruct (Z.ltb_spec (66666 - 5292) (vsync_count s - 1)); lia.
Qed.

(** A run of one full period: it crosses exactly one reload. *)
Lemma window_count (ps : list Z) (s : rygar_t) (outs : list Z) (s' : rygar_t) :
  well_formed s = true -> after_reload s = true ->
  Z.of_nat (length ps) = VSYNC_PERIOD_4MHZ ->
  forallb quiet ps = true ->
  run_ticks 1 ps s = Some (outs, s') ->
  Z.of_nat (int_count outs) = VBLANK_DURATION_4MHZ
  /\ well_formed s' = true /\ after_reload s' = true
  /\ vsync_count s' = vsync_count s.
Proof.
  intros Hwf Har Hlen Hq Hrun.
  assert (Hv : 1 <= vsync_count s <= VSYNC_PERIOD_4MHZ)
    by (unfold after_reload in Har; bools; lia).
  set (k := Z.to_nat (vsync_count s - 1)).
  rewrite <- (take_drop k ps) in Hrun, Hq.
  rewrite forallb_app in Hq. apply andb_true_iff in Hq. destruct Hq as [Hq1 Hq2].
  assert (Hl1 : Z.of_nat (length (take k ps)) = vsync_count s - 1)
    by (rewrite length_take; lia).
  assert (Hl2 : Z.of_nat (length (drop k ps))
                = VSYNC_PERIOD_4MHZ - vsync_count s + 1)
    by (rewrite length_drop; lia).
  destruct (drop k ps) as [|p ps2] eqn:Hd; [cbn [length] in Hl2; lia|].
  cbn [length] in Hl2. cbn [forallb] in Hq2.
  apply andb_true_iff in Hq2. destruct Hq2 as [Hqp Hq2].
  rewrite run_ticks_app in Hrun.
  destruct (run_ticks 1 (take k ps) s) as [[o1 t1]|] eqn:Hr1; [|discriminate].
  cbn [mbind option_bind fst snd run_ticks] in Hrun.
  destruct (rygar_tick_main 1 p t1) as [[t2 p2]|] eqn:Ht; [|discriminate].
  cbn [mbind option_bind fst snd] in Hrun.
  destruct (run_ticks 1 ps2 t2) as [[o3 t3]|] eqn:Hr3; [|discriminate].
  cbn [mbind option_bind fst snd] in Hrun. injection Hrun as <- <-.
  destruct (after_reload_run (take k ps) s o1 t1 Hwf Har Hq1 ltac:(lia) Hr1)
    as (Hwf1 & Har1 & Hv1 & Hc1).
  destruct (after_reload_step p t1 t2 p2 Hwf1 Har1 Hqp Ht)
    as (Hwf2 & Har2 & Hv2 & Hi2).
  rewrite (proj2 (Z.eqb_eq (vsync_count t1) 1)) in Hv2 by lia.
  destruct (after_reload_run ps2 t2 o3 t3 Hwf2 Har2 Hq2 ltac:(lia) Hr3)
    as (Hwf3 & Har3 & Hv3 & Hc3).
  repeat split; try assumption; try lia.
  rewrite int_count_app, int_count_cons, Hc1, Hc3, Hi2, Hv2, Hl1.
  rewrite VSYNC_PERIOD_value, VBLANK_DURATION_value in *.
  change (66666 - 5292 <? 66666) with true. cbn iota. lia.
Qed.

Lemma current_bank_mem_wr (m : mainboard_t) (a d : Z) :
  current_bank (mem_wr m a d) = current_bank m.
Proof. unfold mem_wr. repeat case_match; reflexivity. Qed.

Lemma tick_bus_bank (p : Z) (s s' : rygar_t) (p' : Z) :
  tick_bus p s = Some (s', p') -> sets_bank_bit7 p = false ->
  current_bank (main s) < 16 -> current_bank (main s') < 16.
Proof.
  unfold tick_bus, sets_bank_bit7. intros H Hsafe Hb.
  pose proof (data_8bit P HP p) as Hd.
  repeat case_match; simplify_option_eq;
    repeat match goal with
    | H : rygar_update_palette _ _ _ = Some _ |- _ =>
        apply rygar_update_palette_Some in H; destruct H as (? & ? & ->)
    end;
    cbn [main set_main set_char_tilemap set_fg_tilemap set_bg_tilemap
         set_palette current_bank set_current_bank set_fg_scroll
         set_bg_scroll];
    rewrite ?current_bank_mem_wr; try assumption.
  cbn [andb] in Hsafe. bools.
  rewrite Z.shiftr_div_pow2 by lia. change (2 ^ 3) with 8.
  apply Z.div_lt_upper_bound; lia.
Qed.

Lemma bank_in_range_defined (p : Z) (s : rygar_t) :
  well_formed s = true -> current_bank (main s) < 16 ->
  reads_past_rom p s = false.
Proof.
  intros Hwf Hb. unfold reads_past_rom.
  destruct (well_formed_bank_rom s Hwf) as (_ & _ & Hb0).
  destruct (pin p Z80_MREQ && negb (pin p Z80_WR) && pin p Z80_RD);
    [|reflexivity].
  cbn [andb].
  destruct (BETWEEN _ _ _) eqn:Hw; [|reflexivity].
  cbn [andb]. bools. apply Z.leb_gt. consts.
  rewrite Z.mod_small; lia.
Qed.

(** Runs that never set bit 7 of the bank register are defined. *)
Lemma run_ticks_defined (ps : list Z) :
  forall s : rygar_t,
  well_formed s = true -> current_bank (main s) < 16 ->
  forallb (fun p => negb (sets_bank_bit7 p)) ps = true ->
  exists outs s', run_ticks 1 ps s = Some (outs, s').
Proof.
  induction ps as [|p ps IH]; intros s Hwf Hb Hsafe.
  - cbn. eauto.
  - cbn [forallb] in Hsafe. apply andb_true_iff in Hsafe.
    destruct Hsafe as [Hp Hsafe]. apply negb_true_iff in Hp.
    destruct (rygar_tick_main_defined HP 1 p s Hwf ticks_ok_1
                (bank_in_range_defined p s Hwf Hb)) as (s1 & p1 & Ht).
    pose proof (rygar_tick_main_wf HP 1 p s _ _ Hwf ticks_ok_1 Ht) as Hwf1.
    assert (Hb1 : current_bank (main s1) < 16).
    { pose proof Ht as Ht'.
      rewrite rygar_tick_main_phases in Ht'
        by auto using well_formed_counters.
      apply tick_bus_bank in Ht'; auto.
      - unfold sets_bank_bit7 in *.
        now rewrite (drive_int_mreq HP), (drive_int_wr HP),
          (drive_int_addr HP), (drive_int_data HP). }
    destruct (IH s1 Hwf1 Hb1 Hsafe) as (outs & s' & Hr).
    cbn [run_ticks]. rewrite Ht. cbn [mbind option_bind fst snd].
    rewrite Hr. cbn [mbind option_bind fst snd]. eauto.
Qed.

End Timing.

(** * The claims of the specification *)

(** C3, as the code has it.  Starting from a zeroed palette cache, writing
    byte 0x05 to palette-RAM offset 0x000 makes [palette[0]] equal
    0xFF550000, and then writing byte 0xAB to offset 0x001 makes it
    0xFF55BBAA (not 0xFF5500BA): red 0xAA, green 0xBB, blue 0x55, alpha
    0xFF. *)
Theorem palette_scenario (s : rygar_t) :
  palette s = zeros PALETTE_ENTRIES ->
  exists s1 s2,
    rygar_update_palette 0x000 0x05 s = Some s1
    /\ array_get (palette s1) 0 = Some 0xFF550000
    /\ rygar_update_palette 0x001 0xAB s1 = Some s2
    /\ array_get (palette s2) 0 = Some 0xFF55BBAA
    /\ red 0xFF55BBAA = 0xAA /\ green 0xFF55BBAA = 0xBB
    /\ blue 0xFF55BBAA = 0x55 /\ alpha 0xFF55BBAA = 0xFF.
Proof.
  intros Hz.
  exists (set_palette (<[0%nat := 0xFF550000]> (zeros PALETTE_ENTRIES)) s).
  exists (set_palette (<[0%nat := 0xFF55BBAA]> (zeros PALETTE_ENTRIES)) s).
  split; [unfold rygar_update_palette; rewrite Hz; vm_compute; reflexivity|].
  split; [vm_compute; reflexivity|].
  split; [unfold rygar_update_palette; cbn [palette set_palette];
          vm_compute; reflexivity|].
  repeat split; vm_compute; reflexivity.
Qed.

Lemma palette_scenario_witness :
  exists s1 s2,
    rygar_update_palette 0x000 0x05 power_on = Some s1
    /\ array_get (palette s1) 0 = Some 0xFF550000
    /\ rygar_update_palette 0x001 0xAB s1 = Some s2
    /\ array_get (palette s2) 0 = Some 0xFF55BBAA
    /\ red 0xFF55BBAA = 0xAA /\ green 0xFF55BBAA = 0xBB
    /\ blue 0xFF55BBAA = 0x55 /\ alpha 0xFF55BBAA = 0xFF.
Proof. apply (palette_scenario power_on). reflexivity. Defined.

(** The value the specification expects after the second write of C3 is not
    the one the code stores. *)
Lemma palette_scenario_counterexample :
  (s1 ← rygar_update_palette 0x000 0x05 power_on;
   s2 ← rygar_update_palette 0x001 0xAB s1;
   array_get (palette s2) 0) = Some 0xFF55BBAA
  /\ 0xFF55BBAA <> 0xFF5500BA.
Proof. split; [vm_compute; reflexivity | discriminate]. Qed.

(** C7.  An update of the palette cache at offset [off] changes only entry
    [off >> 1]: every other entry is unchanged; a write at an even offset
    preserves the red and green bytes of the entry, a write at an odd offset
    preserves its blue byte. *)
Theorem palette_update_frame (off d : Z) (s : rygar_t) :
  Z.of_nat (length (palette s)) = PALETTE_ENTRIES ->
  0 <= off < PALETTE_RAM_SIZE ->
  exists c c' s',
    array_get (palette s) (Z.shiftr off 1) = Some c
    /\ rygar_update_palette off d s = Some s'
    /\ array_get (palette s') (Z.shiftr off 1) = Some c'
    /\ (forall j, j <> Z.shiftr off 1 ->
          array_get (palette s') j = array_get (palette s) j)
    /\ (Z.land off 1 = 0 -> red c' = red c /\ green c' = green c)
    /\ (Z.land off 1 <> 0 -> blue c' = blue c)
    /\ length (palette s') = length (palette s).
Proof.
  intros Hlen Hoff.
  destruct (rygar_update_palette_ok off d s Hlen Hoff) as (c & Hc & Hup).
  pose proof (palette_index_range off Hoff) as Hi.
  exists c, (palette_color off d c). eexists. split; [exact Hc|].
  split; [exact Hup|]. cbn [palette set_palette]. repeat split.
  - apply array_get_insert_eq. lia.
  - intros j Hj. apply array_get_insert_ne; [lia | exact Hj].
  - now apply palette_color_even.
  - now apply palette_color_even.
  - intros Hodd. now apply palette_color_odd.
  - apply length_insert.
Qed.

Lemma palette_update_frame_witness :
  exists c c' s',
    array_get (palette power_on) (Z.shiftr 1 1) = Some c
    /\ rygar_update_palette 1 0xAB power_on = Some s'
    /\ array_get (palette s') (Z.shiftr 1 1) = Some c'
    /\ (forall j, j <> Z.shiftr 1 1 ->
          array_get (palette s') j = array_get (palette power_on) j)
    /\ (Z.land 1 1 = 0 -> red c' = red c /\ green c' = green c)
    /\ (Z.land 1 1 <> 0 -> blue c' = blue c)
    /\ length (palette s') = length (palette power_on).
Proof.
  apply (palette_update_frame 1 0xAB power_on);
    [vm_compute; reflexivity | vm_compute; split; [discriminate | reflexivity]].
Defined.

Section Claims.
Context {P : Z80Pins} (HP : Z80PinsContract P).

(** C6.  For every palette-RAM address [a] and byte [b], after the CPU
    writes [b] to [a] the alpha byte (upper 8 bits) of
    [palette[(a - 0xE800) >> 1]] is 0xFF and the channel selected by the
    parity of the offset is the nibble-replicated decoding of [b]: blue for
    an even offset, red and green for an odd one. *)
Theorem cpu_palette_write (n p : Z) (s : rygar_t) :
  well_formed s = true -> ticks_ok n = true ->
  pin p Z80_MREQ = true -> pin p Z80_WR = true ->
  PALETTE_RAM_START <= Z80_GET_ADDR p <= PALETTE_RAM_END ->
  let a := Z80_GET_ADDR p in
  let b := Z80_GET_DATA p in
  exists s' p' c',
    rygar_tick_main n p s = Some (s', p')
    /\ array_get (palette s') (Z.shiftr (a - 0xE800) 1) = Some c'
    /\ alpha c' = 0xFF
    /\ (Z.land (a - 0xE800) 1 = 0 ->
        blue c' = Z.lor (Z.land b 0x0F) (Z.land (Z.shiftl b 4) 0xF0))
    /\ (Z.land (a - 0xE800) 1 <> 0 ->
        red c' = Z.lor (Z.land b 0xF0) (Z.land (Z.shiftr b 4) 0x0F)
        /\ green c' = Z.lor (Z.land b 0x0F) (Z.land (Z.shiftl b 4) 0xF0)).
Proof.
  intros Hwf Hn Hm Hw Ha a b.
  rewrite (rygar_tick_main_phases n p s) by auto using well_formed_counters.
  unfold tick_bus.
  rewrite (drive_int_addr HP), (drive_int_data HP), (drive_int_mreq HP),
    (drive_int_wr HP), Hm, Hw.
  fold a b. cbv zeta. consts. tests.
  set (s2 := set_main _ _).
  destruct (rygar_update_palette_ok (a - 59392) b s2) as (c & Hc & Hup).
  { subst s2. cbn [palette set_main set_counters].
    now apply well_formed_palette. }
  { consts. lia. }
  rewrite Hup. cbn [mbind option_bind].
  do 2 eexists. exists (palette_color (a - 59392) b c).
  split; [reflexivity|]. cbn [palette set_palette].
  split.
  { apply array_get_insert_eq.
    pose proof (palette_index_range (a - 59392)) as Hi.
    subst s2. cbn [palette set_main set_counters].
    rewrite (well_formed_palette s Hwf). apply Hi. consts. lia. }
  split; [apply palette_color_alpha|].
  split.
  - intros He. now apply palette_color_even.
  - intros Ho. split; now apply palette_color_odd.
Qed.

(** C5.  A CPU write to an address in 0xD000..0xDFFF marks exactly one tile
    of exactly one tilemap: char tile [(a - 0xD000) & 0x3FF] for
    0xD000..0xD7FF, fg tile [(a - 0xD800) & 0x1FF] for 0xD800..0xDBFF, bg
    tile [(a - 0xDC00) & 0x1FF] for 0xDC00..0xDFFF, the two other tilemaps
    being left as they were; writes to 0xD801 and to 0xDA01 both mark fg
    tile 1. *)
Theorem tile_write_marks_one_tile (n p : Z) (s : rygar_t) :
  well_formed s = true -> ticks_ok n = true ->
  pin p Z80_MREQ = true -> pin p Z80_WR = true ->
  0xD000 <= Z80_GET_ADDR p <= 0xDFFF ->
  let a := Z80_GET_ADDR p in
  exists s' p',
    rygar_tick_main n p s = Some (s', p')
    /\ (0xD000 <= a <= 0xD7FF ->
        char_tilemap s'
        = tilemap_mark_tile_dirty (char_tilemap s) (Z.land (a - 0xD000) 0x3FF)
        /\ dirty (char_tilemap s')
           = {[ Z.land (a - 0xD000) 0x3FF ]} ∪ dirty (char_tilemap s)
        /\ fg_tilemap s' = fg_tilemap s /\ bg_tilemap s' = bg_tilemap s)
    /\ (0xD800 <= a <= 0xDBFF ->
        fg_tilemap s'
        = tilemap_mark_tile_dirty (fg_tilemap s) (Z.land (a - 0xD800) 0x1FF)
        /\ dirty (fg_tilemap s')
           = {[ Z.land (a - 0xD800) 0x1FF ]} ∪ dirty (fg_tilemap s)
        /\ char_tilemap s' = char_tilemap s /\ bg_tilemap s' = bg_tilemap s)
    /\ (0xDC00 <= a <= 0xDFFF ->
        bg_tilemap s'
        = tilemap_mark_tile_dirty (bg_tilemap s) (Z.land (a - 0xDC00) 0x1FF)
        /\ dirty (bg_tilemap s')
           = {[ Z.land (a - 0xDC00) 0x1FF ]} ∪ dirty (bg_tilemap s)
        /\ char_tilemap s' = char_tilemap s /\ fg_tilemap s' = fg_tilemap s)
    /\ (a = 0xD801 \/ a = 0xDA01 ->
        dirty (fg_tilemap s') = {[ 1 ]} ∪ dirty (fg_tilemap s)
        /\ char_tilemap s' = char_tilemap s /\ bg_tilemap s' = bg_tilemap s).
Proof.
  intros Hwf Hn Hm Hw Ha a. fold a in Ha.
  destruct (well_formed_tilemaps s Hwf) as (Hc & Hf & Hb).
  enter_bus HP. rewrite Hm, Hw. fold a. cbv zeta.
  assert (Hcase : 0xD000 <= a <= 0xD7FF \/ 0xD800 <= a <= 0xDBFF
                  \/ 0xDC00 <= a <= 0xDFFF) by lia.
  destruct Hcase as [Hr | [Hr | Hr]]; tests; do 2 eexists;
    (split; [reflexivity|]);
    cbn [char_tilemap fg_tilemap bg_tilemap set_char_tilemap set_fg_tilemap
         set_bg_tilemap set_main set_counters dirty tilemap_mark_tile_dirty];
    consts; rewrite ?Hc, ?Hf, ?Hb;
    change 1023 with (Z.ones 10); change 511 with (Z.ones 9);
    change 1024 with (2 ^ 10); change 512 with (2 ^ 9);
    rewrite ?land_mod_idem by lia;
    (split; [|split; [|split; [|]]]); intros Hq; try lia; auto.
  destruct Hq as [-> | ->]; auto.
Qed.

(** C8.  After a write to a scroll latch the scroll-X handed to the tilemap
    is [((scroll[1] << 8) | scroll[0]) + 48] of the latch bytes as they are
    after the write, for fg (0xF800..0xF802) and bg (0xF803..0xF805) alike;
    writing [b0] to 0xF800 and then [b1] to 0xF801 hands over
    [((b1 << 8) | b0) + 48], which is 0x240 for 0x10 and 0x02. *)
Theorem scroll_x_formula :
  (forall (n p : Z) (s : rygar_t),
     well_formed s = true -> ticks_ok n = true ->
     pin p Z80_MREQ = true -> pin p Z80_WR = true ->
     0xF800 <= Z80_GET_ADDR p <= 0xF805 ->
     let a := Z80_GET_ADDR p in
     let b := Z80_GET_DATA p in
     exists s' p' s0 s1,
       rygar_tick_main n p s = Some (s', p')
       /\ (a <= 0xF802 ->
           array_get (fg_scroll (main s')) (a - 0xF800) = Some b
           /\ array_get (fg_scroll (main s')) 0 = Some s0
           /\ array_get (fg_scroll (main s')) 1 = Some s1
           /\ fg_tilemap s'
              = tilemap_set_scroll_x (fg_tilemap s)
                  (Z.lor (Z.shiftl s1 8) s0 + 48))
       /\ (0xF803 <= a ->
           array_get (bg_scroll (main s')) (a - 0xF803) = Some b
           /\ array_get (bg_scroll (main s')) 0 = Some s0
           /\ array_get (bg_scroll (main s')) 1 = Some s1
           /\ bg_tilemap s'
              = tilemap_set_scroll_x (bg_tilemap s)
                  (Z.lor (Z.shiftl s1 8) s0 + 48)))
  /\ (forall (n1 n2 p1 p2 : Z) (s : rygar_t),
        well_formed s = true -> ticks_ok n1 = true -> ticks_ok n2 = true ->
        pin p1 Z80_MREQ = true -> pin p1 Z80_WR = true ->
        pin p2 Z80_MREQ = true -> pin p2 Z80_WR = true ->
        Z80_GET_ADDR p1 = 0xF800 -> Z80_GET_ADDR p2 = 0xF801 ->
        let b0 := Z80_GET_DATA p1 in
        let b1 := Z80_GET_DATA p2 in
        exists s1 q1 s2 q2,
          rygar_tick_main n1 p1 s = Some (s1, q1)
          /\ rygar_tick_main n2 p2 s1 = Some (s2, q2)
          /\ fg_tilemap s2
             = tilemap_set_scroll_x (fg_tilemap s1)
                 (Z.lor (Z.shiftl b1 8) b0 + 48)
          /\ scroll_x (fg_tilemap s2)
             = (Z.lor (Z.shiftl b1 8) b0 + 48) mod 0x10000
          /\ (b0 = 0x10 -> b1 = 0x02 -> scroll_x (fg_tilemap s2) = 0x240)).
Proof.
  split.
  - intros n p s Hwf Hn Hm Hw Ha a b. fold a in Ha.
    destruct (well_formed_scrolls s Hwf) as [Hlf Hlb].
    destruct (Z.le_gt_cases a 0xF802) as [Hfg | Hbg].
    + destruct (fg_scroll_write HP n p s Hwf Hn Hm Hw) as (s0 & s1 & H0 & H1 & Ht);
        [consts; fold a; lia|].
      rewrite Ht. do 2 eexists. exists s0, s1.
      split; [reflexivity|].
      cbn [main set_fg_tilemap set_main fg_scroll set_fg_scroll fg_tilemap
           set_counters ticked].
      split; [intros _ | intros; lia].
      split; [|auto].
      apply array_get_insert_eq. fold a. lia.
    + destruct (bg_scroll_write HP n p s Hwf Hn Hm Hw) as (s0 & s1 & H0 & H1 & Ht);
        [consts; fold a; lia|].
      rewrite Ht. do 2 eexists. exists s0, s1.
      split; [reflexivity|].
      cbn [main set_bg_tilemap set_main bg_scroll set_bg_scroll bg_tilemap
           set_counters ticked].
      split; [intros; lia | intros _].
      split; [|auto].
      apply array_get_insert_eq. fold a. lia.
  - intros n1 n2 p1 p2 s Hwf Hn1 Hn2 Hm1 Hw1 Hm2 Hw2 Ha1 Ha2 b0 b1.
    destruct (fg_scroll_write HP n1 p1 s Hwf Hn1 Hm1 Hw1) as (x0 & x1 & _ & _ & Ht1);
      [consts; lia|].
    pose proof (rygar_tick_main_wf HP n1 p1 s _ _ Hwf Hn1 Ht1) as Hwf1.
    destruct (fg_scroll_write HP n2 p2 _ Hwf1 Hn2 Hm2 Hw2) as (y0 & y1 & H0 & H1 & Ht2);
      [consts; lia|].
    destruct (well_formed_scrolls s Hwf) as [Hlf _].
    rewrite Ha1, Ha2 in *. fold b0 b1 in H0, H1, Ht1, Ht2.
    cbn [main set_fg_tilemap set_main fg_scroll set_fg_scroll] in H0, H1.
    change (Z.to_nat (0xF801 - FG_SCROLL_START)) with (Z.to_nat 1) in H0, H1.
    change (Z.to_nat (0xF800 - FG_SCROLL_START)) with (Z.to_nat 0) in H0, H1.
    rewrite (array_get_insert_ne _ 1 0) in H0 by lia.
    rewrite (array_get_insert_eq _ 0) in H0 by lia.
    rewrite (array_get_insert_eq _ 1) in H1 by (rewrite length_insert; lia).
    injection H0 as <-. injection H1 as <-.
    do 4 eexists. split; [exact Ht1|]. split; [exact Ht2|].
    cbn [fg_tilemap set_fg_tilemap scroll_x tilemap_set_scroll_x].
    split; [reflexivity|]. split; [reflexivity|].
    intros -> ->. reflexivity.
Qed.

(** C10.  A write to the third scroll byte (0xF802 for fg, 0xF805 for bg)
    stores the byte in [scroll[2]] and leaves the effective scroll-X of the
    layer, [((scroll[1] << 8) | scroll[0]) + 48], unchanged: bytes 0 and 1
    are untouched, and the tilemap's scroll-X is set again to that very
    value, so that a tilemap which held it is unchanged.  No other machine
    state is modified by the write: the rest of the main board, the palette
    cache and the other tilemaps are as before, and the two tick counters
    are the ones every call leaves. *)
Theorem third_scroll_byte_write (n p : Z) (s : rygar_t) :
  well_formed s = true -> ticks_ok n = true ->
  pin p Z80_MREQ = true -> pin p Z80_WR = true ->
  Z80_GET_ADDR p = 0xF802 \/ Z80_GET_ADDR p = 0xF805 ->
  let a := Z80_GET_ADDR p in
  let b := Z80_GET_DATA p in
  exists s' p',
    rygar_tick_main n p s = Some (s', p')
    /\ vsync_count s' = vsync_next n s
    /\ vblank_count s' = vblank_next n s
    /\ palette s' = palette s
    /\ char_tilemap s' = char_tilemap s
    /\ (a = 0xF802 ->
        exists s0 s1,
          array_get (fg_scroll (main s)) 0 = Some s0
          /\ array_get (fg_scroll (main s)) 1 = Some s1
          /\ main s' = set_fg_scroll (<[2%nat := b]> (fg_scroll (main s))) (main s)
          /\ bg_tilemap s' = bg_tilemap s
          /\ fg_tilemap s'
             = tilemap_set_scroll_x (fg_tilemap s)
                 (Z.lor (Z.shiftl s1 8) s0 + 48)
          /\ (scroll_x (fg_tilemap s)
              = (Z.lor (Z.shiftl s1 8) s0 + 48) mod 0x10000 ->
              fg_tilemap s' = fg_tilemap s)
          /\ array_get (fg_scroll (main s')) 2 = Some b
          /\ array_get (fg_scroll (main s')) 0 = Some s0
          /\ array_get (fg_scroll (main s')) 1 = Some s1
          /\ effective_scroll_x (fg_scroll (main s))
             = Some (Z.lor (Z.shiftl s1 8) s0 + 48)
          /\ effective_scroll_x (fg_scroll (main s'))
             = effective_scroll_x (fg_scroll (main s)))
    /\ (a = 0xF805 ->
        exists s0 s1,
          array_get (bg_scroll (main s)) 0 = Some s0
          /\ array_get (bg_scroll (main s)) 1 = Some s1
          /\ main s' = set_bg_scroll (<[2%nat := b]> (bg_scroll (main s))) (main s)
          /\ fg_tilemap s' = fg_tilemap s
          /\ bg_tilemap s'
             = tilemap_set_scroll_x (bg_tilemap s)
                 (Z.lor (Z.shiftl s1 8) s0 + 48)
          /\ (scroll_x (bg_tilemap s)
              = (Z.lor (Z.shiftl s1 8) s0 + 48) mod 0x10000 ->
              bg_tilemap s' = bg_tilemap s)
          /\ array_get (bg_scroll (main s')) 2 = Some b
          /\ array_get (bg_scroll (main s')) 0 = Some s0
          /\ array_get (bg_scroll (main s')) 1 = Some s1
          /\ effective_scroll_x (bg_scroll (main s))
             = Some (Z.lor (Z.shiftl s1 8) s0 + 48)
          /\ effective_scroll_x (bg_scroll (main s'))
             = effective_scroll_x (bg_scroll (main s))).
Proof.
  intros Hwf Hn Hm Hw Ha a b.
  destruct (well_formed_scrolls s Hwf) as [Hlf Hlb].
  destruct Ha as [Ha | Ha].
  - destruct (fg_scroll_write HP n p s Hwf Hn Hm Hw) as (s0 & s1 & H0 & H1 & Ht);
      [consts; lia|].
    rewrite Ht. subst a b. rewrite Ha in *.
    change (Z.to_nat (0xF802 - FG_SCROLL_START)) with 2%nat in *.
    pose proof H0 as H0'. pose proof H1 as H1'.
    rewrite (array_get_insert_ne _ 2 0) in H0 by lia.
    rewrite (array_get_insert_ne _ 2 1) in H1 by lia.
    do 2 eexists. split; [reflexivity|].
    cbn [main set_fg_tilemap set_main fg_tilemap bg_tilemap char_tilemap
         palette vsync_count vblank_count set_counters ticked fg_scroll
         set_fg_scroll].
    repeat (split; [reflexivity|]).
    split; [intros _ | intros; lia].
    exists s0, s1.
    split; [exact H0|]. split; [exact H1|]. split; [reflexivity|].
    split; [reflexivity|]. split; [reflexivity|].
    split; [intros Hs; now apply tilemap_set_scroll_x_same|].
    split; [apply (array_get_insert_eq _ 2); lia|].
    split; [exact H0'|]. split; [exact H1'|].
    unfold effective_scroll_x. rewrite H0, H1, H0', H1'.
    split; reflexivity.
  - destruct (bg_scroll_write HP n p s Hwf Hn Hm Hw) as (s0 & s1 & H0 & H1 & Ht);
      [consts; lia|].
    rewrite Ht. subst a b. rewrite Ha in *.
    change (Z.to_nat (0xF805 - BG_SCROLL_START)) with 2%nat in *.
    pose proof H0 as H0'. pose proof H1 as H1'.
    rewrite (array_get_insert_ne _ 2 0) in H0 by lia.
    rewrite (array_get_insert_ne _ 2 1) in H1 by lia.
    do 2 eexists. split; [reflexivity|].
    cbn [main set_bg_tilemap set_main fg_tilemap bg_tilemap char_tilemap
         palette vsync_count vblank_count set_counters ticked bg_scroll
         set_bg_scroll].
    repeat (split; [reflexivity|]).
    split; [intros; lia | intros _].
    exists s0, s1.
    split; [exact H0|]. split; [exact H1|]. split; [reflexivity|].
    split; [reflexivity|]. split; [reflexivity|].
    split; [intros Hs; now apply tilemap_set_scroll_x_same|].
    split; [apply (array_get_insert_eq _ 2); lia|].
    split; [exact H0'|]. split; [exact H1'|].
    unfold effective_scroll_x. rewrite H0, H1, H0', H1'.
    split; reflexivity.
Qed.

(** C4, as the code has it.  A cycle with IORQ and M1 set and MREQ clear
    returns the bus word with INT cleared and touches nothing but the tick
    counters; the acknowledge is not remembered: every later call that is not
    itself an acknowledge returns INT asserted as long as [vblank_count] is
    still positive, and leaves INT as it came in once [vblank_count] has run
    out, until the next reload. *)
Theorem int_acknowledge :
  (forall (n p : Z) (s : rygar_t),
     well_formed s = true -> ticks_ok n = true -> is_ack p = true ->
     exists p',
       rygar_tick_main n p s = Some (ticked n s, p')
       /\ pin p' Z80_INT = false)
  /\ (forall (n p : Z) (s s' : rygar_t) (p' : Z),
        well_formed s = true -> ticks_ok n = true -> is_ack p = false ->
        0 < vblank_count s ->
        rygar_tick_main n p s = Some (s', p') ->
        pin p' Z80_INT = true)
  /\ (forall (n p : Z) (s : rygar_t),
        well_formed s = true -> ticks_ok n = true ->
        pin p Z80_MREQ = false -> is_ack p = false ->
        0 < vblank_count s ->
        exists p',
          rygar_tick_main n p s = Some (ticked n s, p')
          /\ pin p' Z80_INT = true)
  /\ (forall (n p : Z) (s s' : rygar_t) (p' : Z),
        well_formed s = true -> ticks_ok n = true -> is_ack p = false ->
        vblank_count s <= 0 -> vsync_reloads n s = false ->
        pin p Z80_INT = false ->
        rygar_tick_main n p s = Some (s', p') ->
        pin p' Z80_INT = false).
Proof.
  assert (Hvb : forall n s, 0 < vblank_count s -> in_vblank n s = true).
  { intros n s Hb. unfold in_vblank.
    destruct (vsync_reloads n s); [reflexivity | now apply Z.ltb_lt]. }
  split; [|split; [|split]]; cycle 3.
  { intros n p s s' p' Hwf Hn Hack Hb Hrel Hin Ht.
    rewrite (rygar_tick_main_int HP n p s _ _ Hwf Hn Ht), Hack, Hin.
    unfold in_vblank. rewrite Hrel. cbn [orb].
    rewrite orb_false_r. now apply Z.ltb_ge. }
  - intros n p s Hwf Hn Hack.
    assert (Hm : pin p Z80_MREQ = false).
    { unfold is_ack in Hack. split_hyps. now apply negb_true_iff. }
    pose proof (rygar_tick_main_no_mreq HP n p s Hwf Hn Hm) as Ht.
    eexists. split; [exact Ht|].
    rewrite (rygar_tick_main_int HP n p s _ _ Hwf Hn Ht), Hack. reflexivity.
  - intros n p s s' p' Hwf Hn Hack Hb Ht.
    rewrite (rygar_tick_main_int HP n p s _ _ Hwf Hn Ht), Hack, Hvb by assumption.
    reflexivity.
  - intros n p s Hwf Hn Hm Hack Hb.
    pose proof (rygar_tick_main_no_mreq HP n p s Hwf Hn Hm) as Ht.
    eexists. split; [exact Ht|].
    rewrite (rygar_tick_main_int HP n p s _ _ Hwf Hn Ht), Hack, Hvb by assumption.
    reflexivity.
Qed.

(** C9, as the code has it.  For a CPU read cycle (MREQ and RD, WR clear)
    above 0xEFFF: 0xF000..0xF7FF return the banked-ROM byte at
    [current_bank * 0x800 + (a - 0xF000)] when that index lies within the
    banked ROM; 0xF800, 0xF801 and 0xF804 return the joystick, buttons and
    sys bytes; 0xF809 (DIP_SW2_H) returns the constant 0x08; every other
    address, 0xF807 included, returns 0x00. *)
Theorem io_read_map (n p : Z) (s : rygar_t) :
  well_formed s = true -> ticks_ok n = true ->
  pin p Z80_MREQ = true -> pin p Z80_WR = false -> pin p Z80_RD = true ->
  0xEFFF < Z80_GET_ADDR p ->
  let a := Z80_GET_ADDR p in
  (0xF000 <= a <= 0xF7FF ->
   current_bank (main s) * 0x800 + (a - 0xF000) < BANK_SIZE ->
   exists d p',
     array_get (banked_rom (main s))
       (current_bank (main s) * 0x800 + (a - 0xF000)) = Some d
     /\ rygar_tick_main n p s = Some (ticked n s, p')
     /\ Z80_GET_DATA p' = d)
  /\ (0xF7FF < a ->
      exists p',
        rygar_tick_main n p s = Some (ticked n s, p')
        /\ (a = 0xF800 -> Z80_GET_DATA p' = joystick (main s))
        /\ (a = 0xF801 -> Z80_GET_DATA p' = buttons (main s))
        /\ (a = 0xF804 -> Z80_GET_DATA p' = sys (main s))
        /\ (a = 0xF809 -> Z80_GET_DATA p' = 0x08)
        /\ (a = 0xF807 -> Z80_GET_DATA p' = 0x00)
        /\ (a <> 0xF800 -> a <> 0xF801 -> a <> 0xF804 -> a <> 0xF809 ->
            Z80_GET_DATA p' = 0x00)).
Proof.
  intros Hwf Hn Hm Hw Hr Ha a. fold a in Ha.
  pose proof (addr_16bit P HP p) as Ha16. fold a in Ha16.
  destruct (well_formed_bank_rom s Hwf) as (Hlen & Hbytes & Hbank).
  destruct (well_formed_inputs s Hwf) as (Hj & Hb & Hs).
  split.
  - intros Hwin Hidx.
    destruct (array_get_in_range (banked_rom (main s))
                (current_bank (main s) * 0x800 + (a - 0xF000))) as [d Hd];
      [consts; lia|].
    enter_bus HP. rewrite Hm, Hw, Hr. fold a. cbv zeta. tests.
    cbn [main set_counters].
    replace ((a - BANK_WINDOW_START
              + current_bank (main s) * BANK_WINDOW_SIZE) mod 0x10000)
      with (current_bank (main s) * 0x800 + (a - 0xF000))
      by (consts; rewrite Z.mod_small; lia).
    rewrite Hd. cbn [mbind option_bind].
    exists d. eexists. split; [reflexivity|]. split; [reflexivity|].
    rewrite (get_set_data P HP). apply Z.mod_small.
    apply is_byte_iff. unfold array_get in Hd.
    destruct (0 <=? _); [|discriminate].
    exact (forallb_lookup _ _ _ _ Hbytes Hd).
  - intros Hio.
    enter_bus HP. rewrite Hm, Hw, Hr. fold a. cbv zeta.
    rewrite (BETWEEN_false a BANK_WINDOW_START BANK_WINDOW_END)
      by (consts; lia).
    rewrite (proj2 (Z.leb_gt a RAM_END)) by (consts; lia).
    cbn [main set_counters]. consts.
    destruct (Z.eqb_spec a 63488) as [E|N0];
      [|destruct (Z.eqb_spec a 63489) as [E|N1];
        [|destruct (Z.eqb_spec a 63492) as [E|N2];
          [|destruct (Z.eqb_spec a 63497) as [E|N3]]]];
      eexists; (split; [reflexivity|]);
      rewrite (get_set_data P HP);
      repeat split; intros; try lia;
      rewrite Z.mod_small by lia; reflexivity.
Qed.

(** C2.  The bank-switch write stores [data >> 3] unmasked: for every byte
    with bit 7 set the stored bank is 16 or more, differs from
    [(data & 0x78) >> 3], [bank * 0x800 + 0x7FF] reaches past the 32 KiB
    banked ROM, and the next read of the bank window indexes outside
    [banked_rom]. *)
Theorem bank_switch_keeps_bit7 (n1 n2 p1 p2 : Z) (s : rygar_t) :
  well_formed s = true -> ticks_ok n1 = true -> ticks_ok n2 = true ->
  pin p1 Z80_MREQ = true -> pin p1 Z80_WR = true ->
  Z80_GET_ADDR p1 = BANK_SWITCH -> 0x80 <= Z80_GET_DATA p1 ->
  pin p2 Z80_MREQ = true -> pin p2 Z80_WR = false -> pin p2 Z80_RD = true ->
  BANK_WINDOW_START <= Z80_GET_ADDR p2 <= BANK_WINDOW_END ->
  let d := Z80_GET_DATA p1 in
  exists s1 q1,
    rygar_tick_main n1 p1 s = Some (s1, q1)
    /\ current_bank (main s1) = Z.shiftr d 3
    /\ current_bank (main s1) <> Z.shiftr (Z.land d 0x78) 3
    /\ 16 <= current_bank (main s1)
    /\ BANK_SIZE <= current_bank (main s1) * 0x800 + 0x7FF
    /\ rygar_tick_main n2 p2 s1 = None.
Proof.
  intros Hwf Hn1 Hn2 Hm1 Hw1 Ha1 Hd Hm2 Hw2 Hr2 Ha2 d. fold d in Hd.
  pose proof (data_8bit P HP p1) as Hd8. fold d in Hd8.
  pose proof (shiftr3_byte d Hd8) as Hb.
  pose proof (land_0x78_shift d) as Hc.
  assert (Hb16 : 16 <= Z.shiftr d 3).
  { rewrite Z.shiftr_div_pow2 by lia. change (2 ^ 3) with 8.
    apply Z.div_le_lower_bound; lia. }
  assert (Ht1 : rygar_tick_main n1 p1 s
                = Some (set_main (set_current_bank (Z.shiftr d 3) (main s))
                          (ticked n1 s), drive_int n1 p1 s)).
  { enter_bus HP. rewrite Hm1, Hw1, Ha1. cbv zeta. tests. reflexivity. }
  pose proof (rygar_tick_main_wf HP n1 p1 s _ _ Hwf Hn1 Ht1) as Hwf1.
  destruct (well_formed_bank_rom s Hwf) as (Hlen & _ & _).
  do 2 eexists. split; [exact Ht1|].
  cbn [main set_main current_bank set_current_bank].
  repeat split; try lia.
  - consts. lia.
  - enter_bus HP. rewrite Hm2, Hw2, Hr2. cbv zeta. tests.
    cbn [main set_main set_counters current_bank set_current_bank banked_rom
         ticked].
    unfold array_get.
    rewrite Z.mod_small by (consts; lia).
    rewrite (proj2 (Z.leb_le 0 _)) by (consts; lia).
    rewrite lookup_ge_None_2 by (consts; lia). reflexivity.
Qed.

(** C1, as the code has it.  The period and the pulse width are the integer
    quotients [4000000 / 60 = 66_666] and [(66_666 / 525) * 42 = 5_292].
    From the first vsync reload onwards, every window of 66_666 consecutive
    single-tick calls, none of them an acknowledge, returns the INT pin
    asserted on exactly 5_292 of them (and such a run is defined as long as
    no call sets bit 7 of the bank register).  A call on which [vsync_count]
    reaches 0 or below reloads it by adding 66_666, sets [vblank_count] to
    5_292, less the ticks of that call, and asserts INT. *)
Theorem vblank_int_window :
  VSYNC_PERIOD_4MHZ = 66666 /\ VBLANK_DURATION_4MHZ = 5292
  /\ (forall (ps : list Z) (s : rygar_t),
        well_formed s = true -> after_reload s = true ->
        current_bank (main s) < 16 ->
        Z.of_nat (length ps) = 66666 ->
        forallb quiet ps = true ->
        forallb (fun p => negb (sets_bank_bit7 p)) ps = true ->
        exists outs s',
          run_ticks 1 ps s = Some (outs, s')
          /\ Z.of_nat (int_count outs) = 5292
          /\ after_reload s' = true)
  /\ (forall (ps : list Z) (s : rygar_t) (outs : list Z) (s' : rygar_t),
        well_formed s = true -> after_reload s = true ->
        Z.of_nat (length ps) = 66666 ->
        forallb quiet ps = true ->
        run_ticks 1 ps s = Some (outs, s') ->
        Z.of_nat (int_count outs) = 5292 /\ after_reload s' = true)
  /\ (forall (n p : Z) (s s' : rygar_t) (p' : Z),
        well_formed s = true -> ticks_ok n = true ->
        vsync_count s - n <= 0 ->
        rygar_tick_main n p s = Some (s', p') ->
        vsync_count s' = vsync_count s - n + 66666
        /\ vblank_count s' = 5292 - n
        /\ (is_ack p = false -> pin p' Z80_INT = true)).
Proof.
  split; [reflexivity|]. split; [reflexivity|]. split; [|split].
  - intros ps s Hwf Har Hb Hlen Hq Hsafe.
    destruct (run_ticks_defined HP ps s Hwf Hb Hsafe) as (outs & s' & Hr).
    exists outs, s'. split; [exact Hr|].
    destruct (window_count HP ps s outs s' Hwf Har Hlen Hq Hr) as (Hc & _ & Ha & _).
    auto.
  - intros ps s outs s' Hwf Har Hlen Hq Hr.
    destruct (window_count HP ps s outs s' Hwf Har Hlen Hq Hr) as (Hc & _ & Ha & _).
    auto.
  - intros n p s s' p' Hwf Hn Hv Ht.
    destruct (rygar_tick_main_counters HP n p s _ _ Hwf Hn Ht) as [Hv' Hb'].
    pose proof (rygar_tick_main_int HP n p s _ _ Hwf Hn Ht) as Hi.
    unfold vblank_next, in_vblank, vsync_next, vsync_reloads in *.
    rewrite (proj2 (Z.leb_le (vsync_count s - n) 0)) in * by lia.
    rewrite VSYNC_PERIOD_value, VBLANK_DURATION_value in *.
    change (0 <? 5292) with true in *. cbn iota in *.
    repeat split; try assumption.
    intros Hack. now rewrite Hack in Hi.
Qed.

End Claims.

(** * The claims evaluated on concrete machines *)

Ltac eval_hyp :=
  vm_compute;
  first [ reflexivity | discriminate | split; first [reflexivity | discriminate] ].

(** The counters of [reloaded] are those of the machine 66_666 idle ticks
    after power-on. *)
Lemma power_on_first_reload :
  (r ← run_ticks 1 (idle 66666) power_on;
   Some (vsync_count r.2, vblank_count r.2, after_reload r.2))
  = Some (vsync_count reloaded, vblank_count reloaded, true).
Proof. vm_compute. reflexivity. Qed.

(** The latches and the scroll-X of [scrolled] are those of [reloaded] after
    the four latch writes. *)
Lemma scrolled_latches :
  (r ← run_ticks 1 [write_cycle 0xF800 0x10; write_cycle 0xF801 0x02;
                    write_cycle 0xF803 0x10; write_cycle 0xF804 0x02]
         reloaded;
   Some (fg_scroll (main r.2), bg_scroll (main r.2),
         scroll_x (fg_tilemap r.2), scroll_x (bg_tilemap r.2)))
  = Some (fg_scroll (main scrolled), bg_scroll (main scrolled),
          scroll_x (fg_tilemap scrolled), scroll_x (bg_tilemap scrolled)).
Proof. vm_compute. reflexivity. Qed.

Lemma cpu_palette_write_witness :
  exists s' p' c',
    rygar_tick_main 1 (write_cycle 0xE801 0xAB) power_on = Some (s', p')
    /\ array_get (palette s') 0 = Some c'
    /\ alpha c' = 0xFF /\ red c' = 0xAA /\ green c' = 0xBB.
Proof.
  destruct (cpu_palette_write chips_pins_contract 1
              (write_cycle 0xE801 0xAB) power_on)
    as (s' & p' & c' & Ht & Hc & Ha & _ & Ho); [eval_hyp..|].
  exists s', p', c'. split; [exact Ht|]. split; [exact Hc|].
  split; [exact Ha|]. apply Ho. vm_compute. discriminate.
Defined.

Lemma tile_write_marks_one_tile_witness :
  exists s' p',
    rygar_tick_main 1 (write_cycle 0xDA01 0x00) power_on = Some (s', p')
    /\ dirty (fg_tilemap s') = {[ 1 ]} ∪ dirty (fg_tilemap power_on)
    /\ char_tilemap s' = char_tilemap power_on
    /\ bg_tilemap s' = bg_tilemap power_on.
Proof.
  destruct (tile_write_marks_one_tile chips_pins_contract 1
              (write_cycle 0xDA01 0x00) power_on)
    as (s' & p' & Ht & _ & _ & _ & Hs); [eval_hyp..|].
  exists s', p'. split; [exact Ht|]. apply Hs. right. reflexivity.
Defined.

Lemma scroll_x_formula_witness :
  (exists s' p' s0 s1,
     rygar_tick_main 1 (write_cycle 0xF804 0x7F) power_on = Some (s', p')
     /\ array_get (bg_scroll (main s')) 1 = Some 0x7F
     /\ array_get (bg_scroll (main s')) 0 = Some s0
     /\ array_get (bg_scroll (main s')) 1 = Some s1
     /\ bg_tilemap s'
        = tilemap_set_scroll_x (bg_tilemap power_on)
            (Z.lor (Z.shiftl s1 8) s0 + 48))
  /\ (exists s1 q1 s2 q2,
        rygar_tick_main 1 (write_cycle 0xF800 0x10) power_on = Some (s1, q1)
        /\ rygar_tick_main 1 (write_cycle 0xF801 0x02) s1 = Some (s2, q2)
        /\ scroll_x (fg_tilemap s2) = 0x240).
Proof.
  split.
  - destruct (proj1 (scroll_x_formula chips_pins_contract) 1
                (write_cycle 0xF804 0x7F) power_on)
      as (s' & p' & s0 & s1 & Ht & _ & Hbg); [eval_hyp..|].
    exists s', p', s0, s1. split; [exact Ht|]. apply Hbg. eval_hyp.
  - destruct (proj2 (scroll_x_formula chips_pins_contract) 1 1
                (write_cycle 0xF800 0x10) (write_cycle 0xF801 0x02) power_on)
      as (s1 & q1 & s2 & q2 & H1 & H2 & _ & _ & Hx); [eval_hyp..|].
    exists s1, q1, s2, q2. split; [exact H1|]. split; [exact H2|].
    apply Hx; reflexivity.
Defined.

Lemma third_scroll_byte_write_witness :
  (exists s' p',
     rygar_tick_main 1 (write_cycle 0xF802 0xAB) scrolled = Some (s', p')
     /\ array_get (fg_scroll (main s')) 2 = Some 0xAB
     /\ effective_scroll_x (fg_scroll (main s')) = Some 0x240
     /\ effective_scroll_x (fg_scroll (main scrolled)) = Some 0x240
     /\ fg_tilemap s' = fg_tilemap scrolled
     /\ bg_tilemap s' = bg_tilemap scrolled
     /\ char_tilemap s' = char_tilemap scrolled
     /\ palette s' = palette scrolled
     /\ main s'
        = set_fg_scroll (<[2%nat := 0xAB]> (fg_scroll (main scrolled)))
            (main scrolled)
     /\ vsync_count s' = vsync_next 1 scrolled
     /\ vblank_count s' = vblank_next 1 scrolled)
  /\ (exists s' p',
        rygar_tick_main 1 (write_cycle 0xF805 0xCD) scrolled = Some (s', p')
        /\ array_get (bg_scroll (main s')) 2 = Some 0xCD
        /\ effective_scroll_x (bg_scroll (main s')) = Some 0x240
        /\ effective_scroll_x (bg_scroll (main scrolled)) = Some 0x240
        /\ bg_tilemap s' = bg_tilemap scrolled
        /\ fg_tilemap s' = fg_tilemap scrolled
        /\ char_tilemap s' = char_tilemap scrolled
        /\ palette s' = palette scrolled
        /\ main s'
           = set_bg_scroll (<[2%nat := 0xCD]> (bg_scroll (main scrolled)))
               (main scrolled)
        /\ vsync_count s' = vsync_next 1 scrolled
        /\ vblank_count s' = vblank_next 1 scrolled).
Proof.
  split.
  - destruct (third_scroll_byte_write chips_pins_contract 1
                (write_cycle 0xF802 0xAB) scrolled)
      as (s' & p' & Ht & Hv & Hb & Hp & Hc & Hfg & _); [eval_hyp.. | |].
    + left. vm_compute. reflexivity.
    + destruct Hfg as (s0 & s1 & H0 & H1 & Hm & Hbg & _ & Hsame & H2 & _ & _
                       & He & He'); [vm_compute; reflexivity|].
      assert (E0 : s0 = 0x10)
        by (vm_compute in H0; now injection H0 as <-).
      assert (E1 : s1 = 0x02)
        by (vm_compute in H1; now injection H1 as <-).
      subst s0 s1.
      exists s', p'. split; [exact Ht|]. split; [exact H2|].
      split; [rewrite He'; exact He|]. split; [exact He|].
      split; [apply Hsame; vm_compute; reflexivity|].
      auto 10.
  - destruct (third_scroll_byte_write chips_pins_contract 1
                (write_cycle 0xF805 0xCD) scrolled)
      as (s' & p' & Ht & Hv & Hb & Hp & Hc & _ & Hbg); [eval_hyp.. | |].
    + right. vm_compute. reflexivity.
    + destruct Hbg as (s0 & s1 & H0 & H1 & Hm & Hfg & _ & Hsame & H2 & _ & _
                       & He & He'); [vm_compute; reflexivity|].
      assert (E0 : s0 = 0x10)
        by (vm_compute in H0; now injection H0 as <-).
      assert (E1 : s1 = 0x02)
        by (vm_compute in H1; now injection H1 as <-).
      subst s0 s1.
      exists s', p'. split; [exact Ht|]. split; [exact H2|].
      split; [rewrite He'; exact He|]. split; [exact He|].
      split; [apply Hsame; vm_compute; reflexivity|].
      auto 10.
Defined.

Lemma int_acknowledge_witness :
  (exists p',
     rygar_tick_main 1 ack_cycle reloaded = Some (ticked 1 reloaded, p')
     /\ pin p' Z80_INT = false)
  /\ (exists p',
        rygar_tick_main 1 0 (ticked 1 reloaded)
        = Some (ticked 1 (ticked 1 reloaded), p')
        /\ pin p' Z80_INT = true).
Proof.
  split.
  - apply (proj1 (int_acknowledge chips_pins_contract) 1 ack_cycle reloaded);
      eval_hyp.
  - apply (proj1 (proj2 (proj2 (int_acknowledge chips_pins_contract))) 1 0
             (ticked 1 reloaded)); eval_hyp.
Defined.

(** Right after a reload the acknowledge clears INT in its own bus word; the
    next tick, still before any further reload, returns INT asserted. *)
Lemma int_acknowledge_counterexample :
  (sp ← rygar_tick_main 1 ack_cycle reloaded;
   sq ← rygar_tick_main 1 0 sp.1;
   Some (pin sp.2 Z80_INT, vsync_reloads 1 sp.1, pin sq.2 Z80_INT))
  = Some (false, false, true).
Proof. vm_compute. reflexivity. Qed.

Lemma io_read_map_witness :
  (exists d p',
     array_get (banked_rom (main power_on)) (0 * 0x800 + (0xF001 - 0xF000))
     = Some d
     /\ rygar_tick_main 1 (read_cycle 0xF001) power_on
        = Some (ticked 1 power_on, p')
     /\ Z80_GET_DATA p' = d)
  /\ (exists p',
        rygar_tick_main 1 (read_cycle 0xF809) power_on
        = Some (ticked 1 power_on, p')
        /\ Z80_GET_DATA p' = 0x08).
Proof.
  split.
  - apply (proj1 (io_read_map chips_pins_contract 1 (read_cycle 0xF001)
                    power_on ltac:(eval_hyp) ltac:(eval_hyp) ltac:(eval_hyp)
                    ltac:(eval_hyp) ltac:(eval_hyp) ltac:(eval_hyp)));
      eval_hyp.
  - destruct (proj2 (io_read_map chips_pins_contract 1 (read_cycle 0xF809)
                       power_on ltac:(eval_hyp) ltac:(eval_hyp)
                       ltac:(eval_hyp) ltac:(eval_hyp) ltac:(eval_hyp)
                       ltac:(eval_hyp)))
      as (p' & Ht & _ & _ & _ & H9 & _); [eval_hyp|].
    exists p'. split; [exact Ht|]. apply H9. reflexivity.
Defined.

(** A read of 0xF807 returns 0x00, a read of 0xF809 returns 0x08. *)
Lemma io_read_map_counterexample :
  (sp ← rygar_tick_main 1 (read_cycle 0xF807) power_on;
   Some (Z80_GET_DATA sp.2)) = Some 0x00
  /\ (sp ← rygar_tick_main 1 (read_cycle 0xF809) power_on;
      Some (Z80_GET_DATA sp.2)) = Some 0x08.
Proof. split; vm_compute; reflexivity. Qed.

Lemma bank_switch_keeps_bit7_witness :
  exists s1 q1,
    rygar_tick_main 1 (write_cycle 0xF808 0x80) power_on = Some (s1, q1)
    /\ current_bank (main s1) = 16
    /\ Z.shiftr (Z.land 0x80 0x78) 3 = 0
    /\ BANK_SIZE <= current_bank (main s1) * 0x800 + 0x7FF
    /\ rygar_tick_main 1 (read_cycle 0xF000) s1 = None.
Proof.
  destruct (bank_switch_keeps_bit7 chips_pins_contract 1 1
              (write_cycle 0xF808 0x80) (read_cycle 0xF000) power_on)
    as (s1 & q1 & Ht & Hb & _ & _ & Hs & Hr); [eval_hyp..|].
  exists s1, q1. split; [exact Ht|]. split; [exact Hb|].
  split; [reflexivity|]. split; [exact Hs | exact Hr].
Defined.

Lemma vblank_int_window_witness :
  (exists outs s',
     run_ticks 1 (idle 66666) reloaded = Some (outs, s')
     /\ Z.of_nat (int_count outs) = 5292
     /\ after_reload s' = true)
  /\ (forall s' p',
        rygar_tick_main 1 0 (set_counters 1 0 power_on) = Some (s', p') ->
        vsync_count s' = 1 - 1 + 66666
        /\ vblank_count s' = 5292 - 1
        /\ (is_ack 0 = false -> pin p' Z80_INT = true)).
Proof.
  split.
  - apply (proj1 (proj2 (proj2 (vblank_int_window chips_pins_contract))));
      eval_hyp.
  - intros s' p'.
    apply (proj2 (proj2 (proj2 (proj2 (vblank_int_window chips_pins_contract))))
             1 0 (set_counters 1 0 power_on) s' p'); eval_hyp.
Defined.

(** Windows of 66_667 ticks: the first one after power-on sees INT on 2
    ticks, the one after the first reload on 5_293; and the call on which
    [vsync_count] reaches 0 leaves it at 66_666 with 5_291 ticks of vblank
    to go. *)
Lemma vblank_int_window_counterexample :
  (r ← run_ticks 1 (idle 66667) power_on;
   Some (Z.of_nat (int_count r.1))) = Some 2
  /\ (r ← run_ticks 1 (idle 66667) reloaded;
      Some (Z.of_nat (int_count r.1))) = Some 5293
  /\ (sp ← rygar_tick_main 1 0 (set_counters 1 0 power_on);
      Some (vsync_count sp.1, vblank_count sp.1)) = Some (66666, 5291).
Proof. repeat split; vm_compute; reflexivity. Qed.

(** * Further properties of the code *)

(** ** Shape of the machine *)

Lemma forallb_take (f : Z -> bool) (n : nat) (l : list Z) :
  forallb f l = true -> forallb f (take n l) = true.
Proof.
  revert n. induction l as [|x l IH]; intros [|n] H; try reflexivity.
  cbn [forallb take] in *. apply andb_true_iff in H. destruct H as [Hx Hl].
  apply andb_true_iff. auto.
Qed.

Lemma length_zeros (n : Z) : 0 <= n -> Z.of_nat (length (zeros n)) = n.
Proof. intros Hn. unfold zeros. rewrite length_replicate. lia. Qed.

Lemma ram_ok_insert (a : list Z) (size : Z) (i : nat) (d : Z) :
  ram_ok a size = true -> is_byte d = true ->
  ram_ok (<[i := d]> a) size = true.
Proof.
  unfold ram_ok. intros H Hd. apply andb_true_iff in H. destruct H as [Hl Hb].
  rewrite length_insert, Hl. now apply forallb_insert.
Qed.

Lemma rams_ok_mem_wr (s : rygar_t) (a d : Z) :
  rams_ok s = true -> is_byte d = true ->
  rams_ok (set_main (mem_wr (main s) a d) s) = true.
Proof.
  unfold rams_ok, mem_wr. intros H Hd. split_hyps.
  repeat case_match;
    cbn [main set_main work_ram char_ram fg_ram bg_ram sprite_ram palette_ram
         set_work_ram set_char_ram set_fg_ram set_bg_ram set_sprite_ram
         set_palette_ram];
    rewrite ?ram_ok_insert by assumption; rewrite_hyps; reflexivity.
Qed.

Section Further.
Context {P : Z80Pins} (HP : Z80PinsContract P).

(** What one decoded cycle does to the main board. *)
Lemma tick_bus_main (p : Z) (s s' : rygar_t) (p' : Z) :
  tick_bus p s = Some (s', p') ->
  main s'
  = if pin p Z80_MREQ && pin p Z80_WR then
      if BETWEEN (Z80_GET_ADDR p) RAM_START RAM_END then
        mem_wr (main s) (Z80_GET_ADDR p) (Z80_GET_DATA p)
      else if BETWEEN (Z80_GET_ADDR p) FG_SCROLL_START FG_SCROLL_END then
        set_fg_scroll
          (<[Z.to_nat (Z80_GET_ADDR p - FG_SCROLL_START) := Z80_GET_DATA p]>
             (fg_scroll (main s))) (main s)
      else if BETWEEN (Z80_GET_ADDR p) BG_SCROLL_START BG_SCROLL_END then
        set_bg_scroll
          (<[Z.to_nat (Z80_GET_ADDR p - BG_SCROLL_START) := Z80_GET_DATA p]>
             (bg_scroll (main s))) (main s)
      else if Z80_GET_ADDR p =? BANK_SWITCH then
        set_current_bank (Z.shiftr (Z80_GET_DATA p) 3) (main s)
      else main s
    else main s.
Proof.
  unfold tick_bus. intros H.
  repeat case_match; simplify_option_eq;
    repeat match goal with
    | H : rygar_update_palette _ _ _ = Some _ |- _ =>
        apply rygar_update_palette_Some in H; destruct H as (? & ? & ->)
    | H : array_set _ _ _ = Some _ |- _ =>
        apply array_set_Some in H; destruct H as [? ->]
    end;
    cbn [main set_main set_char_tilemap set_fg_tilemap set_bg_tilemap
         set_palette andb] in *;
    try reflexivity; try discriminate.
  - bools. now rewrite Z.mod_small by (consts; lia).
  - bools. now rewrite Z.mod_small by (consts; lia).
Qed.

(** A cycle that is not a memory write leaves the machine alone. *)
Lemma tick_bus_no_write (p : Z) (s s' : rygar_t) (p' : Z) :
  pin p Z80_MREQ && pin p Z80_WR = false ->
  tick_bus p s = Some (s', p') -> s' = s.
Proof.
  unfold tick_bus. intros Hw H.
  destruct (pin p Z80_MREQ), (pin p Z80_WR); try discriminate;
    repeat case_match; simplify_option_eq; reflexivity.
Qed.

End Further.

(** X1.  [rygar_init] sets up a machine that is well formed, whose RAM arrays
    have their sizes, and whose palette cache agrees with the (zeroed) palette
    RAM, whatever the ROM images, provided the banked image has its 0x8000
    bytes. *)
Theorem rygar_init_well_formed (dump_5 dump_cpu_5m dump_cpu_5j : list Z) :
  BANK_SIZE <= Z.of_nat (length dump_cpu_5j) ->
  forallb is_byte dump_cpu_5j = true ->
  well_formed (rygar_init dump_5 dump_cpu_5m dump_cpu_5j) = true
  /\ rams_ok (rygar_init dump_5 dump_cpu_5m dump_cpu_5j) = true
  /\ palette_coherent (rygar_init dump_5 dump_cpu_5m dump_cpu_5j) = true.
Proof.
  intros Hlen Hbytes.
  assert (Hl : (Z.of_nat (length (take (Z.to_nat BANK_SIZE) dump_cpu_5j))
                =? BANK_SIZE) = true).
  { apply Z.eqb_eq. rewrite length_take. consts. lia. }
  pose proof (forallb_take is_byte (Z.to_nat BANK_SIZE) _ Hbytes) as Hb.
  split; [|split].
  - unfold well_formed, arrays_ok, rygar_init.
    cbn [main palette banked_rom fg_scroll bg_scroll current_bank joystick
         buttons sys].
    rewrite Hl, Hb. reflexivity.
  - reflexivity.
  - vm_compute. reflexivity.
Qed.

Lemma rygar_init_well_formed_witness :
  well_formed (rygar_init (zeros 0x8000) (zeros 0x4000) sample_rom) = true
  /\ rams_ok (rygar_init (zeros 0x8000) (zeros 0x4000) sample_rom) = true
  /\ palette_coherent (rygar_init (zeros 0x8000) (zeros 0x4000) sample_rom)
     = true.
Proof.
  apply (rygar_init_well_formed (zeros 0x8000) (zeros 0x4000) sample_rom);
    eval_hyp.
Defined.

Lemma mem_wr_fixed (m : mainboard_t) (a d : Z) :
  rom (mem_wr m a d) = rom m
  /\ banked_rom (mem_wr m a d) = banked_rom m
  /\ joystick (mem_wr m a d) = joystick m
  /\ buttons (mem_wr m a d) = buttons m
  /\ sys (mem_wr m a d) = sys m
  /\ fg_scroll (mem_wr m a d) = fg_scroll m
  /\ bg_scroll (mem_wr m a d) = bg_scroll m.
Proof. unfold mem_wr. repeat case_match; repeat split; reflexivity. Qed.

Section Further2.
Context {P : Z80Pins} (HP : Z80PinsContract P).

Lemma rygar_tick_main_main (n p : Z) (s s' : rygar_t) (p' : Z) :
  well_formed s = true -> ticks_ok n = true ->
  rygar_tick_main n p s = Some (s', p') ->
  tick_bus (drive_int n p s) (ticked n s) = Some (s', p').
Proof.
  intros Hwf Hn H.
  now rewrite rygar_tick_main_phases in H by auto using well_formed_counters.
Qed.

Lemma rams_ok_step (n p : Z) (s s' : rygar_t) (p' : Z) :
  well_formed s = true -> ticks_ok n = true -> rams_ok s = true ->
  rygar_tick_main n p s = Some (s', p') -> rams_ok s' = true.
Proof.
  intros Hwf Hn Hr H. apply rygar_tick_main_main in H; try assumption.
  apply tick_bus_main in H. cbn [main ticked set_counters] in H.
  pose proof (rams_ok_mem_wr s (Z80_GET_ADDR (drive_int n p s))
                (Z80_GET_DATA (drive_int n p s)) Hr (data_is_byte HP _)) as Hm.
  unfold rams_ok in *. rewrite H.
  repeat case_match; try assumption.
Qed.

(** X2.  Every machine reached from a well-formed one by defined calls of 0
    to 66_666 ticks each is well formed again and its RAM arrays keep their
    sizes; each call returns one bus word. *)
Theorem run_calls_invariants (cs : list (Z * Z)) :
  forall (s : rygar_t) (outs : list Z) (s' : rygar_t),
  well_formed s = true -> rams_ok s = true ->
  forallb (fun c => ticks_ok c.1) cs = true ->
  run_calls cs s = Some (outs, s') ->
  well_formed s' = true /\ rams_ok s' = true /\ length outs = length cs.
Proof.
  induction cs as [|[n p] cs IH]; intros s outs s' Hwf Hr Hn Hrun.
  - cbn in Hrun. injection Hrun as <- <-. auto.
  - cbn [run_calls forallb fst snd] in Hrun, Hn.
    apply andb_true_iff in Hn. destruct Hn as [Hn Hns].
    destruct (rygar_tick_main n p s) as [[s1 p1]|] eqn:Ht; [|discriminate].
    cbn [mbind option_bind fst snd] in Hrun.
    destruct (run_calls cs s1) as [[o1 t1]|] eqn:Hr1; [|discriminate].
    cbn [mbind option_bind fst snd] in Hrun. injection Hrun as <- <-.
    pose proof (rygar_tick_main_wf HP n p s _ _ Hwf Hn Ht) as Hwf1.
    pose proof (rams_ok_step n p s _ _ Hwf Hn Hr Ht) as Hr1'.
    destruct (IH s1 o1 t1 Hwf1 Hr1' Hns Hr1) as (? & ? & Hl).
    cbn [length]. auto.
Qed.

Lemma vsync_next_closed_form (n : Z) (s : rygar_t) :
  counters_ok s = true -> ticks_ok n = true ->
  vsync_next n s = (vsync_count s - n - 1) mod VSYNC_PERIOD_4MHZ + 1.
Proof.
  unfold counters_ok, ticks_ok, vsync_next, vsync_reloads.
  rewrite VSYNC_PERIOD_value. intros Hc Hn. bools.
  destruct (Z.leb_spec (vsync_count s - n) 0).
  - replace (vsync_count s - n - 1)
      with (vsync_count s - n - 1 + 66666 + (-1) * 66666) by lia.
    rewrite Z.mod_add by lia. rewrite Z.mod_small; lia.
  - rewrite Z.mod_small; lia.
Qed.

(** X3.  The reload adds the period instead of restarting the counter, so the
    frame phase does not drift: after any sequence of calls of 0 to 66_666
    ticks each, [vsync_count] depends only on the total of their ticks. *)
Theorem vsync_count_closed_form (cs : list (Z * Z)) :
  forall (s : rygar_t) (outs : list Z) (s' : rygar_t),
  well_formed s = true ->
  forallb (fun c => ticks_ok c.1) cs = true ->
  run_calls cs s = Some (outs, s') ->
  vsync_count s'
  = (vsync_count s - total_ticks cs - 1) mod VSYNC_PERIOD_4MHZ + 1.
Proof.
  induction cs as [|[n p] cs IH]; intros s outs s' Hwf Hn Hrun.
  - cbn in Hrun. injection Hrun as <- <-. cbn [total_ticks foldr].
    pose proof (well_formed_counters s Hwf) as Hc.
    unfold counters_ok in Hc. rewrite VSYNC_PERIOD_value in *. bools.
    rewrite Z.mod_small; lia.
  - cbn [run_calls forallb fst snd] in Hrun, Hn.
    apply andb_true_iff in Hn. destruct Hn as [Hn Hns].
    destruct (rygar_tick_main n p s) as [[s1 p1]|] eqn:Ht; [|discriminate].
    cbn [mbind option_bind fst snd] in Hrun.
    destruct (run_calls cs s1) as [[o1 t1]|] eqn:Hr1; [|discriminate].
    cbn [mbind option_bind fst snd] in Hrun. injection Hrun as <- <-.
    pose proof (rygar_tick_main_wf HP n p s _ _ Hwf Hn Ht) as Hwf1.
    destruct (rygar_tick_main_counters HP n p s _ _ Hwf Hn Ht) as [Hv _].
    rewrite (IH s1 o1 t1 Hwf1 Hns Hr1), Hv.
    rewrite vsync_next_closed_form by auto using well_formed_counters.
    change (total_ticks ((n, p) :: cs)) with (n + total_ticks cs).
    replace ((vsync_count s - n - 1) mod VSYNC_PERIOD_4MHZ + 1
             - total_ticks cs - 1)
      with ((vsync_count s - n - 1) mod VSYNC_PERIOD_4MHZ - total_ticks cs)
      by lia.
    rewrite Zminus_mod_idemp_l. f_equal. f_equal. lia.
Qed.

(** X4.  Only memory writes change the machine: any other cycle (a read, an
    interrupt acknowledge, an idle tick) advances the two counters and nothing
    else. *)
Theorem only_writes_change_machine (n p : Z) (s s' : rygar_t) (p' : Z) :
  well_formed s = true -> ticks_ok n = true ->
  pin p Z80_MREQ && pin p Z80_WR = false ->
  rygar_tick_main n p s = Some (s', p') ->
  s' = ticked n s.
Proof.
  intros Hwf Hn Hw H. apply rygar_tick_main_main in H; try assumption.
  apply tick_bus_no_write in H; [exact H|].
  now rewrite (drive_int_mreq HP), (drive_int_wr HP).
Qed.

(** X5.  Writes to the program ROM (below 0xC000), to the bank window
    0xF000..0xF7FF and to any address above 0xF805 other than the bank switch
    0xF808 are ignored: the call only advances the counters. *)
Theorem unmapped_writes_ignored (n p : Z) (s : rygar_t) :
  well_formed s = true -> ticks_ok n = true ->
  pin p Z80_MREQ = true -> pin p Z80_WR = true ->
  Z80_GET_ADDR p < RAM_START
  \/ BANK_WINDOW_START <= Z80_GET_ADDR p <= BANK_WINDOW_END
  \/ (BG_SCROLL_END < Z80_GET_ADDR p /\ Z80_GET_ADDR p <> BANK_SWITCH) ->
  rygar_tick_main n p s = Some (ticked n s, drive_int n p s).
Proof.
  intros Hwf Hn Hm Hw Ha.
  pose proof (addr_16bit P HP p) as Ha16.
  enter_bus HP. rewrite Hm, Hw. cbv zeta.
  rewrite (BETWEEN_false _ RAM_START RAM_END) by (consts; lia).
  rewrite (BETWEEN_false _ FG_SCROLL_START FG_SCROLL_END) by (consts; lia).
  rewrite (BETWEEN_false _ BG_SCROLL_START BG_SCROLL_END) by (consts; lia).
  rewrite (proj2 (Z.eqb_neq _ BANK_SWITCH)) by (consts; lia).
  reflexivity.
Qed.

(** X6.  No call alters the program ROM, the banked ROM or the three input
    registers. *)
Theorem roms_and_inputs_untouched (cs : list (Z * Z)) :
  forall (s : rygar_t) (outs : list Z) (s' : rygar_t),
  well_formed s = true ->
  forallb (fun c => ticks_ok c.1) cs = true ->
  run_calls cs s = Some (outs, s') ->
  rom (main s') = rom (main s)
  /\ banked_rom (main s') = banked_rom (main s)
  /\ joystick (main s') = joystick (main s)
  /\ buttons (main s') = buttons (main s)
  /\ sys (main s') = sys (main s).
Proof.
  induction cs as [|[n p] cs IH]; intros s outs s' Hwf Hn Hrun.
  - cbn in Hrun. injection Hrun as <- <-. auto.
  - cbn [run_calls forallb fst snd] in Hrun, Hn.
    apply andb_true_iff in Hn. destruct Hn as [Hn Hns].
    destruct (rygar_tick_main n p s) as [[s1 p1]|] eqn:Ht; [|discriminate].
    cbn [mbind option_bind fst snd] in Hrun.
    destruct (run_calls cs s1) as [[o1 t1]|] eqn:Hr1; [|discriminate].
    cbn [mbind option_bind fst snd] in Hrun. injection Hrun as <- <-.
    pose proof (rygar_tick_main_wf HP n p s _ _ Hwf Hn Ht) as Hwf1.
    destruct (IH s1 o1 t1 Hwf1 Hns Hr1) as (E1 & E2 & E3 & E4 & E5).
    rewrite E1, E2, E3, E4, E5.
    apply rygar_tick_main_main in Ht; try assumption.
    apply tick_bus_main in Ht. cbn [main ticked set_counters] in Ht.
    rewrite Ht.
    destruct (mem_wr_fixed (main s) (Z80_GET_ADDR (drive_int n p s))
                (Z80_GET_DATA (drive_int n p s))) as (M1 & M2 & M3 & M4 & M5 & _).
    repeat case_match; auto.
Qed.

End Further2.

(** ** Mapped RAM through the callback *)

Lemma rams_ok_lengths (s : rygar_t) :
  rams_ok s = true ->
  Z.of_nat (length (work_ram (main s))) = WORK_RAM_SIZE
  /\ Z.of_nat (length (char_ram (main s))) = CHAR_RAM_SIZE
  /\ Z.of_nat (length (fg_ram (main s))) = FG_RAM_SIZE
  /\ Z.of_nat (length (bg_ram (main s))) = BG_RAM_SIZE
  /\ Z.of_nat (length (sprite_ram (main s))) = SPRITE_RAM_SIZE
  /\ Z.of_nat (length (palette_ram (main s))) = PALETTE_RAM_SIZE.
Proof. unfold rams_ok, ram_ok. intros H. bools. auto 10. Qed.

Lemma mem_rd_wr_same (s : rygar_t) (a b : Z) :
  rams_ok s = true -> RAM_START <= a <= RAM_END ->
  mem_rd (mem_wr (main s) a b) a = b.
Proof.
  intros Hr Ha.
  destruct (rams_ok_lengths s Hr) as (L1 & L2 & L3 & L4 & L5 & L6).
  assert (Hcase : a <= 0xCFFF \/ 0xD000 <= a <= 0xD7FF
                  \/ 0xD800 <= a <= 0xDBFF \/ 0xDC00 <= a <= 0xDFFF
                  \/ 0xE000 <= a <= 0xE7FF \/ 0xE800 <= a) by lia.
  unfold mem_wr, mem_rd.
  destruct Hcase as [H|[H|[H|[H|[H|H]]]]]; tests;
    cbn [work_ram char_ram fg_ram bg_ram sprite_ram palette_ram set_work_ram
         set_char_ram set_fg_ram set_bg_ram set_sprite_ram set_palette_ram];
    apply list_lookup_total_insert_eq; consts; lia.
Qed.

Lemma mem_rd_wr_other (m : mainboard_t) (a a2 b : Z) :
  a2 <> a -> mem_rd (mem_wr m a b) a2 = mem_rd m a2.
Proof.
  intros Hne. unfold mem_wr.
  repeat case_match; unfold mem_rd;
    cbn [rom work_ram char_ram fg_ram bg_ram sprite_ram palette_ram
         set_work_ram set_char_ram set_fg_ram set_bg_ram set_sprite_ram
         set_palette_ram];
    repeat case_match; try reflexivity;
    bools; apply list_lookup_total_insert_ne; consts; lia.
Qed.

Section Memory.
Context {P : Z80Pins} (HP : Z80PinsContract P).

Lemma ram_read (n p : Z) (s : rygar_t) :
  well_formed s = true -> ticks_ok n = true ->
  pin p Z80_MREQ = true -> pin p Z80_WR = false -> pin p Z80_RD = true ->
  Z80_GET_ADDR p <= RAM_END ->
  rygar_tick_main n p s
  = Some (ticked n s,
          Z80_SET_DATA (drive_int n p s) (mem_rd (main s) (Z80_GET_ADDR p))).
Proof.
  intros Hwf Hn Hm Hw Hr Ha. enter_bus HP. rewrite Hm, Hw, Hr. cbv zeta.
  rewrite (proj2 (Z.leb_le _ RAM_END)) by assumption. reflexivity.
Qed.

(** X7.  A byte written to a RAM address (0xC000..0xEFFF) is what a later read
    of that address returns, and the write does not change what any other
    address up to 0xEFFF reads. *)
Theorem ram_write_then_read (n1 n2 p1 p2 : Z) (s : rygar_t) :
  well_formed s = true -> rams_ok s = true ->
  ticks_ok n1 = true -> ticks_ok n2 = true ->
  pin p1 Z80_MREQ = true -> pin p1 Z80_WR = true ->
  RAM_START <= Z80_GET_ADDR p1 <= RAM_END ->
  pin p2 Z80_MREQ = true -> pin p2 Z80_WR = false -> pin p2 Z80_RD = true ->
  Z80_GET_ADDR p2 <= RAM_END ->
  exists s1 q1 q2,
    rygar_tick_main n1 p1 s = Some (s1, q1)
    /\ rygar_tick_main n2 p2 s1 = Some (ticked n2 s1, q2)
    /\ (Z80_GET_ADDR p2 = Z80_GET_ADDR p1 ->
        Z80_GET_DATA q2 = Z80_GET_DATA p1)
    /\ (Z80_GET_ADDR p2 <> Z80_GET_ADDR p1 ->
        Z80_GET_DATA q2 = mem_rd (main s) (Z80_GET_ADDR p2) mod 0x100).
Proof.
  intros Hwf Hr Hn1 Hn2 Hm1 Hw1 Ha1 Hm2 Hw2 Hr2 Ha2.
  destruct (rygar_tick_main_defined HP n1 p1 s Hwf Hn1) as (s1 & q1 & Ht1).
  { unfold reads_past_rom. now rewrite Hm1, Hw1. }
  pose proof (rygar_tick_main_wf HP n1 p1 s _ _ Hwf Hn1 Ht1) as Hwf1.
  pose proof (rygar_tick_main_main n1 p1 s _ _ Hwf Hn1 Ht1) as Hb.
  apply tick_bus_main in Hb. cbn [main ticked set_counters] in Hb.
  rewrite (drive_int_mreq HP), (drive_int_wr HP), (drive_int_addr HP),
    (drive_int_data HP), Hm1, Hw1, (BETWEEN_true _ _ _ Ha1) in Hb.
  cbn [andb] in Hb.
  exists s1, q1. eexists. split; [exact Ht1|].
  split; [apply (ram_read n2 p2 s1); assumption|].
  rewrite (get_set_data P HP), Hb. split.
  - intros ->. rewrite mem_rd_wr_same by assumption.
    apply Z.mod_small. apply HP.
  - intros Hne. now rewrite mem_rd_wr_other.
Qed.

End Memory.

(** ** The palette cache and the palette RAM *)

Lemma palette_color_range (a d c : Z) : 0 <= palette_color a d c < 2 ^ 32.
Proof.
  assert (H : Z.land (palette_color a d c) (Z.ones 32) = palette_color a d c).
  { unfold palette_color. destruct (negb _); cbv zeta; masks; Z.bitblast. }
  rewrite <- H, Z.land_ones by lia. apply Z.mod_pos_bound. lia.
Qed.

(** X8.  The colour [rygar_update_palette] stores is always a fully opaque
    32-bit value: it fits a [uint32_t] and its alpha byte is 0xFF, whatever
    the offset, the data byte and the old entry are. *)
Theorem palette_color_opaque_uint32 (a d c : Z) :
  0 <= palette_color a d c < 2 ^ 32 /\ alpha (palette_color a d c) = 0xff.
Proof. split; [apply palette_color_range | apply palette_color_alpha]. Qed.

Lemma rgba_decompose (x : Z) :
  0 <= x < 2 ^ 32 ->
  x = Z.lor (Z.lor (Z.lor (Z.shiftl (alpha x) 24) (Z.shiftl (blue x) 16))
               (Z.shiftl (green x) 8)) (red x).
Proof.
  intros Hx. rewrite <- (Z.mod_small x (2 ^ 32)) at 1 by assumption.
  rewrite <- Z.land_ones by lia.
  unfold alpha, blue, green, red. masks. Z.bitblast.
Qed.

Lemma rgba_eq (x y : Z) :
  0 <= x < 2 ^ 32 -> 0 <= y < 2 ^ 32 ->
  red x = red y -> green x = green y -> blue x = blue y ->
  alpha x = alpha y -> x = y.
Proof.
  intros Hx Hy R G B A.
  rewrite (rgba_decompose x Hx), (rgba_decompose y Hy), R, G, B, A.
  reflexivity.
Qed.

Lemma rgba_compose (r g b : Z) :
  let w :=
    Z.lor (Z.lor (Z.lor 0xff000000 (Z.shiftl (Z.land b 0xff) 16))
             (Z.shiftl (Z.land g 0xff) 8)) (Z.land r 0xff) in
  0 <= w < 2 ^ 32
  /\ red w = Z.land r 0xff /\ green w = Z.land g 0xff
  /\ blue w = Z.land b 0xff /\ alpha w = 0xff.
Proof.
  intros w.
  assert (H : Z.land w (Z.ones 32) = w) by (subst w; masks; Z.bitblast).
  split.
  { rewrite <- H, Z.land_ones by lia. apply Z.mod_pos_bound. lia. }
  subst w. unfold red, green, blue, alpha. masks.
  repeat split; Z.bitblast.
Qed.

Lemma replicate_nibble_byte (d : Z) :
  Z.land (replicate_low_nibble d) 0xff = replicate_low_nibble d
  /\ Z.land (replicate_high_nibble d) 0xff = replicate_high_nibble d.
Proof.
  unfold replicate_low_nibble, replicate_high_nibble. masks.
  split; Z.bitblast.
Qed.

Lemma palette_color_both (ae ao hi lo c : Z) :
  Z.land ae 1 = 0 -> Z.land ao 1 <> 0 ->
  let word :=
    Z.lor (Z.lor (Z.lor 0xff000000 (Z.shiftl (replicate_low_nibble hi) 16))
             (Z.shiftl (replicate_low_nibble lo) 8))
      (replicate_high_nibble lo) in
  palette_color ao lo (palette_color ae hi c) = word
  /\ palette_color ae hi (palette_color ao lo c) = word.
Proof.
  intros He Ho word.
  destruct (rgba_compose (replicate_high_nibble lo) (replicate_low_nibble lo)
              (replicate_low_nibble hi)) as (Wr & R & G & B & A).
  destruct (replicate_nibble_byte hi) as [Lh _].
  destruct (replicate_nibble_byte lo) as [Ll Hl].
  rewrite Lh, Ll, Hl in *. fold word in Wr, R, G, B, A.
  split; apply rgba_eq; try apply palette_color_range; try exact Wr;
    rewrite ?R, ?G, ?B, ?A, ?palette_color_alpha; try reflexivity.
  - now destruct (palette_color_odd ao lo (palette_color ae hi c) Ho).
  - now destruct (palette_color_odd ao lo (palette_color ae hi c) Ho) as (_ & ? & _).
  - destruct (palette_color_odd ao lo (palette_color ae hi c) Ho) as (_ & _ & ->).
    now destruct (palette_color_even ae hi c He) as (_ & _ & ?).
  - destruct (palette_color_even ae hi (palette_color ao lo c) He) as (-> & _ & _).
    now destruct (palette_color_odd ao lo c Ho).
  - destruct (palette_color_even ae hi (palette_color ao lo c) He) as (_ & -> & _).
    now destruct (palette_color_odd ao lo c Ho) as (_ & ? & _).
  - now destruct (palette_color_even ae hi (palette_color ao lo c) He) as (_ & _ & ?).
Qed.

Lemma palette_color_idem (a d c : Z) :
  palette_color a d (palette_color a d c) = palette_color a d c.
Proof.
  apply rgba_eq; try apply palette_color_range;
    rewrite ?palette_color_alpha; try reflexivity;
    destruct (Z.eq_dec (Z.land a 1) 0) as [He | Ho].
  - destruct (palette_color_even a d (palette_color a d c) He) as (-> & _ & _).
    reflexivity.
  - destruct (palette_color_odd a d (palette_color a d c) Ho) as (-> & _ & _).
    now destruct (palette_color_odd a d c Ho) as (-> & _ & _).
  - destruct (palette_color_even a d (palette_color a d c) He) as (_ & -> & _).
    reflexivity.
  - destruct (palette_color_odd a d (palette_color a d c) Ho) as (_ & -> & _).
    now destruct (palette_color_odd a d c Ho) as (_ & -> & _).
  - destruct (palette_color_even a d (palette_color a d c) He) as (_ & _ & ->).
    now destruct (palette_color_even a d c He) as (_ & _ & ->).
  - destruct (palette_color_odd a d (palette_color a d c) Ho) as (_ & _ & ->).
    reflexivity.
Qed.

Lemma land_1_mod (x : Z) : Z.land x 1 = x mod 2.
Proof. exact (Z.land_ones x 1 ltac:(lia)). Qed.

Lemma shiftr_double (i : Z) :
  Z.shiftr (2 * i) 1 = i /\ Z.shiftr (2 * i + 1) 1 = i
  /\ Z.land (2 * i) 1 = 0 /\ Z.land (2 * i + 1) 1 = 1.
Proof.
  rewrite !Z.shiftr_div_pow2, !land_1_mod by lia. change (2 ^ 1) with 2.
  repeat split; Z.div_mod_to_equations; lia.
Qed.

(** X9.  Once both bytes of a colour word have been written, in either order,
    the cache entry is [0xFF000000 | blue << 16 | green << 8 | red] of the two
    bytes whatever it held before, and the rest of the machine is as it was;
    writing a byte a second time changes nothing. *)
Theorem palette_word_written (s : rygar_t) (i hi lo : Z) :
  Z.of_nat (length (palette s)) = PALETTE_ENTRIES ->
  0 <= i < PALETTE_ENTRIES ->
  let word :=
    Z.lor (Z.lor (Z.lor 0xff000000 (Z.shiftl (replicate_low_nibble hi) 16))
             (Z.shiftl (replicate_low_nibble lo) 8))
      (replicate_high_nibble lo) in
  let s' := set_palette (<[Z.to_nat i := word]> (palette s)) s in
  (s1 ← rygar_update_palette (2 * i) hi s;
   rygar_update_palette (2 * i + 1) lo s1) = Some s'
  /\ (s1 ← rygar_update_palette (2 * i + 1) lo s;
      rygar_update_palette (2 * i) hi s1) = Some s'
  /\ (s1 ← rygar_update_palette (2 * i) hi s;
      rygar_update_palette (2 * i) hi s1)
     = rygar_update_palette (2 * i) hi s
  /\ (s1 ← rygar_update_palette (2 * i + 1) lo s;
      rygar_update_palette (2 * i + 1) lo s1)
     = rygar_update_palette (2 * i + 1) lo s.
Proof.
  intros Hlen Hi word s'.
  destruct (shiftr_double i) as (Se & So & Pe & Po).
  assert (Hup : forall off d t,
            Z.shiftr off 1 = i ->
            Z.of_nat (length (palette t)) = PALETTE_ENTRIES ->
            forall c, array_get (palette t) i = Some c ->
            rygar_update_palette off d t
            = Some (set_palette
                      (<[Z.to_nat i := palette_color off d c]> (palette t)) t)).
  { intros off d t Hs Hl c Hc. unfold rygar_update_palette. cbv zeta.
    rewrite Hs, Hc. cbn [mbind option_bind].
    rewrite array_set_in_range by lia. reflexivity. }
  destruct (array_get_in_range (palette s) i) as [c Hc]; [lia|].
  assert (Hg : forall x,
            array_get (<[Z.to_nat i := x]> (palette s)) i = Some x)
    by (intros x; apply array_get_insert_eq; lia).
  assert (Hl : forall x,
            Z.of_nat (length (<[Z.to_nat i := x]> (palette s)))
            = PALETTE_ENTRIES) by (intros x; now rewrite length_insert).
  destruct (palette_color_both (2 * i) (2 * i + 1) hi lo c) as [W1 W2];
    [assumption | lia |].
  assert (Hup2 : forall off d x,
            Z.shiftr off 1 = i ->
            rygar_update_palette off d
              (set_palette (<[Z.to_nat i := x]> (palette s)) s)
            = Some (set_palette
                      (<[Z.to_nat i := palette_color off d x]> (palette s)) s)).
  { intros off d x Hs.
    rewrite (Hup off d (set_palette (<[Z.to_nat i := x]> (palette s)) s) Hs
               (Hl x) x (Hg x)).
    cbn [palette set_palette]. now rewrite list_insert_insert_eq. }
  rewrite (Hup (2 * i) hi s Se Hlen c Hc).
  rewrite (Hup (2 * i + 1) lo s So Hlen c Hc).
  cbn [mbind option_bind]. rewrite !Hup2 by assumption.
  rewrite W1, W2, !palette_color_idem. auto.
Qed.

Lemma forallb_count_from (f : Z -> bool) (n : nat) :
  forall i0 : Z,
  forallb f (count_from n i0) = true
  <-> (forall i, i0 <= i < i0 + Z.of_nat n -> f i = true).
Proof.
  induction n as [|n IH]; intros i0.
  - cbn. split; [intros _ i Hi; lia | reflexivity].
  - cbn [count_from forallb]. rewrite andb_true_iff, IH. split.
    + intros [H0 Hr] i Hi. destruct (Z.eq_dec i i0) as [->|Hne]; [exact H0|].
      apply Hr. lia.
    + intros H. split; [apply H; lia | intros i Hi; apply H; lia].
Qed.

Lemma palette_ram_mem_wr (m : mainboard_t) (a d : Z) :
  palette_ram (mem_wr m a d)
  = if BETWEEN a PALETTE_RAM_START PALETTE_RAM_END
    then <[Z.to_nat (a - PALETTE_RAM_START) := d]> (palette_ram m)
    else palette_ram m.
Proof.
  unfold mem_wr.
  repeat case_match; try reflexivity; bools; consts; lia.
Qed.

Section Palette.
Context {P : Z80Pins} (HP : Z80PinsContract P).

(** What one decoded cycle does to the palette cache. *)
Lemma tick_bus_palette (p : Z) (s s' : rygar_t) (p' : Z) :
  tick_bus p s = Some (s', p') ->
  if pin p Z80_MREQ && pin p Z80_WR
     && BETWEEN (Z80_GET_ADDR p) PALETTE_RAM_START PALETTE_RAM_END
  then exists c,
         array_get (palette s)
           (Z.shiftr (Z80_GET_ADDR p - PALETTE_RAM_START) 1) = Some c
         /\ palette s'
            = <[Z.to_nat (Z.shiftr (Z80_GET_ADDR p - PALETTE_RAM_START) 1)
                := palette_color (Z80_GET_ADDR p - PALETTE_RAM_START)
                     (Z80_GET_DATA p) c]> (palette s)
  else palette s' = palette s.
Proof.
  unfold tick_bus. intros H.
  repeat case_match; simplify_option_eq;
    cbn [palette set_main set_char_tilemap set_fg_tilemap set_bg_tilemap
         set_palette andb] in *;
    try reflexivity; try discriminate;
    try (bools; consts; lia).
  unfold rygar_update_palette in *. cbv zeta in *. simplify_option_eq.
  match goal with
  | H : array_set _ _ _ = Some _ |- _ =>
      apply array_set_Some in H; destruct H as [? ->]
  end.
  - eexists; split; reflexivity.
  - exfalso.
    match goal with
    | H : BETWEEN _ RAM_START RAM_END = false |- _ =>
        rewrite BETWEEN_true in H by (bools; consts; lia); discriminate
    end.
Qed.

Lemma palette_coherent_step (n p : Z) (s s' : rygar_t) (p' : Z) :
  well_formed s = true -> ticks_ok n = true -> rams_ok s = true ->
  palette_coherent s = true ->
  rygar_tick_main n p s = Some (s', p') ->
  palette_coherent s' = true.
Proof.
  intros Hwf Hn Hr Hc Ht.
  pose proof (well_formed_palette s Hwf) as Hlp.
  destruct (rams_ok_lengths s Hr) as (_ & _ & _ & _ & _ & Hlr).
  apply rygar_tick_main_main in Ht; try assumption.
  pose proof (tick_bus_main _ _ _ _ Ht) as Hm.
  pose proof (tick_bus_palette _ _ _ _ Ht) as Hp.
  cbn [main palette ticked set_counters] in Hm, Hp.
  set (a := Z80_GET_ADDR (drive_int n p s)) in *.
  set (d := Z80_GET_DATA (drive_int n p s)) in *.
  unfold palette_coherent in *.
  rewrite forallb_count_from in Hc |- *.
  intros i Hi. specialize (Hc i Hi).
  assert (Hpr : palette_ram (main s')
                = if pin (drive_int n p s) Z80_MREQ
                     && pin (drive_int n p s) Z80_WR
                     && BETWEEN a PALETTE_RAM_START PALETTE_RAM_END
                  then <[Z.to_nat (a - PALETTE_RAM_START) := d]>
                         (palette_ram (main s))
                  else palette_ram (main s)).
  { rewrite Hm.
    destruct (pin (drive_int n p s) Z80_MREQ && pin (drive_int n p s) Z80_WR);
      [|reflexivity].
    cbn [andb].
    destruct (BETWEEN a PALETTE_RAM_START PALETTE_RAM_END) eqn:Hb.
    - rewrite (BETWEEN_true a RAM_START RAM_END) by (bools; consts; lia).
      now rewrite palette_ram_mem_wr, Hb.
    - repeat case_match; try reflexivity;
        now rewrite palette_ram_mem_wr, Hb. }
  destruct (pin (drive_int n p s) Z80_MREQ && pin (drive_int n p s) Z80_WR
            && BETWEEN a PALETTE_RAM_START PALETTE_RAM_END) eqn:Hw.
  2: { unfold entry_coherent in *. now rewrite Hpr, Hp. }
  destruct Hp as (c & Hgc & Hp).
  apply andb_true_iff in Hw. destruct Hw as [_ Hb]. bools.
  set (off := a - PALETTE_RAM_START) in *.
  assert (Hoff : 0 <= off < 0x800) by (subst off; consts; lia).
  assert (Hk : 0 <= Z.shiftr off 1 < 0x400)
    by (apply (palette_index_range off); consts; lia).
  assert (Hdm : off = 2 * Z.shiftr off 1 + Z.land off 1).
  { rewrite Z.shiftr_div_pow2, land_1_mod by lia. change (2 ^ 1) with 2.
    apply Z.div_mod. lia. }
  assert (Hbit : Z.land off 1 = 0 \/ Z.land off 1 = 1).
  { rewrite land_1_mod. pose proof (Z.mod_pos_bound off 2). lia. }
  unfold entry_coherent in *. rewrite Hpr, Hp.
  destruct (Z.eq_dec i (Z.shiftr off 1)) as [->|Hne].
  - rewrite array_get_insert_eq by (consts; lia).
    rewrite Hgc in Hc.
    destruct Hbit as [Hev | Hod].
    + rewrite Hev, Z.add_0_r in Hdm.
      rewrite <- Hdm in Hc |- *.
      rewrite array_get_insert_eq by (consts; lia).
      rewrite (array_get_insert_ne _ off) by lia.
      destruct (array_get (palette_ram (main s)) off) as [hi|]; [|discriminate].
      destruct (array_get (palette_ram (main s)) (off + 1)) as [lo|];
        [|discriminate].
      destruct (palette_color_even off d c Hev) as (R & G & B).
      rewrite R, G, B. bools.
      repeat (apply andb_true_iff; split); apply Z.eqb_eq; auto.
    + rewrite Hod in Hdm.
      replace (2 * Z.shiftr off 1 + 1) with off by lia.
      replace (2 * Z.shiftr off 1 + 1) with off in Hc by lia.
      replace (2 * Z.shiftr off 1) with (off - 1) in Hc |- * by lia.
      rewrite array_get_insert_eq by (consts; lia).
      rewrite (array_get_insert_ne _ off) by lia.
      destruct (array_get (palette_ram (main s)) (off - 1)) as [hi|];
        [|discriminate].
      destruct (array_get (palette_ram (main s)) off) as [lo|];
        [|discriminate].
      destruct (palette_color_odd off d c ltac:(lia)) as (R & G & B).
      rewrite R, G, B. bools.
      repeat (apply andb_true_iff; split); apply Z.eqb_eq; auto.
  - rewrite (array_get_insert_ne _ off (2 * i)) by lia.
    rewrite (array_get_insert_ne _ off (2 * i + 1)) by lia.
    rewrite (array_get_insert_ne _ (Z.shiftr off 1) i) by lia.
    exact Hc.
Qed.

(** X10.  The palette cache stays coherent with the palette RAM: after any
    sequence of calls, the red, green and blue bytes of every cache entry are
    the nibble-replicated fields of the big-endian word held by the two
    palette-RAM bytes of that entry. *)
Theorem palette_cache_coherent (cs : list (Z * Z)) :
  forall (s : rygar_t) (outs : list Z) (s' : rygar_t),
  well_formed s = true -> rams_ok s = true ->
  palette_coherent s = true ->
  forallb (fun c => ticks_ok c.1) cs = true ->
  run_calls cs s = Some (outs, s') ->
  palette_coherent s' = true.
Proof.
  induction cs as [|[n p] cs IH]; intros s outs s' Hwf Hr Hc Hn Hrun.
  - cbn in Hrun. now injection Hrun as <- <-.
  - cbn [run_calls forallb fst snd] in Hrun, Hn.
    apply andb_true_iff in Hn. destruct Hn as [Hn Hns].
    destruct (rygar_tick_main n p s) as [[s1 p1]|] eqn:Ht; [|discriminate].
    cbn [mbind option_bind fst snd] in Hrun.
    destruct (run_calls cs s1) as [[o1 t1]|] eqn:Hr1; [|discriminate].
    cbn [mbind option_bind fst snd] in Hrun. injection Hrun as <- <-.
    apply (IH s1 o1 t1); try assumption.
    + exact (rygar_tick_main_wf HP n p s _ _ Hwf Hn Ht).
    + exact (rams_ok_step HP n p s _ _ Hwf Hn Hr Ht).
    + exact (palette_coherent_step n p s _ _ Hwf Hn Hr Hc Ht).
Qed.

End Palette.

(** ** Tile callbacks *)

Lemma ram_ok_get (a : list Z) (size i : Z) :
  ram_ok a size = true -> 0 <= i < size ->
  exists b, array_get a i = Some b /\ 0 <= b < 0x100.
Proof.
  unfold ram_ok. intros H Hi. apply andb_true_iff in H. destruct H as [Hl Hb].
  apply Z.eqb_eq in Hl.
  destruct (array_get_in_range a i) as [b Hg]; [lia|].
  exists b. split; [exact Hg|].
  unfold array_get in Hg. case_match; [|discriminate].
  apply is_byte_iff. rewrite forallb_forall in Hb. apply Hb.
  apply list_elem_of_In. eapply list_elem_of_lookup_2. exact Hg.
Qed.

Lemma ram_ok_get_None (a : list Z) (size i : Z) :
  ram_ok a size = true -> i < 0 \/ size <= i -> array_get a i = None.
Proof.
  unfold ram_ok. intros H Hi. apply andb_true_iff in H. destruct H as [Hl _].
  apply Z.eqb_eq in Hl. unfold array_get.
  destruct (Z.leb_spec 0 i); [|reflexivity].
  apply lookup_ge_None_2. lia.
Qed.

Lemma tile_code_range_2 (hi lo : Z) :
  0 <= lo < 0x100 -> 0 <= Z.lor (Z.shiftl (Z.land hi 0x03) 8) lo < 0x400.
Proof.
  intros Hlo.
  assert (Hl : Z.land lo (Z.ones 8) = lo)
    by (rewrite Z.land_ones by lia; apply Z.mod_small; lia).
  assert (E : Z.land (Z.lor (Z.shiftl (Z.land hi (Z.ones 2)) 8)
                        (Z.land lo (Z.ones 8))) (Z.ones 10)
              = Z.lor (Z.shiftl (Z.land hi (Z.ones 2)) 8)
                  (Z.land lo (Z.ones 8))) by Z.bitblast.
  rewrite Hl in E. change 0x03 with (Z.ones 2).
  rewrite <- E, Z.land_ones by lia. apply Z.mod_pos_bound. lia.
Qed.

Lemma tile_code_range_3 (hi lo : Z) :
  0 <= lo < 0x100 -> 0 <= Z.lor (Z.shiftl (Z.land hi 0x07) 8) lo < 0x800.
Proof.
  intros Hlo.
  assert (Hl : Z.land lo (Z.ones 8) = lo)
    by (rewrite Z.land_ones by lia; apply Z.mod_small; lia).
  assert (E : Z.land (Z.lor (Z.shiftl (Z.land hi (Z.ones 3)) 8)
                        (Z.land lo (Z.ones 8))) (Z.ones 11)
              = Z.lor (Z.shiftl (Z.land hi (Z.ones 3)) 8)
                  (Z.land lo (Z.ones 8))) by Z.bitblast.
  rewrite Hl in E. change 0x07 with (Z.ones 3).
  rewrite <- E, Z.land_ones by lia. apply Z.mod_pos_bound. lia.
Qed.

Lemma tile_color_range (hi : Z) : 0 <= hi < 0x100 -> 0 <= Z.shiftr hi 4 < 16.
Proof.
  intros H. rewrite Z.shiftr_div_pow2 by lia. change (2 ^ 4) with 16.
  split; [apply Z.div_pos; lia | apply Z.div_lt_upper_bound; lia].
Qed.

Lemma rams_ok_each (s : rygar_t) :
  rams_ok s = true ->
  ram_ok (char_ram (main s)) CHAR_RAM_SIZE = true
  /\ ram_ok (fg_ram (main s)) FG_RAM_SIZE = true
  /\ ram_ok (bg_ram (main s)) BG_RAM_SIZE = true.
Proof. unfold rams_ok. intros H. split_hyps. auto. Qed.

(** X11.  [char_tile_info] is defined exactly for the 1024 cells of the
    character layer, where it yields a 10-bit tile code and a 4-bit colour;
    any other index reads outside [char_ram]. *)
Theorem char_tile_info_range (s : rygar_t) (index : Z) :
  rams_ok s = true ->
  if (0 <=? index) && (index <? 0x400)
  then exists t, char_tile_info s index = Some t
                 /\ 0 <= code t < 0x400 /\ 0 <= color t < 16
  else char_tile_info s index = None.
Proof.
  intros Hr. destruct (rams_ok_each s Hr) as (Hc & _ & _).
  unfold char_tile_info.
  destruct ((0 <=? index) && (index <? 0x400)) eqn:Hi.
  - bools.
    destruct (ram_ok_get _ _ index Hc) as (lo & -> & Hlo); [consts; lia|].
    destruct (ram_ok_get _ _ (index + 0x400) Hc) as (hi & -> & Hhi);
      [consts; lia|].
    cbn [mbind option_bind]. eexists. split; [reflexivity|].
    cbn [code color].
    split; [now apply tile_code_range_2 | now apply tile_color_range].
  - assert (Ho : index < 0 \/ 0x400 <= index).
    { apply andb_false_iff in Hi. destruct Hi; bools; lia. }
    destruct Ho as [Hn | Hb].
    + rewrite (ram_ok_get_None _ _ index Hc) by lia. reflexivity.
    + rewrite (ram_ok_get_None _ _ (index + 0x400) Hc) by (consts; lia).
      destruct (array_get _ index); reflexivity.
Qed.

(** X12.  [fg_tile_info] is defined exactly for the 512 cells of the
    foreground layer, where it yields an 11-bit tile code and a 4-bit colour;
    any other index reads outside [fg_ram]. *)
Theorem fg_tile_info_range (s : rygar_t) (index : Z) :
  rams_ok s = true ->
  if (0 <=? index) && (index <? 0x200)
  then exists t, fg_tile_info s index = Some t
                 /\ 0 <= code t < 0x800 /\ 0 <= color t < 16
  else fg_tile_info s index = None.
Proof.
  intros Hr. destruct (rams_ok_each s Hr) as (_ & Hc & _).
  unfold fg_tile_info.
  destruct ((0 <=? index) && (index <? 0x200)) eqn:Hi.
  - bools.
    destruct (ram_ok_get _ _ index Hc) as (lo & -> & Hlo); [consts; lia|].
    destruct (ram_ok_get _ _ (index + 0x200) Hc) as (hi & -> & Hhi);
      [consts; lia|].
    cbn [mbind option_bind]. eexists. split; [reflexivity|].
    cbn [code color].
    split; [now apply tile_code_range_3 | now apply tile_color_range].
  - assert (Ho : index < 0 \/ 0x200 <= index).
    { apply andb_false_iff in Hi. destruct Hi; bools; lia. }
    destruct Ho as [Hn | Hb].
    + rewrite (ram_ok_get_None _ _ index Hc) by lia. reflexivity.
    + rewrite (ram_ok_get_None _ _ (index + 0x200) Hc) by (consts; lia).
      destruct (array_get _ index); reflexivity.
Qed.

(** X13.  [bg_tile_info] is defined exactly for the 512 cells of the
    background layer, where it yields an 11-bit tile code and a 4-bit colour;
    any other index reads outside [bg_ram]. *)
Theorem bg_tile_info_range (s : rygar_t) (index : Z) :
  rams_ok s = true ->
  if (0 <=? index) && (index <? 0x200)
  then exists t, bg_tile_info s index = Some t
                 /\ 0 <= code t < 0x800 /\ 0 <= color t < 16
  else bg_tile_info s index = None.
Proof.
  intros Hr. destruct (rams_ok_each s Hr) as (_ & _ & Hc).
  unfold bg_tile_info.
  destruct ((0 <=? index) && (index <? 0x200)) eqn:Hi.
  - bools.
    destruct (ram_ok_get _ _ index Hc) as (lo & -> & Hlo); [consts; lia|].
    destruct (ram_ok_get _ _ (index + 0x200) Hc) as (hi & -> & Hhi);
      [consts; lia|].
    cbn [mbind option_bind]. eexists. split; [reflexivity|].
    cbn [code color].
    split; [now apply tile_code_range_3 | now apply tile_color_range].
  - assert (Ho : index < 0 \/ 0x200 <= index).
    { apply andb_false_iff in Hi. destruct Hi; bools; lia. }
    destruct Ho as [Hn | Hb].
    + rewrite (ram_ok_get_None _ _ index Hc) by lia. reflexivity.
    + rewrite (ram_ok_get_None _ _ (index + 0x200) Hc) by (consts; lia).
      destruct (array_get _ index); reflexivity.
Qed.

(** ** Tile RAM writes and the dirty cells *)

Lemma BETWEEN_false_inv (n a b : Z) : BETWEEN n a b = false -> n < a \/ b < n.
Proof.
  unfold BETWEEN. intros H. apply andb_false_iff in H. destruct H; bools; lia.
Qed.

(** Turn every range test of the hypotheses into arithmetic. *)
Ltac ranges :=
  repeat match goal with
  | H : BETWEEN _ _ _ = false |- _ => apply BETWEEN_false_inv in H
  end;
  bools; consts.

(** Case analysis on every test of one hypothesis. *)
Ltac cases_in H :=
  repeat match type of H with
  | context [if ?b then _ else _] => destruct b eqn:?
  end.

Lemma tile_rams_mem_wr (m : mainboard_t) (a d : Z) :
  char_ram (mem_wr m a d)
  = (if BETWEEN a CHAR_RAM_START CHAR_RAM_END
     then <[Z.to_nat (a - CHAR_RAM_START) := d]> (char_ram m)
     else char_ram m)
  /\ fg_ram (mem_wr m a d)
     = (if BETWEEN a FG_RAM_START FG_RAM_END
        then <[Z.to_nat (a - FG_RAM_START) := d]> (fg_ram m)
        else fg_ram m)
  /\ bg_ram (mem_wr m a d)
     = (if BETWEEN a BG_RAM_START BG_RAM_END
        then <[Z.to_nat (a - BG_RAM_START) := d]> (bg_ram m)
        else bg_ram m).
Proof.
  unfold mem_wr.
  repeat case_match; (split; [|split]); try reflexivity; ranges; lia.
Qed.

Lemma tile_bytes_unchanged {A : Type} (g : Z -> Z -> A) (ram : list Z)
    (half j d i : Z) :
  Z.of_nat (length ram) = 2 * half -> 0 <= j < 2 * half ->
  j mod half <> i ->
  (lo ← array_get (<[Z.to_nat j := d]> ram) i;
   hi ← array_get (<[Z.to_nat j := d]> ram) (i + half);
   Some (g lo hi))
  = (lo ← array_get ram i; hi ← array_get ram (i + half); Some (g lo hi)).
Proof.
  intros Hl Hj Hne. assert (Hh : 0 < half) by lia.
  destruct (Z.ltb_spec i 0) as [Hneg | Hpos].
  - unfold array_get. rewrite (proj2 (Z.leb_gt 0 i)) by lia. reflexivity.
  - destruct (Z.ltb_spec i half) as [Hin | Hout].
    + assert (Hji : j <> i).
      { intros ->. apply Hne. apply Z.mod_small. lia. }
      assert (Hjh : j <> i + half).
      { intros ->. apply Hne.
        replace (i + half) with (i + 1 * half) by lia.
        rewrite Z.mod_add by lia. apply Z.mod_small. lia. }
      rewrite (array_get_insert_ne _ j i) by lia.
      rewrite (array_get_insert_ne _ j (i + half)) by lia.
      reflexivity.
    + assert (Hn : forall r : list Z,
                 Z.of_nat (length r) = 2 * half ->
                 array_get r (i + half) = None).
      { intros r Hr. unfold array_get.
        rewrite (proj2 (Z.leb_le 0 (i + half))) by lia.
        apply lookup_ge_None_2. lia. }
      rewrite (Hn ram Hl), (Hn (<[Z.to_nat j := d]> ram))
        by (rewrite length_insert; exact Hl).
      destruct (array_get _ i), (array_get _ i); reflexivity.
Qed.

Section Tiles.
Context {P : Z80Pins} (HP : Z80PinsContract P).

(** What one decoded cycle does to the dirty cells of the three tilemaps. *)
Lemma tick_bus_dirty (p : Z) (s s' : rygar_t) (p' : Z) :
  tick_bus p s = Some (s', p') ->
  dirty (char_tilemap s')
  = (if pin p Z80_MREQ && pin p Z80_WR
        && BETWEEN (Z80_GET_ADDR p) CHAR_RAM_START CHAR_RAM_END
     then {[ Z.land (Z80_GET_ADDR p - CHAR_RAM_START) 0x3ff
             mod (cols (char_tilemap s) * rows (char_tilemap s)) ]}
          ∪ dirty (char_tilemap s)
     else dirty (char_tilemap s))
  /\ dirty (fg_tilemap s')
     = (if pin p Z80_MREQ && pin p Z80_WR
           && BETWEEN (Z80_GET_ADDR p) FG_RAM_START FG_RAM_END
        then {[ Z.land (Z80_GET_ADDR p - FG_RAM_START) 0x1ff
                mod (cols (fg_tilemap s) * rows (fg_tilemap s)) ]}
             ∪ dirty (fg_tilemap s)
        else dirty (fg_tilemap s))
  /\ dirty (bg_tilemap s')
     = (if pin p Z80_MREQ && pin p Z80_WR
           && BETWEEN (Z80_GET_ADDR p) BG_RAM_START BG_RAM_END
        then {[ Z.land (Z80_GET_ADDR p - BG_RAM_START) 0x1ff
                mod (cols (bg_tilemap s) * rows (bg_tilemap s)) ]}
             ∪ dirty (bg_tilemap s)
        else dirty (bg_tilemap s)).
Proof.
  intros H.
  destruct (pin p Z80_MREQ && pin p Z80_WR) eqn:Hw.
  2: { apply tick_bus_no_write in H; [subst s'; auto | exact Hw]. }
  apply andb_true_iff in Hw. destruct Hw as [Hm Hw].
  unfold tick_bus in H. rewrite Hm, Hw in H. cbv zeta in H. cbn [andb].
  cases_in H; simplify_option_eq;
    repeat match goal with
    | H : rygar_update_palette _ _ _ = Some _ |- _ =>
        apply rygar_update_palette_Some in H; destruct H as (? & ? & ->)
    | H : array_set _ _ _ = Some _ |- _ =>
        apply array_set_Some in H; destruct H as [? ->]
    end;
    ranges; tests;
    cbn [main set_main char_tilemap fg_tilemap bg_tilemap set_char_tilemap
         set_fg_tilemap set_bg_tilemap set_palette tilemap_mark_tile_dirty
         tilemap_set_scroll_x dirty cols rows];
    auto.
Qed.

Lemma tick_bus_tile_rams (p : Z) (s s' : rygar_t) (p' : Z) :
  tick_bus p s = Some (s', p') ->
  char_ram (main s')
  = (if pin p Z80_MREQ && pin p Z80_WR
        && BETWEEN (Z80_GET_ADDR p) CHAR_RAM_START CHAR_RAM_END
     then <[Z.to_nat (Z80_GET_ADDR p - CHAR_RAM_START) := Z80_GET_DATA p]>
            (char_ram (main s))
     else char_ram (main s))
  /\ fg_ram (main s')
     = (if pin p Z80_MREQ && pin p Z80_WR
           && BETWEEN (Z80_GET_ADDR p) FG_RAM_START FG_RAM_END
        then <[Z.to_nat (Z80_GET_ADDR p - FG_RAM_START) := Z80_GET_DATA p]>
               (fg_ram (main s))
        else fg_ram (main s))
  /\ bg_ram (main s')
     = (if pin p Z80_MREQ && pin p Z80_WR
           && BETWEEN (Z80_GET_ADDR p) BG_RAM_START BG_RAM_END
        then <[Z.to_nat (Z80_GET_ADDR p - BG_RAM_START) := Z80_GET_DATA p]>
               (bg_ram (main s))
        else bg_ram (main s)).
Proof.
  intros H. apply tick_bus_main in H. rewrite H.
  destruct (pin p Z80_MREQ && pin p Z80_WR); [|auto].
  cbn [andb].
  destruct (tile_rams_mem_wr (main s) (Z80_GET_ADDR p) (Z80_GET_DATA p))
    as (Ec & Ef & Eb).
  destruct (BETWEEN (Z80_GET_ADDR p) RAM_START RAM_END) eqn:Hram.
  - auto.
  - repeat case_match;
      cbn [char_ram fg_ram bg_ram set_fg_scroll set_bg_scroll
           set_current_bank];
      (split; [|split]); try reflexivity; exfalso; ranges; lia.
Qed.

End Tiles.

Section Dirty.
Context {P : Z80Pins} (HP : Z80PinsContract P).

Lemma changed_cell_marked (g : Z -> Z -> tile_t) (ram : list Z)
    (half j d i : Z) (t : tilemap_t) (D : gset Z) :
  Z.of_nat (length ram) = 2 * half -> 0 <= j < 2 * half ->
  Z.land j (half - 1) = j mod half ->
  cols t * rows t = half ->
  D = {[ Z.land j (half - 1) mod (cols t * rows t) ]} ∪ dirty t ->
  (lo ← array_get (<[Z.to_nat j := d]> ram) i;
   hi ← array_get (<[Z.to_nat j := d]> ram) (i + half);
   Some (g lo hi))
  <> (lo ← array_get ram i; hi ← array_get ram (i + half); Some (g lo hi)) ->
  i ∈ D.
Proof.
  intros Hl Hj Hland Hgrid HD Hne. subst D.
  destruct (Z.eq_dec (j mod half) i) as [E | N].
  - rewrite Hland, Hgrid, Z.mod_mod, E by lia.
    apply elem_of_union_l, elem_of_singleton. reflexivity.
  - exfalso. apply Hne. now apply tile_bytes_unchanged.
Qed.

(** X14.  A tile whose code or colour a call changes is marked dirty in its
    tilemap: if [char_tile_info], [fg_tile_info] or [bg_tile_info] differs for
    cell [i] after the call, then [i] is among the dirty cells of that layer. *)
Theorem changed_tile_is_dirty (n p : Z) (s s' : rygar_t) (p' : Z) (i : Z) :
  well_formed s = true -> ticks_ok n = true -> rams_ok s = true ->
  rygar_tick_main n p s = Some (s', p') ->
  (char_tile_info s' i <> char_tile_info s i -> i ∈ dirty (char_tilemap s'))
  /\ (fg_tile_info s' i <> fg_tile_info s i -> i ∈ dirty (fg_tilemap s'))
  /\ (bg_tile_info s' i <> bg_tile_info s i -> i ∈ dirty (bg_tilemap s')).
Proof.
  intros Hwf Hn Hr Ht.
  destruct (well_formed_tilemaps s Hwf) as (Gc & Gf & Gb).
  destruct (rams_ok_lengths s Hr) as (_ & Lc & Lf & Lb & _ & _).
  apply rygar_tick_main_main in Ht; try assumption.
  destruct (tick_bus_dirty _ _ _ _ Ht) as (Dc & Df & Db).
  destruct (tick_bus_tile_rams _ _ _ _ Ht) as (Rc & Rf & Rb).
  cbn [main ticked set_counters char_tilemap fg_tilemap bg_tilemap]
    in Dc, Df, Db, Rc, Rf, Rb.
  set (a := Z80_GET_ADDR (drive_int n p s)) in *.
  set (d := Z80_GET_DATA (drive_int n p s)) in *.
  unfold char_tile_info, fg_tile_info, bg_tile_info.
  rewrite Rc, Rf, Rb.
  destruct (pin (drive_int n p s) Z80_MREQ && pin (drive_int n p s) Z80_WR);
    cbn [andb] in *; [|repeat split; intros Hne; now destruct Hne].
  split; [|split].
  - destruct (BETWEEN a CHAR_RAM_START CHAR_RAM_END) eqn:Hb;
      [|intros Hne; now destruct Hne].
    intros Hne. bools.
    refine (changed_cell_marked _ _ 0x400 (a - CHAR_RAM_START) d i
              (char_tilemap s) _ _ _ _ Gc Dc Hne).
    + rewrite Lc. reflexivity.
    + consts. lia.
    + change (0x400 - 1) with (Z.ones 10). now rewrite Z.land_ones by lia.
  - destruct (BETWEEN a FG_RAM_START FG_RAM_END) eqn:Hb;
      [|intros Hne; now destruct Hne].
    intros Hne. bools.
    refine (changed_cell_marked _ _ 0x200 (a - FG_RAM_START) d i
              (fg_tilemap s) _ _ _ _ Gf Df Hne).
    + rewrite Lf. reflexivity.
    + consts. lia.
    + change (0x200 - 1) with (Z.ones 9). now rewrite Z.land_ones by lia.
  - destruct (BETWEEN a BG_RAM_START BG_RAM_END) eqn:Hb;
      [|intros Hne; now destruct Hne].
    intros Hne. bools.
    refine (changed_cell_marked _ _ 0x200 (a - BG_RAM_START) d i
              (bg_tilemap s) _ _ _ _ Gb Db Hne).
    + rewrite Lb. reflexivity.
    + consts. lia.
    + change (0x200 - 1) with (Z.ones 9). now rewrite Z.land_ones by lia.
Qed.

End Dirty.

(** ** Keyboard input *)

Lemma testbit_1 (n : Z) : Z.testbit 1 n = (n =? 0).
Proof.
  destruct (Z.eqb_spec n 0) as [-> | Hn]; [reflexivity|].
  destruct (Z.lt_ge_cases n 0) as [Hneg | Hpos].
  - now apply Z.testbit_neg_r.
  - apply Z.bits_above_log2; [lia|]. change (Z.log2 1) with 0. lia.
Qed.

Lemma testbit_bit_set (reg b b' : Z) :
  0 <= b -> 0 <= b' < 8 ->
  Z.testbit (bit_set reg b) b' = (b' =? b) || Z.testbit reg b'.
Proof.
  intros Hb Hb'. unfold bit_set. change 0x100 with (2 ^ 8).
  rewrite Z.mod_pow2_bits_low, Z.lor_spec, Z.shiftl_spec, testbit_1 by lia.
  rewrite orb_comm. f_equal.
  destruct (Z.eqb_spec (b' - b) 0), (Z.eqb_spec b' b); try reflexivity; lia.
Qed.

Lemma testbit_bit_clear (reg b b' : Z) :
  0 <= b -> 0 <= b' < 8 ->
  Z.testbit (bit_clear reg b) b' = negb (b' =? b) && Z.testbit reg b'.
Proof.
  intros Hb Hb'. unfold bit_clear. change 0x100 with (2 ^ 8).
  rewrite Z.mod_pow2_bits_low, Z.land_spec, Z.lnot_spec, Z.shiftl_spec,
    testbit_1 by lia.
  rewrite andb_comm. f_equal.
  destruct (Z.eqb_spec (b' - b) 0), (Z.eqb_spec b' b); try reflexivity; lia.
Qed.

Lemma bit_set_byte (reg b : Z) : is_byte (bit_set reg b) = true.
Proof.
  apply is_byte_iff. unfold bit_set. apply Z.mod_pos_bound. lia.
Qed.

Lemma bit_clear_byte (reg b : Z) : is_byte (bit_clear reg b) = true.
Proof.
  apply is_byte_iff. unfold bit_clear. apply Z.mod_pos_bound. lia.
Qed.

Lemma key_bit_range (k : sapp_keycode) : 0 <= key_bit k < 8.
Proof. destruct k; cbn; lia. Qed.

Lemma same_reg_eq (r r' : input_reg) : same_reg r r' = true <-> r = r'.
Proof. destruct r, r'; cbn; split; congruence. Qed.

Lemma same_reg_refl (r : input_reg) : same_reg r r = true.
Proof. now apply same_reg_eq. Qed.

(** What a key event does to the register of a key. *)
Lemma app_input_key_down (k : sapp_keycode) (r : input_reg) (s : rygar_t) :
  input_of r (app_input (key_down k) s)
  = if same_reg r (key_reg k) then bit_set (input_of r s) (key_bit k)
    else input_of r s.
Proof. destruct k, r; reflexivity. Qed.

Lemma app_input_key_up (k : sapp_keycode) (r : input_reg) (s : rygar_t) :
  input_of r (app_input (key_up k) s)
  = if same_reg r (key_reg k) then bit_clear (input_of r s) (key_bit k)
    else input_of r s.
Proof. destruct k, r; reflexivity. Qed.

(** X15.  A key-down event presses its key, a key-up event releases it, and
    neither changes the state of a key on another register or another bit,
    whatever the registers held before. *)
Theorem key_events (k k' : sapp_keycode) (s : rygar_t) :
  pressed k (app_input (key_down k) s) = true
  /\ pressed k (app_input (key_up k) s) = false
  /\ ((key_reg k', key_bit k') <> (key_reg k, key_bit k) ->
      pressed k' (app_input (key_down k) s) = pressed k' s
      /\ pressed k' (app_input (key_up k) s) = pressed k' s).
Proof.
  pose proof (key_bit_range k) as Hk. pose proof (key_bit_range k') as Hk'.
  unfold pressed. rewrite !app_input_key_down, !app_input_key_up.
  rewrite !same_reg_refl.
  rewrite testbit_bit_set, testbit_bit_clear, Z.eqb_refl by lia.
  split; [reflexivity|]. split; [reflexivity|].
  intros Hne. destruct (same_reg (key_reg k') (key_reg k)) eqn:E.
  - apply same_reg_eq in E.
    assert (Hb : key_bit k' <> key_bit k) by congruence.
    rewrite testbit_bit_set, testbit_bit_clear by lia.
    rewrite (proj2 (Z.eqb_neq _ _) Hb). split; reflexivity.
  - split; reflexivity.
Qed.

Lemma well_formed_set_input (s : rygar_t) (j b y : Z) :
  well_formed s = true ->
  is_byte j = true -> is_byte b = true -> is_byte y = true ->
  well_formed
    (set_main (set_joystick j (set_buttons b (set_sys y (main s)))) s) = true.
Proof.
  unfold well_formed, arrays_ok, tilemaps_ok, counters_ok.
  cbn [main set_main set_joystick set_buttons set_sys palette banked_rom
       fg_scroll bg_scroll current_bank joystick buttons sys char_tilemap
       fg_tilemap bg_tilemap vsync_count vblank_count].
  intros H Hj Hb Hy. split_hyps. rewrite_hyps. reflexivity.
Qed.

Lemma app_input_well_formed (e : sapp_event) (s : rygar_t) :
  well_formed s = true -> well_formed (app_input e s) = true.
Proof.
  intros Hwf.
  assert (Hin : is_byte (joystick (main s)) = true
                /\ is_byte (buttons (main s)) = true
                /\ is_byte (sys (main s)) = true).
  { unfold well_formed, arrays_ok in Hwf. split_hyps. auto. }
  destruct Hin as (Hj & Hb & Hy).
  destruct e as [[] []]; try exact Hwf; unfold app_input;
    cbn [type key_code];
    match goal with
    | |- well_formed (set_main (set_joystick ?j _) _) = true =>
        apply (well_formed_set_input s j (buttons (main s)) (sys (main s)))
          in Hwf
    | |- well_formed (set_main (set_buttons ?b _) _) = true =>
        apply (well_formed_set_input s (joystick (main s)) b (sys (main s)))
          in Hwf
    | |- well_formed (set_main (set_sys ?y _) _) = true =>
        apply (well_formed_set_input s (joystick (main s)) (buttons (main s))
                 y) in Hwf
    end;
    auto using bit_set_byte, bit_clear_byte.
Qed.

Section Keys.
Context {P : Z80Pins} (HP : Z80PinsContract P).

Lemma input_read (r : input_reg) (n p : Z) (s : rygar_t) :
  well_formed s = true -> ticks_ok n = true ->
  pin p Z80_MREQ = true -> pin p Z80_WR = false -> pin p Z80_RD = true ->
  Z80_GET_ADDR p = input_addr r ->
  rygar_tick_main n p s
  = Some (ticked n s, Z80_SET_DATA (drive_int n p s) (input_of r s)).
Proof.
  intros Hwf Hn Hm Hw Hr Ha. enter_bus HP. rewrite Hm, Hw, Hr, Ha.
  cbv zeta. destruct r; cbn [input_addr input_of]; tests; reflexivity.
Qed.

(** X16.  The CPU sees the keyboard: after a key-down event a read cycle at
    the address of the key's register returns a byte with the key's bit set,
    after a key-up event one with that bit clear; the read itself changes
    nothing but the counters. *)
Theorem key_state_is_read (k : sapp_keycode) (n p : Z) (s : rygar_t) :
  well_formed s = true -> ticks_ok n = true ->
  pin p Z80_MREQ = true -> pin p Z80_WR = false -> pin p Z80_RD = true ->
  Z80_GET_ADDR p = input_addr (key_reg k) ->
  exists q_down q_up,
    rygar_tick_main n p (app_input (key_down k) s)
    = Some (ticked n (app_input (key_down k) s), q_down)
    /\ Z.testbit (Z80_GET_DATA q_down) (key_bit k) = true
    /\ rygar_tick_main n p (app_input (key_up k) s)
       = Some (ticked n (app_input (key_up k) s), q_up)
    /\ Z.testbit (Z80_GET_DATA q_up) (key_bit k) = false.
Proof.
  intros Hwf Hn Hm Hw Hr Ha.
  pose proof (key_bit_range k) as Hk.
  pose proof (app_input_well_formed (key_down k) s Hwf) as Hd.
  pose proof (app_input_well_formed (key_up k) s Hwf) as Hu.
  do 2 eexists.
  split; [apply (input_read (key_reg k)); assumption|].
  split.
  { rewrite (get_set_data P HP). change 0x100 with (2 ^ 8).
    rewrite Z.mod_pow2_bits_low by lia.
    rewrite app_input_key_down, same_reg_refl, testbit_bit_set by lia.
    now rewrite Z.eqb_refl. }
  split; [apply (input_read (key_reg k)); assumption|].
  rewrite (get_set_data P HP). change 0x100 with (2 ^ 8).
  rewrite Z.mod_pow2_bits_low by lia.
  rewrite app_input_key_up, same_reg_refl, testbit_bit_clear by lia.
  now rewrite Z.eqb_refl.
Qed.

End Keys.

(** ** The frame copy *)

Lemma copy_pixels_Some (pal : list Z) :
  forall (n : nat) (data out : list Z),
  copy_pixels pal data n = Some out ->
  length out = n
  /\ forall i : nat, (i < n)%nat ->
     exists px c, data !! i = Some px /\ array_get pal px = Some c
                  /\ out !! i = Some c.
Proof.
  induction n as [|n IH]; intros data out H.
  - cbn in H. simplify_eq. split; [reflexivity | intros i Hi; lia].
  - cbn [copy_pixels] in H. destruct data as [|px rest]; [discriminate|].
    destruct (array_get pal px) as [c|] eqn:Hc; [|discriminate].
    cbn [mbind option_bind] in H.
    destruct (copy_pixels pal rest n) as [o|] eqn:Ho; [|discriminate].
    cbn [mbind option_bind] in H. simplify_eq.
    destruct (IH _ _ Ho) as [Hl Hp]. split; [cbn; lia|].
    intros [|i] Hi; [exists px, c; auto | cbn; apply Hp; lia].
Qed.

Lemma copy_pixels_defined (pal : list Z) :
  Z.of_nat (length pal) = PALETTE_ENTRIES ->
  forall (n : nat) (data : list Z),
  (n <= length data)%nat -> forallb is_pen (take n data) = true ->
  exists out, copy_pixels pal data n = Some out.
Proof.
  intros Hpal. induction n as [|n IH]; intros data Hn Hpen.
  - cbn. eauto.
  - destruct data as [|px rest]; [cbn in Hn; lia|].
    cbn [take forallb] in Hpen. apply andb_true_iff in Hpen.
    destruct Hpen as [Hpx Hrest]. unfold is_pen in Hpx. bools.
    destruct (array_get_in_range pal px) as [c Hc]; [lia|].
    destruct (IH rest) as [o Ho]; [cbn in Hn; lia | assumption |].
    cbn [copy_pixels]. rewrite Hc. cbn [mbind option_bind]. rewrite Ho.
    cbn [mbind option_bind]. eauto.
Qed.

(** X17.  The frame [rygar_draw] hands to the display has 256 x 224 pixels,
    and pixel [i] is the palette-cache colour of the bitmap pixel 16 lines
    further down: lines 0-15 of the bitmap and whatever follows line 239 never
    reach the screen. *)
Theorem rygar_draw_copy_pixels (s : rygar_t) (data : list Z) (w : Z)
    (out : list Z) :
  rygar_draw_copy s data w = Some out ->
  Z.of_nat (length out) = SCREEN_WIDTH * SCREEN_HEIGHT
  /\ forall i, 0 <= i < SCREEN_WIDTH * SCREEN_HEIGHT ->
     exists px c, array_get data (16 * w + i) = Some px
                  /\ array_get (palette s) px = Some c
                  /\ array_get out i = Some c.
Proof.
  unfold rygar_draw_copy. intros H.
  destruct ((0 <=? w) && (16 * w <=? Z.of_nat (length data))) eqn:Hw;
    [|discriminate].
  bools. apply copy_pixels_Some in H. destruct H as [Hl Hp].
  unfold SCREEN_WIDTH, SCREEN_HEIGHT in *.
  split; [rewrite Hl; apply Z2Nat.id; lia|].
  intros i Hi.
  destruct (Hp (Z.to_nat i)) as (px & c & Hd & Hc & Ho); [lia|].
  exists px, c. rewrite lookup_drop in Hd. unfold array_get.
  rewrite (proj2 (Z.leb_le 0 (16 * w + i))), (proj2 (Z.leb_le 0 i)) by lia.
  rewrite Z2Nat.inj_add by lia. auto.
Qed.

(** X18.  The frame copy is defined, reading inside the bitmap and inside the
    palette cache, when the bitmap holds 224 lines after the 16 skipped ones
    and every pixel of these lines is below 1024. *)
Theorem rygar_draw_copy_defined (s : rygar_t) (data : list Z) (w : Z) :
  Z.of_nat (length (palette s)) = PALETTE_ENTRIES ->
  0 <= w ->
  16 * w + SCREEN_WIDTH * SCREEN_HEIGHT <= Z.of_nat (length data) ->
  forallb is_pen
    (take (Z.to_nat (SCREEN_WIDTH * SCREEN_HEIGHT))
       (drop (Z.to_nat (16 * w)) data)) = true ->
  exists out, rygar_draw_copy s data w = Some out.
Proof.
  intros Hpal Hw Hlen Hpen. unfold rygar_draw_copy.
  unfold SCREEN_WIDTH, SCREEN_HEIGHT in *.
  rewrite (proj2 (Z.leb_le 0 w)), (proj2 (Z.leb_le (16 * w) _)) by lia.
  cbn [andb]. apply copy_pixels_defined; try assumption.
  rewrite length_drop. lia.
Qed.

(** ** Bank switching and memory safety *)

Section Banks.
Context {P : Z80Pins} (HP : Z80PinsContract P).

Lemma bank_write (n p : Z) (s : rygar_t) :
  well_formed s = true -> ticks_ok n = true ->
  pin p Z80_MREQ = true -> pin p Z80_WR = true ->
  Z80_GET_ADDR p = BANK_SWITCH ->
  rygar_tick_main n p s
  = Some (set_main (set_current_bank (Z.shiftr (Z80_GET_DATA p) 3) (main s))
            (ticked n s), drive_int n p s).
Proof.
  intros Hwf Hn Hm Hw Ha. enter_bus HP. rewrite Hm, Hw, Ha. cbv zeta.
  tests. reflexivity.
Qed.

Lemma bank_window_read (n p : Z) (s : rygar_t) (b : Z) :
  well_formed s = true -> ticks_ok n = true ->
  pin p Z80_MREQ = true -> pin p Z80_WR = false -> pin p Z80_RD = true ->
  BANK_WINDOW_START <= Z80_GET_ADDR p <= BANK_WINDOW_END ->
  0 <= current_bank (main s) < 16 ->
  array_get (banked_rom (main s))
    (current_bank (main s) * BANK_WINDOW_SIZE
     + (Z80_GET_ADDR p - BANK_WINDOW_START)) = Some b ->
  rygar_tick_main n p s
  = Some (ticked n s, Z80_SET_DATA (drive_int n p s) b).
Proof.
  intros Hwf Hn Hm Hw Hr Ha Hb Hg. enter_bus HP. rewrite Hm, Hw, Hr.
  cbv zeta. tests. cbn [main set_counters].
  replace ((Z80_GET_ADDR p - BANK_WINDOW_START
            + current_bank (main s) * BANK_WINDOW_SIZE) mod 0x10000)
    with (current_bank (main s) * BANK_WINDOW_SIZE
          + (Z80_GET_ADDR p - BANK_WINDOW_START))
    by (consts; rewrite Z.mod_small; lia).
  rewrite Hg. reflexivity.
Qed.

Lemma shiftr3_low (d : Z) :
  0 <= d < 0x80 -> Z.shiftr d 3 = Z.shiftr (Z.land d 0x78) 3.
Proof.
  intros Hd.
  assert (E : Z.land d (Z.ones 7) = d)
    by (rewrite Z.land_ones by lia; apply Z.mod_small; lia).
  rewrite <- E at 1. change 0x78 with (Z.shiftl (Z.ones 4) 3). Z.bitblast.
Qed.

(** X19.  Selecting a bank with data bits 3-6 (bit 7 clear) and then reading
    the window 0xF000..0xF7FF returns the byte of that bank of the banked ROM:
    bank [(d & 0x78) >> 3], one of 16, at the offset of the address within the
    window. *)
Theorem bank_select_then_read (n1 n2 p1 p2 : Z) (s : rygar_t) :
  well_formed s = true -> ticks_ok n1 = true -> ticks_ok n2 = true ->
  pin p1 Z80_MREQ = true -> pin p1 Z80_WR = true ->
  Z80_GET_ADDR p1 = BANK_SWITCH -> Z80_GET_DATA p1 < 0x80 ->
  pin p2 Z80_MREQ = true -> pin p2 Z80_WR = false -> pin p2 Z80_RD = true ->
  BANK_WINDOW_START <= Z80_GET_ADDR p2 <= BANK_WINDOW_END ->
  let bank := Z.shiftr (Z.land (Z80_GET_DATA p1) 0x78) 3 in
  exists s1 q1 q2 b,
    rygar_tick_main n1 p1 s = Some (s1, q1)
    /\ current_bank (main s1) = bank /\ 0 <= bank < 16
    /\ rygar_tick_main n2 p2 s1 = Some (ticked n2 s1, q2)
    /\ array_get (banked_rom (main s))
         (bank * BANK_WINDOW_SIZE + (Z80_GET_ADDR p2 - BANK_WINDOW_START))
       = Some b
    /\ Z80_GET_DATA q2 = b.
Proof.
  intros Hwf Hn1 Hn2 Hm1 Hw1 Ha1 Hd Hm2 Hw2 Hr2 Ha2 bank.
  pose proof (data_8bit P HP p1) as Hd8.
  pose proof (land_0x78_shift (Z80_GET_DATA p1)) as Hbank. fold bank in Hbank.
  assert (Eb : Z.shiftr (Z80_GET_DATA p1) 3 = bank)
    by (apply shiftr3_low; lia).
  pose proof (bank_write n1 p1 s Hwf Hn1 Hm1 Hw1 Ha1) as Ht1.
  rewrite Eb in Ht1.
  pose proof (rygar_tick_main_wf HP n1 p1 s _ _ Hwf Hn1 Ht1) as Hwf1.
  destruct (well_formed_bank_rom s Hwf) as (Hlen & Hbytes & _).
  destruct (array_get_in_range (banked_rom (main s))
              (bank * BANK_WINDOW_SIZE
               + (Z80_GET_ADDR p2 - BANK_WINDOW_START))) as [b Hg];
    [consts; lia|].
  assert (Hbyte : 0 <= b < 0x100).
  { apply is_byte_iff. rewrite forallb_forall in Hbytes. apply Hbytes.
    unfold array_get in Hg. case_match; [|discriminate].
    apply list_elem_of_In. eapply list_elem_of_lookup_2. exact Hg. }
  set (s1 := set_main (set_current_bank bank (main s)) (ticked n1 s)) in *.
  exists s1, (drive_int n1 p1 s), (Z80_SET_DATA (drive_int n2 p2 s1) b), b.
  split; [exact Ht1|].
  split; [reflexivity|]. split; [exact Hbank|].
  split; [apply bank_window_read; assumption|].
  split; [exact Hg|].
  rewrite (get_set_data P HP). apply Z.mod_small. exact Hbyte.
Qed.

Lemma rygar_tick_main_bank (n p : Z) (s s' : rygar_t) (p' : Z) :
  well_formed s = true -> ticks_ok n = true ->
  sets_bank_bit7 p = false -> current_bank (main s) < 16 ->
  rygar_tick_main n p s = Some (s', p') -> current_bank (main s') < 16.
Proof.
  intros Hwf Hn Hp Hb Ht.
  rewrite rygar_tick_main_phases in Ht by auto using well_formed_counters.
  apply (tick_bus_bank HP) in Ht; auto.
  unfold sets_bank_bit7 in *.
  now rewrite (drive_int_mreq HP), (drive_int_wr HP), (drive_int_addr HP),
    (drive_int_data HP).
Qed.

(** X20.  Memory safety of the callback: from a well-formed machine whose bank
    is below 16, any sequence of calls that never writes a byte with bit 7 set
    to the bank-switch register is defined: no array is indexed out of bounds
    and no counter overflows, and the bank stays below 16. *)
Theorem calls_never_undefined (cs : list (Z * Z)) :
  forall s : rygar_t,
  well_formed s = true -> current_bank (main s) < 16 ->
  forallb (fun c => ticks_ok c.1 && negb (sets_bank_bit7 c.2)) cs = true ->
  exists outs s',
    run_calls cs s = Some (outs, s')
    /\ well_formed s' = true /\ current_bank (main s') < 16.
Proof.
  induction cs as [|[n p] cs IH]; intros s Hwf Hb Hok.
  - cbn. eauto.
  - cbn [forallb fst snd] in Hok. apply andb_true_iff in Hok.
    destruct Hok as [Hc Hok]. apply andb_true_iff in Hc.
    destruct Hc as [Hn Hp]. apply negb_true_iff in Hp.
    destruct (rygar_tick_main_defined HP n p s Hwf Hn
                (bank_in_range_defined p s Hwf Hb)) as (s1 & p1 & Ht).
    pose proof (rygar_tick_main_wf HP n p s _ _ Hwf Hn Ht) as Hwf1.
    pose proof (rygar_tick_main_bank n p s _ _ Hwf Hn Hp Hb Ht) as Hb1.
    destruct (IH s1 Hwf1 Hb1 Hok) as (outs & s' & Hr & Hw' & Hb').
    cbn [run_calls fst snd]. rewrite Ht. cbn [mbind option_bind fst snd].
    rewrite Hr. cbn [mbind option_bind fst snd]. eauto.
Qed.

End Banks.

(** * The further properties evaluated on concrete machines *)

Lemma option_defined {A : Type} (o : option A) :
  (x ← o; Some tt) = Some tt -> exists x, o = Some x.
Proof. destruct o; [eauto | discriminate]. Qed.

Lemma run_calls_invariants_witness :
  exists outs s',
    run_calls [(1, write_cycle 0xD000 0x41); (3, read_cycle 0xD000)] power_on
    = Some (outs, s')
    /\ well_formed s' = true /\ rams_ok s' = true /\ length outs = 2%nat.
Proof.
  destruct (option_defined
              (run_calls [(1, write_cycle 0xD000 0x41); (3, read_cycle 0xD000)]
                 power_on)) as [[outs s'] E]; [vm_compute; reflexivity|].
  exists outs, s'. split; [exact E|].
  apply (run_calls_invariants chips_pins_contract
           [(1, write_cycle 0xD000 0x41); (3, read_cycle 0xD000)]
           power_on outs s');
    [eval_hyp.. | exact E].
Defined.

Lemma vsync_count_closed_form_witness :
  exists outs s',
    run_calls [(66666, 0); (5, 0)] power_on = Some (outs, s')
    /\ vsync_count s'
       = (vsync_count power_on - total_ticks [(66666, 0); (5, 0)] - 1)
         mod VSYNC_PERIOD_4MHZ + 1
    /\ (vsync_count power_on - total_ticks [(66666, 0); (5, 0)] - 1)
       mod VSYNC_PERIOD_4MHZ + 1 = 66661.
Proof.
  destruct (option_defined (run_calls [(66666, 0); (5, 0)] power_on))
    as [[outs s'] E]; [vm_compute; reflexivity|].
  exists outs, s'. split; [exact E|]. split; [|reflexivity].
  apply (vsync_count_closed_form chips_pins_contract [(66666, 0); (5, 0)]
           power_on outs s');
    [eval_hyp.. | exact E].
Defined.

Lemma only_writes_change_machine_witness :
  exists s' p',
    rygar_tick_main 1 (read_cycle 0xF800) power_on = Some (s', p')
    /\ s' = ticked 1 power_on.
Proof.
  destruct (option_defined (rygar_tick_main 1 (read_cycle 0xF800) power_on))
    as [[s' p'] E]; [vm_compute; reflexivity|].
  exists s', p'. split; [exact E|].
  apply (only_writes_change_machine chips_pins_contract 1
           (read_cycle 0xF800) power_on s' p'); [eval_hyp.. | exact E].
Defined.

Lemma unmapped_writes_ignored_witness :
  rygar_tick_main 1 (write_cycle 0x1234 0xFF) power_on
  = Some (ticked 1 power_on, drive_int 1 (write_cycle 0x1234 0xFF) power_on).
Proof.
  apply (unmapped_writes_ignored chips_pins_contract 1
           (write_cycle 0x1234 0xFF) power_on); [eval_hyp..|].
  left. vm_compute. reflexivity.
Defined.

Lemma roms_and_inputs_untouched_witness :
  exists outs s',
    run_calls [(1, write_cycle 0x0000 0xFF); (1, write_cycle 0xF800 0x01)]
      power_on = Some (outs, s')
    /\ rom (main s') = rom (main power_on)
    /\ banked_rom (main s') = banked_rom (main power_on)
    /\ joystick (main s') = joystick (main power_on)
    /\ buttons (main s') = buttons (main power_on)
    /\ sys (main s') = sys (main power_on).
Proof.
  destruct (option_defined
              (run_calls
                 [(1, write_cycle 0x0000 0xFF); (1, write_cycle 0xF800 0x01)]
                 power_on)) as [[outs s'] E]; [vm_compute; reflexivity|].
  exists outs, s'. split; [exact E|].
  apply (roms_and_inputs_untouched chips_pins_contract
           [(1, write_cycle 0x0000 0xFF); (1, write_cycle 0xF800 0x01)]
           power_on outs s');
    [eval_hyp.. | exact E].
Defined.

Lemma ram_write_then_read_witness :
  exists s1 q1 q2,
    rygar_tick_main 1 (write_cycle 0xC123 0x5A) power_on = Some (s1, q1)
    /\ rygar_tick_main 1 (read_cycle 0xC123) s1 = Some (ticked 1 s1, q2)
    /\ Z80_GET_DATA q2 = Z80_GET_DATA (write_cycle 0xC123 0x5A).
Proof.
  destruct (ram_write_then_read chips_pins_contract 1 1
              (write_cycle 0xC123 0x5A) (read_cycle 0xC123) power_on)
    as (s1 & q1 & q2 & H1 & H2 & Hsame & _); [eval_hyp..|].
  exists s1, q1, q2. split; [exact H1|]. split; [exact H2|].
  apply Hsame. reflexivity.
Defined.

Lemma palette_word_written_witness :
  let word :=
    Z.lor (Z.lor (Z.lor 0xff000000 (Z.shiftl (replicate_low_nibble 0x05) 16))
             (Z.shiftl (replicate_low_nibble 0xAB) 8))
      (replicate_high_nibble 0xAB) in
  let s' := set_palette (<[Z.to_nat 3 := word]> (palette power_on)) power_on in
  word = 0xFF55BBAA
  /\ (s1 ← rygar_update_palette (2 * 3) 0x05 power_on;
      rygar_update_palette (2 * 3 + 1) 0xAB s1) = Some s'
  /\ (s1 ← rygar_update_palette (2 * 3 + 1) 0xAB power_on;
      rygar_update_palette (2 * 3) 0x05 s1) = Some s'.
Proof.
  intros word s'. split; [reflexivity|].
  destruct (palette_word_written power_on 3 0x05 0xAB) as (H1 & H2 & _);
    [eval_hyp..|].
  split; [exact H1 | exact H2].
Defined.

Lemma palette_cache_coherent_witness :
  exists outs s',
    run_calls [(1, write_cycle 0xE800 0x05); (1, write_cycle 0xE801 0xAB)]
      power_on = Some (outs, s')
    /\ palette_coherent s' = true.
Proof.
  destruct (option_defined
              (run_calls
                 [(1, write_cycle 0xE800 0x05); (1, write_cycle 0xE801 0xAB)]
                 power_on)) as [[outs s'] E]; [vm_compute; reflexivity|].
  exists outs, s'. split; [exact E|].
  apply (palette_cache_coherent chips_pins_contract
           [(1, write_cycle 0xE800 0x05); (1, write_cycle 0xE801 0xAB)]
           power_on outs s');
    [eval_hyp.. | exact E].
Defined.

Lemma char_tile_info_range_witness :
  exists t, char_tile_info power_on 5 = Some t
            /\ 0 <= code t < 0x400 /\ 0 <= color t < 16.
Proof. apply (char_tile_info_range power_on 5). eval_hyp. Defined.

Lemma fg_tile_info_range_witness :
  exists t, fg_tile_info power_on 5 = Some t
            /\ 0 <= code t < 0x800 /\ 0 <= color t < 16.
Proof. apply (fg_tile_info_range power_on 5). eval_hyp. Defined.

Lemma bg_tile_info_range_witness :
  exists t, bg_tile_info power_on 5 = Some t
            /\ 0 <= code t < 0x800 /\ 0 <= color t < 16.
Proof. apply (bg_tile_info_range power_on 5). eval_hyp. Defined.

Lemma changed_tile_is_dirty_witness :
  exists s' p',
    rygar_tick_main 1 (write_cycle 0xD405 0x30) power_on = Some (s', p')
    /\ char_tile_info s' 5 = Some {| code := 0; color := 3 |}
    /\ char_tile_info power_on 5 = Some {| code := 0; color := 0 |}
    /\ 5 ∈ dirty (char_tilemap s').
Proof.
  destruct (option_defined
              (rygar_tick_main 1 (write_cycle 0xD405 0x30) power_on))
    as [[s' p'] E]; [vm_compute; reflexivity|].
  assert (Hnew : (sp ← rygar_tick_main 1 (write_cycle 0xD405 0x30) power_on;
                  char_tile_info sp.1 5)
                 = Some {| code := 0; color := 3 |})
    by (vm_compute; reflexivity).
  rewrite E in Hnew. cbn [mbind option_bind fst] in Hnew.
  assert (Hold : char_tile_info power_on 5
                 = Some {| code := 0; color := 0 |})
    by (vm_compute; reflexivity).
  exists s', p'. split; [exact E|]. split; [exact Hnew|].
  split; [exact Hold|].
  apply (proj1 (changed_tile_is_dirty 1
                  (write_cycle 0xD405 0x30) power_on s' p' 5
                  ltac:(eval_hyp) ltac:(eval_hyp) ltac:(eval_hyp) E)).
  rewrite Hnew, Hold. discriminate.
Defined.

Lemma key_events_witness :
  pressed SAPP_KEYCODE_LEFT (app_input (key_down SAPP_KEYCODE_LEFT) power_on)
  = true
  /\ pressed SAPP_KEYCODE_Z (app_input (key_down SAPP_KEYCODE_LEFT) power_on)
     = pressed SAPP_KEYCODE_Z power_on.
Proof.
  destruct (key_events SAPP_KEYCODE_LEFT SAPP_KEYCODE_Z power_on)
    as (Hd & _ & Ho).
  split; [exact Hd|]. apply Ho. vm_compute. discriminate.
Defined.

Lemma key_state_is_read_witness :
  exists q_down q_up,
    rygar_tick_main 1 (read_cycle 0xF801)
      (app_input (key_down SAPP_KEYCODE_X) power_on)
    = Some (ticked 1 (app_input (key_down SAPP_KEYCODE_X) power_on), q_down)
    /\ Z.testbit (Z80_GET_DATA q_down) (key_bit SAPP_KEYCODE_X) = true
    /\ rygar_tick_main 1 (read_cycle 0xF801)
         (app_input (key_up SAPP_KEYCODE_X) power_on)
       = Some (ticked 1 (app_input (key_up SAPP_KEYCODE_X) power_on), q_up)
    /\ Z.testbit (Z80_GET_DATA q_up) (key_bit SAPP_KEYCODE_X) = false.
Proof.
  apply (key_state_is_read chips_pins_contract SAPP_KEYCODE_X 1
           (read_cycle 0xF801) power_on); eval_hyp.
Defined.

Lemma rygar_draw_copy_pixels_witness :
  exists out,
    rygar_draw_copy power_on (zeros 0x10000) 256 = Some out
    /\ Z.of_nat (length out) = SCREEN_WIDTH * SCREEN_HEIGHT
    /\ forall i, 0 <= i < SCREEN_WIDTH * SCREEN_HEIGHT ->
       exists px c, array_get (zeros 0x10000) (16 * 256 + i) = Some px
                    /\ array_get (palette power_on) px = Some c
                    /\ array_get out i = Some c.
Proof.
  destruct (option_defined (rygar_draw_copy power_on (zeros 0x10000) 256))
    as [out E]; [vm_compute; reflexivity|].
  exists out. split; [exact E|].
  exact (rygar_draw_copy_pixels power_on (zeros 0x10000) 256 out E).
Defined.

Lemma rygar_draw_copy_defined_witness :
  exists out, rygar_draw_copy power_on (zeros 0x10000) 256 = Some out.
Proof.
  apply (rygar_draw_copy_defined power_on (zeros 0x10000) 256); eval_hyp.
Defined.

Lemma bank_select_then_read_witness :
  let bank :=
    Z.shiftr (Z.land (Z80_GET_DATA (write_cycle 0xF808 0x28)) 0x78) 3 in
  bank = 5
  /\ exists s1 q1 q2 b,
       rygar_tick_main 1 (write_cycle 0xF808 0x28) power_on = Some (s1, q1)
       /\ current_bank (main s1) = bank /\ 0 <= bank < 16
       /\ rygar_tick_main 1 (read_cycle 0xF010) s1 = Some (ticked 1 s1, q2)
       /\ array_get (banked_rom (main power_on))
            (bank * BANK_WINDOW_SIZE
             + (Z80_GET_ADDR (read_cycle 0xF010) - BANK_WINDOW_START))
          = Some b
       /\ Z80_GET_DATA q2 = b.
Proof.
  intros bank. split; [reflexivity|].
  apply (bank_select_then_read chips_pins_contract 1 1
           (write_cycle 0xF808 0x28) (read_cycle 0xF010) power_on); eval_hyp.
Defined.

Lemma calls_never_undefined_witness :
  exists outs s',
    run_calls [(1, write_cycle 0xF808 0x28); (1, read_cycle 0xF7FF)] power_on
    = Some (outs, s')
    /\ well_formed s' = true /\ current_bank (main s') < 16.
Proof.
  apply (calls_never_undefined chips_pins_contract
           [(1, write_cycle 0xF808 0x28); (1, read_cycle 0xF7FF)] power_on);
    eval_hyp.
Defined.
